(** * Pump performance report: classification, analysis and report assembly

    A shallow embedding of [app.py]: [determine_pump_type],
    [analyze_amperage], [analyze_efficiency_distribution] and
    [generate_report_content], and the properties of the specification
    that concern them.

    Modelling conventions.
    - A numeric spreadsheet cell is a [cell]: either [NaN] (pandas' missing
      value, for which every comparison is [False]) or an exact rational
      [Num q], the exact value of the binary64 number in the cell.
      Comparisons are exact; the result of an arithmetic operation is
      rounded to binary64 by [B64.round]. A cell that pandas hands over as
      an integer of magnitude below [2^53] behaves as the float of the same
      value in every operation modelled here.
    - A sheet name or a column name is a [string] of bytes (UTF-8).
    - A [DataFrame] is its list of column names and its list of rows; a row
      keeps the text of its serial-number cell and an association list
      from column names to cells.
    - [pump_data] is a Python dict iterated in insertion order: an
      association list keyed by sheet name. *)

From Stdlib Require Import List String Ascii Bool Arith ZArith QArith Qabs Qminmax.
From Stdlib Require Import Qround Qpower.
From Stdlib Require Import Lia Lqa Permutation.
From Stdlib Require Import DecimalString.
Import ListNotations.

Local Open Scope string_scope.

(** ** Strings *)

Module Str.

(** [c.lower()] on an ASCII letter; other bytes are unchanged.  No code point
    outside ASCII lowers to a sequence in which an ASCII letter of "single"
    or "tandem" is followed by another ASCII letter, so for the two tests of
    [determine_pump_type] this agrees with Python's [str.lower]. *)
Definition lower_ascii (c : ascii) : ascii :=
  let n := nat_of_ascii c in
  if (65 <=? n)%nat && (n <=? 90)%nat then ascii_of_nat (n + 32) else c.

Fixpoint lower (s : string) : string :=
  match s with
  | EmptyString => EmptyString
  | String c s' => String (lower_ascii c) (lower s')
  end.

(** [sub in s]: [sub] occurs in [s] as a contiguous substring. *)
Fixpoint contains (sub s : string) : bool :=
  String.prefix sub s ||
  match s with
  | EmptyString => false
  | String _ s' => contains sub s'
  end.

(** ["sep".join(lines)] *)
Fixpoint join (sep : string) (lines : list string) : string :=
  match lines with
  | [] => ""
  | [l] => l
  | l :: rest => l ++ sep ++ join sep rest
  end.

(** [str(n)] for a non-negative integer. *)
Definition of_nat (n : nat) : string := NilZero.string_of_uint (Nat.to_uint n).

Definition of_Z (z : Z) : string :=
  if (z <? 0)%Z then "-" ++ of_nat (Z.to_nat (- z)) else of_nat (Z.to_nat z).

(** [c * n] for a one-character string [c]. *)
Fixpoint rep (n : nat) (c : ascii) : string :=
  match n with
  | O => ""
  | S k => String c (rep k c)
  end.

End Str.

(** ** Numbers *)

Local Open Scope list_scope.
Local Open Scope Q_scope.

Definition Qltb (x y : Q) : bool := negb (Qle_bool y x).

(** A numeric cell. *)
Inductive cell : Type :=
  | NaN
  | Num (q : Q).

(** [c > 0]: [False] on a missing value. *)
Definition gt0 (c : cell) : bool :=
  match c with
  | NaN => false
  | Num q => Qltb 0 q
  end.

(** The value of a cell that passed [c > 0]. *)
Definition positive (c : cell) : option Q :=
  match c with
  | NaN => None
  | Num q => if Qltb 0 q then Some q else None
  end.

(** ** Data frames *)

Record Row : Type := mkRow {
  sr_no : string;                  (* text of the 'Pump Sr. No' cell *)
  cells : list (string * cell)     (* numeric cells by column name *)
}.

Record DataFrame : Type := mkDF {
  columns : list string;
  rows : list Row
}.

(** [col in df.columns] *)
Definition has_column (df : DataFrame) (col : string) : bool :=
  existsb (String.eqb col) (columns df).

Fixpoint lookup (col : string) (l : list (string * cell)) : cell :=
  match l with
  | [] => NaN
  | (k, v) :: l' => if String.eqb col k then v else lookup col l'
  end.

(** [row[col]] for a column of the frame; a cell the sheet left empty is
    [NaN]. *)
Definition at_col (r : Row) (col : string) : cell := lookup col (cells r).

(** [row.get(col, default)]: the default is returned exactly when the frame
    has no such column. *)
Definition row_get (df : DataFrame) (r : Row) (col : string) (default : cell) : cell :=
  if has_column df col then at_col r col else default.

(** [df.iterrows()] with the default [RangeIndex]. *)
Definition iterrows (df : DataFrame) : list (nat * Row) :=
  combine (seq 0 (List.length (rows df))) (rows df).

(** [len(df)] *)
Definition len (df : DataFrame) : nat := List.length (rows df).

(** [row.get('Pump Sr. No', f'Unit_{idx+1}')] *)
Definition unit_id_of (df : DataFrame) (idx : nat) (r : Row) : string :=
  if has_column df "Pump Sr. No" then sr_no r
  else ("Unit_" ++ Str.of_nat (idx + 1))%string.

(** ** Pump type detection *)

Inductive PumpType : Type := Single | Tandem.

Definition PumpType_eqb (a b : PumpType) : bool :=
  match a, b with
  | Single, Single | Tandem, Tandem => true
  | _, _ => false
  end.

(** [(df['Eff%P2'] > 0).sum()] *)
Definition count_positive (df : DataFrame) (col : string) : nat :=
  List.length (filter (fun r => gt0 (at_col r col)) (rows df)).

Definition determine_pump_type (df : DataFrame) (sheet_name : string) : PumpType :=
  if Str.contains "single" (Str.lower sheet_name) then Single
  else if Str.contains "tandem" (Str.lower sheet_name) then Tandem
  else
    let p2_columns :=
      filter (fun col => Str.contains "P2" col && Str.contains "Eff%P2" col)
             (columns df) in
    match p2_columns with
    | _ :: _ =>
        let non_zero_p2_eff :=
          if has_column df "Eff%P2" then count_positive df "Eff%P2" else O in
        if Qltb (inject_Z (Z.of_nat (len df)) * (1 # 2))
                (inject_Z (Z.of_nat non_zero_p2_eff))
        then Tandem else Single
    | [] => Single
    end.

(** The entry that [analyze_pump_data] stores for one sheet. *)
Record SheetData : Type := mkSheet {
  data : DataFrame;
  type : PumpType;
  count : nat
}.

(** [pump_data]: sheet name to sheet entry, in insertion order. *)
Definition PumpData : Type := list (string * SheetData).

(** The part of [analyze_pump_data] that follows the location of the header
    row: one entry per sheet whose frame could be read. *)
Definition analyze_pump_data (sheets : list (string * DataFrame)) : PumpData * nat :=
  fold_left
    (fun (acc : PumpData * nat) (s : string * DataFrame) =>
       let (pump_data, total_pumps) := acc in
       let (sheet_name, df) := s in
       let pump_type := determine_pump_type df sheet_name in
       (pump_data ++ [(sheet_name, mkSheet df pump_type (len df))],
        (total_pumps + len df)%nat))
    sheets ([], O).

(** Python's [min(a, b)] and [max(a, b)]: the first argument wins a tie. *)
Definition pymin (a b : Q) : Q := if Qltb b a then b else a.
Definition pymax (a b : Q) : Q := if Qltb a b then b else a.

(** [df[df[col] > 0][col]] *)
Fixpoint keep_positive (l : list cell) : list Q :=
  match l with
  | [] => []
  | c :: l' =>
      match positive c with
      | Some q => q :: keep_positive l'
      | None => keep_positive l'
      end
  end.

Definition column (df : DataFrame) (col : string) : list cell :=
  map (fun r => at_col r col) (rows df).

Definition non_zero_values (df : DataFrame) (col : string) : list Q :=
  keep_positive (column df col).

(** [Series.min()] and [Series.max()] of a non-empty series. *)
Definition series_min (x : Q) (xs : list Q) : Q := fold_left pymin xs x.
Definition series_max (x : Q) (xs : list Q) : Q := fold_left pymax xs x.

(** ** Amperage analysis *)

Inductive condition : Type := bar_0 | bar_200.

Inductive side : Type := P1 | P2.

Definition amp_col (c : condition) (s : side) : string :=
  match c, s with
  | bar_0, P1 => "0 Bar Amp P1"
  | bar_0, P2 => "0 Bar Amp P2"
  | bar_200, P1 => "200 Bar Amp P1"
  | bar_200, P2 => "200 Bar Amp P2"
  end.

(** The running minimum starts at [float('inf')]. *)
Inductive ext : Type :=
  | Inf
  | Fin (q : Q).

Definition ext_min (a : ext) (b : Q) : ext :=
  match a with
  | Inf => Fin b
  | Fin m => Fin (pymin m b)
  end.

(** ** Binary64 arithmetic

    A Python float is a binary64 number: 53 significant bits, exponents
    from -1022, round to nearest with ties to even. The numbers are kept as
    the rationals they are; [round] gives the binary64 number nearest to an
    exact result, as long as that is finite. *)

Module B64.

Definition prec : Z := 53.
Definition emin : Z := (-1022)%Z.
Definition emax : Z := 1024%Z.

(** The [e] with [2^e <= q < 2^(e+1)], for [q > 0]. *)
Definition binade (q : Q) : Z :=
  let e := (Z.log2 (Qnum q) - Z.log2 (Zpos (Qden q)))%Z in
  if Qle_bool (2 ^ e) q then e else (e - 1)%Z.

(** The distance between the binary64 numbers around [q > 0]; below
    [2^emin] it is that of the subnormal numbers. *)
Definition ulp (q : Q) : Q := 2 ^ (Z.max (binade q) emin - (prec - 1)).

(** The nearest integer, the even one of two that are as near. *)
Definition rne (q : Q) : Z :=
  let f := Qfloor q in
  let r := q - inject_Z f in
  if Qltb r (1 # 2) then f
  else if Qltb (1 # 2) r then (f + 1)%Z
  else if Z.even f then f else (f + 1)%Z.

Definition round_pos (q : Q) : Q := inject_Z (rne (q / ulp q)) * ulp q.

(** The binary64 number nearest to [q]. *)
Definition round (q : Q) : Q :=
  match q ?= 0 with
  | Eq => 0
  | Gt => round_pos q
  | Lt => - round_pos (- q)
  end.

(** [q] is the value of a finite binary64 number. *)
Definition representable (q : Q) : Prop :=
  round q == q /\ Qabs q < 2 ^ emax.

(** A rounded result of magnitude [2^emax] or more is [inf]. *)
Definition finite (q : Q) : ext :=
  if Qle_bool (2 ^ emax) (Qabs q) then Inf else Fin q.

(** [a + y] for [a] finite or [inf] and [y >= 0] finite. *)
Definition add (a : ext) (y : Q) : ext :=
  match a with
  | Inf => Inf
  | Fin x => finite (round (x + y))
  end.

(** [a / n] for [a] finite or [inf] and a number [n >= 1]. *)
Definition div (a : ext) (n : Q) : ext :=
  match a with
  | Inf => Inf
  | Fin x => Fin (round (x / n))
  end.

End B64.

Module Amp.

Record Match : Type := mkMatch {
  unit_id : string;
  p1_amp : Q;
  p2_amp : Q;
  difference : Q;
  percentage_diff : Q
}.

Record Stat : Type := mkStat {
  min : ext;
  max : Q;
  unit_count : nat;
  tandem_analysis : list Match
}.

(** [amp_analysis]: the two-key dict. *)
Record Analysis : Type := mkAnalysis {
  at_0_bar : Stat;
  at_200_bar : Stat
}.

Definition get (a : Analysis) (c : condition) : Stat :=
  match c with
  | bar_0 => at_0_bar a
  | bar_200 => at_200_bar a
  end.

Definition upd (a : Analysis) (c : condition) (f : Stat -> Stat) : Analysis :=
  match c with
  | bar_0 => mkAnalysis (f (at_0_bar a)) (at_200_bar a)
  | bar_200 => mkAnalysis (at_0_bar a) (f (at_200_bar a))
  end.

Definition init_stat : Stat := mkStat Inf 0 O [].

Definition init : Analysis := mkAnalysis init_stat init_stat.

(** Single sheet, one condition (Step 3). *)
Definition single (df : DataFrame) (c : condition) (st : Stat) : Stat :=
  let col_name := amp_col c P1 in
  if has_column df col_name then
    let st1 :=
      match non_zero_values df col_name with
      | [] => st
      | x :: xs =>
          mkStat (ext_min (min st) (series_min x xs))
                 (pymax (max st) (series_max x xs))
                 (unit_count st) (tandem_analysis st)
      end in
    mkStat (min st1) (max st1) (unit_count st1 + len df) (tandem_analysis st1)
  else st.

(** Tandem sheet, one condition, one row (Steps 4a to 4c). *)
Definition tandem_row (df : DataFrame) (c : condition) (st : Stat)
    (ir : nat * Row) : Stat :=
  let (idx, row) := ir in
  let p1_amp := at_col row (amp_col c P1) in
  let p2_amp := at_col row (amp_col c P2) in
  match positive p1_amp, positive p2_amp with
  | Some p1, Some p2 =>
      let difference := Qabs (B64.round (p1 - p2)) in
      let percentage_diff :=
        B64.round (B64.round (difference / pymax p1 p2) * 100) in
      mkStat (ext_min (ext_min (min st) p1) p2)
             (pymax (pymax (max st) p1) p2)
             (unit_count st)
             (tandem_analysis st ++
                [mkMatch (unit_id_of df idx row) p1 p2 difference percentage_diff])
  | _, _ => st
  end.

(** Tandem sheet, one condition (Step 4). *)
Definition tandem (df : DataFrame) (c : condition) (st : Stat) : Stat :=
  if has_column df (amp_col c P1) && has_column df (amp_col c P2) then
    let st1 := fold_left (tandem_row df c) (iterrows df) st in
    mkStat (min st1) (max st1) (unit_count st1 + len df) (tandem_analysis st1)
  else st.

(** The body of the loop over the sheets (Step 2). *)
Definition sheet (a : Analysis) (entry : string * SheetData) : Analysis :=
  let sheet_data := snd entry in
  let df := data sheet_data in
  match type sheet_data with
  | Single => upd (upd a bar_0 (single df bar_0)) bar_200 (single df bar_200)
  | Tandem => upd (upd a bar_0 (tandem df bar_0)) bar_200 (tandem df bar_200)
  end.

(** The accumulator after the loop over the sheets, before Step 5. *)
Definition folded (pump_data : PumpData) : Analysis :=
  fold_left sheet pump_data init.

(** Step 5, for one condition. *)
Definition no_reading_to_zero (st : Stat) : Stat :=
  match min st with
  | Inf => mkStat (Fin 0) (max st) (unit_count st) (tandem_analysis st)
  | Fin _ => st
  end.

End Amp.

Definition analyze_amperage (pump_data : PumpData) : Amp.Analysis :=
  let amp_analysis := Amp.folded pump_data in
  Amp.upd (Amp.upd amp_analysis bar_0 Amp.no_reading_to_zero)
          bar_200 Amp.no_reading_to_zero.

(** ** Efficiency distribution analysis *)

Module Eff.

(** [efficiency_ranges]: the three-key dict. *)
Record Ranges : Type := mkRanges {
  r90_to_92 : nat;
  r92_to_94 : nat;
  r94_plus : nat
}.

Record Match : Type := mkMatch {
  unit_id : string;
  p1_eff : Q;
  p2_eff : Q;
  difference : Q;
  average_eff : ext
}.

(** The three values the analyzer returns, as they stand during the loop. *)
Record Acc : Type := mkAcc {
  efficiency_ranges : Ranges;
  total_individual_pumps : nat;
  tandem_matching_analysis : list Match
}.

Definition init : Acc := mkAcc (mkRanges 0 0 0) O [].

(** The [if]/[elif]/[elif] chain that categorizes one efficiency value. *)
Definition categorize (r : Ranges) (eff : Q) : Ranges :=
  if Qle_bool 90 eff && Qltb eff 92 then
    mkRanges (r90_to_92 r + 1) (r92_to_94 r) (r94_plus r)
  else if Qle_bool 92 eff && Qltb eff 94 then
    mkRanges (r90_to_92 r) (r92_to_94 r + 1) (r94_plus r)
  else if Qle_bool 94 eff then
    mkRanges (r90_to_92 r) (r92_to_94 r) (r94_plus r + 1)
  else r.

(** Single sheet (Step 4). *)
Definition single (df : DataFrame) (acc : Acc) : Acc :=
  if has_column df "Eff%P1" then
    let valid_efficiencies := non_zero_values df "Eff%P1" in
    mkAcc (fold_left categorize valid_efficiencies (efficiency_ranges acc))
          (total_individual_pumps acc + List.length valid_efficiencies)
          (tandem_matching_analysis acc)
  else acc.

(** Tandem sheet, one row (Steps 5a and 5b). *)
Definition tandem_row (df : DataFrame) (acc : Acc) (ir : nat * Row) : Acc :=
  let (idx, row) := ir in
  let p1_eff := row_get df row "Eff%P1" (Num 0) in
  let p2_eff := row_get df row "Eff%P2" (Num 0) in
  match positive p1_eff, positive p2_eff with
  | Some p1, Some p2 =>
      let difference := Qabs (B64.round (p1 - p2)) in
      let average_eff := B64.div (B64.add (Fin p1) p2) 2 in
      mkAcc (fold_left categorize [p1; p2] (efficiency_ranges acc))
            (total_individual_pumps acc + 2)
            (tandem_matching_analysis acc ++
               [mkMatch (unit_id_of df idx row) p1 p2 difference average_eff])
  | _, _ => acc
  end.

(** Tandem sheet (Step 5). *)
Definition tandem (df : DataFrame) (acc : Acc) : Acc :=
  fold_left (tandem_row df) (iterrows df) acc.

(** The body of the loop over the sheets (Step 3). *)
Definition sheet (acc : Acc) (entry : string * SheetData) : Acc :=
  let sheet_data := snd entry in
  let df := data sheet_data in
  match type sheet_data with
  | Single => single df acc
  | Tandem => tandem df acc
  end.

Definition sum (r : Ranges) : nat := (r90_to_92 r + r92_to_94 r + r94_plus r)%nat.

End Eff.

Definition analyze_efficiency_distribution (pump_data : PumpData) : Eff.Acc :=
  fold_left Eff.sheet pump_data Eff.init.

(** ** Report content *)

Module Report.

(** [f"{x:.df}"] for a number [x]: the decimal expansion with [d] digits
    after the point, the exact value rounded half to even. *)
Definition fixed (d : nat) (x : Q) : string :=
  let scale := (10 ^ Z.of_nat d)%Z in
  let num := (Z.abs (Qnum x) * scale)%Z in
  let den := Zpos (Qden x) in
  let fl := (num / den)%Z in
  let rem := (num mod den)%Z in
  let r :=
    if (2 * rem <? den)%Z then fl
    else if (den <? 2 * rem)%Z then (fl + 1)%Z
    else if Z.even fl then fl else (fl + 1)%Z in
  let frac := Str.of_Z (r mod scale) in
  ((if (Qnum x <? 0)%Z then "-" else "") ++ Str.of_Z (r / scale) ++
   (if (d =? 0)%nat then ""
    else "." ++ Str.rep (d - String.length frac) "0" ++ frac))%string.

Definition fixed_ext (d : nat) (x : ext) : string :=
  match x with
  | Inf => "inf"
  | Fin q => fixed d q
  end.

(** [condition.replace('_', ' ').title()] on '0_bar' and '200_bar'. *)
Definition condition_name (c : condition) : string :=
  match c with
  | bar_0 => "0 Bar"
  | bar_200 => "200 Bar"
  end.

(** [max(l, key=f)] of a non-empty list: the first element of greatest key. *)
Definition max_by {A : Type} (key : A -> Q) (x : A) (xs : list A) : A :=
  fold_left (fun best y => if Qltb (key best) (key y) then y else best) xs x.

(** [sum(l)] of non-negative floats: from 0, left to right, every partial sum
    rounded, as CPython adds them up to version 3.11. From 3.12 [sum] also
    carries a compensation term for the rounding errors, which is not
    modelled; no property below depends on the digits of this sum. *)
Definition total (l : list Q) : ext := fold_left B64.add l (Fin 0).

(** The loop over the sheets of Section 2: the lines appended, the running
    [total_units] and [has_tandem]. *)
Definition config_step (st : list string * nat * bool)
    (entry : string * SheetData) : list string * nat * bool :=
  let '(report_lines, total_units, has_tandem) := st in
  let (sheet_name, d) := entry in
  match type d with
  | Tandem =>
      (report_lines ++
         [(sheet_name ++ ": " ++ Str.of_nat (count d) ++
           " Tandem units (each with 2 pumps)")%string],
       (total_units + count d)%nat, true)
  | Single =>
      (report_lines ++
         [(sheet_name ++ ": " ++ Str.of_nat (count d) ++
           " Single pump units")%string],
       (total_units + count d)%nat, has_tandem)
  end.

(** The tandem matching lines of one condition. *)
Definition amp_matching_lines (ta : list Amp.Match) : list string :=
  match ta with
  | [] => []
  | _ :: _ =>
      let mismatched_units :=
        filter (fun u => Qltb 10 (Amp.percentage_diff u)) ta in
      ["  Tandem pump matching analysis:";
       ("    - Total tandem units: " ++ Str.of_nat (List.length ta))%string;
       ("    - Units with >10% P1/P2 difference: " ++
        Str.of_nat (List.length mismatched_units))%string] ++
      match mismatched_units with
      | u :: us =>
          let worst_mismatch := max_by Amp.percentage_diff u us in
          [("    - Worst mismatch: " ++
            fixed 1 (Amp.percentage_diff worst_mismatch) ++
            "% (Unit " ++ Amp.unit_id worst_mismatch ++ ")")%string]
      | [] => ["    - All tandem units within 10% tolerance"]
      end
  end.

(** The lines appended for one condition in Section 3. *)
Definition condition_block (c : condition) (st : Amp.Stat) : list string :=
  [(condition_name c ++ " Conditions:")%string] ++
  (if (0 <? Amp.unit_count st)%nat then
     (if Qltb 0 (Amp.max st) then
        [("  Minimum amperage: " ++ fixed_ext 2 (Amp.min st) ++ " A")%string;
         ("  Maximum amperage: " ++ fixed 2 (Amp.max st) ++ " A")%string]
      else []) ++
     amp_matching_lines (Amp.tandem_analysis st) ++
     [("  Total units analyzed: " ++ Str.of_nat (Amp.unit_count st))%string]
   else ["  No data available"]) ++
  [""].

(** The tandem matching lines of Section 4. *)
Definition eff_matching_lines (tma : option (list Eff.Match)) (has_tandem : bool)
    : list string :=
  match tma with
  | Some ((u0 :: _) as l) =>
      if has_tandem then
        let avg_differences := map Eff.difference l in
        let avg_diff :=
          B64.div (total avg_differences)
                  (inject_Z (Z.of_nat (List.length avg_differences))) in
        let mismatched_eff_units :=
          filter (fun u => Qltb 3 (Eff.difference u)) l in
        [""; "TANDEM PUMP MATCHING (P1 vs P2):"; Str.rep 33 "-";
         ("Total tandem units analyzed: " ++ Str.of_nat (List.length l))%string;
         ("Average efficiency difference: " ++ fixed_ext 2 avg_diff ++ "%")
           %string;
         ("Units with >3% efficiency difference: " ++
          Str.of_nat (List.length mismatched_eff_units))%string] ++
        match mismatched_eff_units with
        | u :: us =>
            let worst_eff_mismatch := max_by Eff.difference u us in
            [("Worst efficiency mismatch: " ++
              fixed 2 (Eff.difference worst_eff_mismatch) ++
              "% (Unit " ++ Eff.unit_id worst_eff_mismatch ++ ")")%string]
        | [] => ["All tandem units within 3% efficiency tolerance"]
        end
      else []
  | _ => []
  end.

(** [report_lines] at the end of [generate_report_content]. *)
Definition lines (pump_data : PumpData) (total_pumps : nat)
    (amp_analysis : Amp.Analysis) (efficiency_ranges : Eff.Ranges)
    (total_efficiency_readings : nat)
    (tandem_matching_analysis : option (list Eff.Match)) : list string :=
  let report_lines :=
    ["PUMP PERFORMANCE TEST REPORT"; Str.rep 50 "="; "";
     "PUMP CONFIGURATION ANALYSIS:"; Str.rep 28 "-"] in
  let '(report_lines, total_units, has_tandem) :=
    fold_left config_step pump_data (report_lines, O, false) in
  let report_lines :=
    report_lines ++
    [("Total units tested: " ++ Str.of_nat total_units)%string;
     ("Total individual pumps: " ++ Str.of_nat total_efficiency_readings)%string;
     ""] in
  let report_lines := report_lines ++ ["AMPERAGE ANALYSIS:"; Str.rep 18 "-"] in
  let report_lines :=
    fold_left
      (fun ls c => ls ++ condition_block c (Amp.get amp_analysis c))
      [bar_0; bar_200] report_lines in
  let report_lines :=
    report_lines ++
    ["EFFICIENCY ANALYSIS:"; Str.rep 20 "-";
     ("Individual pump efficiencies analyzed: " ++
      Str.of_nat total_efficiency_readings)%string;
     "";
     ("90% - 92%:     " ++ Str.of_nat (Eff.r90_to_92 efficiency_ranges) ++
      " pumps")%string;
     ("92% - 94%:     " ++ Str.of_nat (Eff.r92_to_94 efficiency_ranges) ++
      " pumps")%string;
     ("94% and above: " ++ Str.of_nat (Eff.r94_plus efficiency_ranges) ++
      " pumps")%string] in
  report_lines ++ eff_matching_lines tandem_matching_analysis has_tandem.

End Report.

Definition generate_report_content (pump_data : PumpData) (total_pumps : nat)
    (amp_analysis : Amp.Analysis) (efficiency_ranges : Eff.Ranges)
    (total_efficiency_readings : nat)
    (tandem_matching_analysis : option (list Eff.Match)) : string :=
  Str.join (String "010" "")
    (Report.lines pump_data total_pumps amp_analysis efficiency_ranges
       total_efficiency_readings tandem_matching_analysis).

(** The main processing logic: both analyses, then the report.  The branch
    is taken when [pump_data] is non-empty and [total_pumps > 0]. *)
Definition main (sheets : list (string * DataFrame)) : option string :=
  let (pump_data, total_pumps) := analyze_pump_data sheets in
  match pump_data with
  | [] => None
  | _ :: _ =>
      if (0 <? total_pumps)%nat then
        let amp_analysis := analyze_amperage pump_data in
        let r := analyze_efficiency_distribution pump_data in
        Some (generate_report_content pump_data total_pumps amp_analysis
                (Eff.efficiency_ranges r) (Eff.total_individual_pumps r)
                (Some (Eff.tandem_matching_analysis r)))
      else None
  end.

(** ** The readings behind the statistics

    What the specification calls the readings an analyzer counts, written
    record by record and independently of the accumulators above. *)

(** The reading of a record's field: absent when the frame has no such
    column. *)
Definition reading (df : DataFrame) (row : Row) (col : string) : option cell :=
  if has_column df col then Some (at_col row col) else None.

(** [Some c > 0], false for an absent field. *)
Definition reading_gt0 (o : option cell) : bool :=
  match o with
  | Some c => gt0 c
  | None => false
  end.

Module EffSpec.

(** The efficiency readings one unit contributes: a Single unit its positive
    [Eff%P1]; a Tandem unit both its readings when both are positive. *)
Definition unit_readings (t : PumpType) (df : DataFrame) (row : Row) : list Q :=
  match t with
  | Single =>
      if has_column df "Eff%P1" then
        match positive (at_col row "Eff%P1") with
        | Some q => [q]
        | None => []
        end
      else []
  | Tandem =>
      match positive (row_get df row "Eff%P1" (Num 0)),
            positive (row_get df row "Eff%P2" (Num 0)) with
      | Some p1, Some p2 => [p1; p2]
      | _, _ => []
      end
  end.

Definition sheet_readings (sd : SheetData) : list Q :=
  flat_map (unit_readings (type sd) (data sd)) (rows (data sd)).

Definition counted_readings (pump_data : PumpData) : list Q :=
  flat_map (fun entry => sheet_readings (snd entry)) pump_data.

(** The number of readings of a list that lie under 90. *)
Definition below_90 (l : list Q) : nat :=
  List.length (filter (fun q => Qltb q 90) l).

End EffSpec.

Module AmpSpec.

(** The amperage readings one unit folds into the minimum and maximum of a
    condition. *)
Definition unit_values (t : PumpType) (df : DataFrame) (c : condition)
    (row : Row) : list Q :=
  match t with
  | Single =>
      if has_column df (amp_col c P1) then
        match positive (at_col row (amp_col c P1)) with
        | Some q => [q]
        | None => []
        end
      else []
  | Tandem =>
      if has_column df (amp_col c P1) && has_column df (amp_col c P2) then
        match positive (at_col row (amp_col c P1)),
              positive (at_col row (amp_col c P2)) with
        | Some p1, Some p2 => [p1; p2]
        | _, _ => []
        end
      else []
  end.

Definition sheet_values (c : condition) (sd : SheetData) : list Q :=
  flat_map (unit_values (type sd) (data sd) c) (rows (data sd)).

Definition folded_values (c : condition) (pump_data : PumpData) : list Q :=
  flat_map (fun entry => sheet_values c (snd entry)) pump_data.

(** The units a sheet adds to [unit_count] for a condition. *)
Definition sheet_units (c : condition) (sd : SheetData) : nat :=
  match type sd with
  | Single => if has_column (data sd) (amp_col c P1) then len (data sd) else O
  | Tandem =>
      if has_column (data sd) (amp_col c P1) &&
         has_column (data sd) (amp_col c P2)
      then len (data sd) else O
  end.

Definition units (c : condition) (pump_data : PumpData) : nat :=
  fold_right (fun entry n => (sheet_units c (snd entry) + n)%nat) O pump_data.

(** The running minimum [mn] and maximum [mx] against the values [vs] folded
    so far: the minimum is still the sentinel exactly when nothing was
    folded, and is otherwise a least value; the maximum is still the initial
    0 when nothing was folded, and is otherwise a greatest value. *)
Definition tracks (mn : ext) (mx : Q) (vs : list Q) : Prop :=
  match mn with
  | Inf => vs = []
  | Fin m => In m vs /\ forall v, In v vs -> m <= v
  end /\
  match vs with
  | [] => mx = 0
  | _ :: _ => In mx vs /\ forall v, In v vs -> v <= mx
  end.

(** No amperage reading of the condition is positive in the sheet: every
    field of the condition that the frame has is 0, negative or missing in
    every record. *)
Definition no_positive (c : condition) (sd : SheetData) : Prop :=
  forall (s : side) (row : Row),
    In row (rows (data sd)) ->
    reading_gt0 (reading (data sd) row (amp_col c s)) = false.

End AmpSpec.

Module ReportSpec.

(** The configuration line of one sheet. *)
Definition config_line (entry : string * SheetData) : string :=
  match type (snd entry) with
  | Tandem =>
      (fst entry ++ ": " ++ Str.of_nat (count (snd entry)) ++
       " Tandem units (each with 2 pumps)")%string
  | Single =>
      (fst entry ++ ": " ++ Str.of_nat (count (snd entry)) ++
       " Single pump units")%string
  end.

(** The units of all the sheets. *)
Definition total_units (pump_data : PumpData) : nat :=
  list_sum (map (fun entry => count (snd entry)) pump_data).

Definition has_tandem (pump_data : PumpData) : bool :=
  existsb (fun entry => PumpType_eqb (type (snd entry)) Tandem) pump_data.

(** The number of efficiency readings the units of the sheets contribute,
    unit by unit. *)
Definition readings_of_units (pump_data : PumpData) : nat :=
  list_sum
    (map (fun entry =>
            list_sum
              (map (fun row =>
                      List.length
                        (EffSpec.unit_readings (type (snd entry))
                           (data (snd entry)) row))
                   (rows (data (snd entry)))))
         pump_data).

Definition header : list string :=
  ["PUMP PERFORMANCE TEST REPORT"; Str.rep 50 "="; "";
   "PUMP CONFIGURATION ANALYSIS:"; Str.rep 28 "-"].

Definition efficiency_lines (efficiency_ranges : Eff.Ranges)
    (total_efficiency_readings : nat) : list string :=
  ["EFFICIENCY ANALYSIS:"; Str.rep 20 "-";
   ("Individual pump efficiencies analyzed: " ++
    Str.of_nat total_efficiency_readings)%string;
   "";
   ("90% - 92%:     " ++ Str.of_nat (Eff.r90_to_92 efficiency_ranges) ++
    " pumps")%string;
   ("92% - 94%:     " ++ Str.of_nat (Eff.r92_to_94 efficiency_ranges) ++
    " pumps")%string;
   ("94% and above: " ++ Str.of_nat (Eff.r94_plus efficiency_ranges) ++
    " pumps")%string].

End ReportSpec.

(** ** The units behind the match lists and the band counts *)

Module AmpUnits.

(** The entry a record of a Tandem sheet gives for a condition. *)
Definition unit_matches (df : DataFrame) (c : condition) (ir : nat * Row)
    : list Amp.Match :=
  match positive (at_col (snd ir) (amp_col c P1)),
        positive (at_col (snd ir) (amp_col c P2)) with
  | Some p1, Some p2 =>
      [Amp.mkMatch (unit_id_of df (fst ir) (snd ir)) p1 p2
         (Qabs (B64.round (p1 - p2)))
         (B64.round
            (B64.round (Qabs (B64.round (p1 - p2)) / pymax p1 p2) * 100))]
  | _, _ => []
  end.

Definition sheet_matches (c : condition) (sd : SheetData) : list Amp.Match :=
  match type sd with
  | Single => []
  | Tandem =>
      if has_column (data sd) (amp_col c P1) &&
         has_column (data sd) (amp_col c P2)
      then flat_map (unit_matches (data sd) c) (iterrows (data sd))
      else []
  end.

Definition matches (c : condition) (pump_data : PumpData) : list Amp.Match :=
  flat_map (fun entry => sheet_matches c (snd entry)) pump_data.

End AmpUnits.

Module EffUnits.

(** The entry a record of a Tandem sheet gives. *)
Definition unit_matches (df : DataFrame) (ir : nat * Row) : list Eff.Match :=
  match positive (row_get df (snd ir) "Eff%P1" (Num 0)),
        positive (row_get df (snd ir) "Eff%P2" (Num 0)) with
  | Some p1, Some p2 =>
      [Eff.mkMatch (unit_id_of df (fst ir) (snd ir)) p1 p2
         (Qabs (B64.round (p1 - p2))) (B64.div (B64.add (Fin p1) p2) 2)]
  | _, _ => []
  end.

Definition sheet_matches (sd : SheetData) : list Eff.Match :=
  match type sd with
  | Single => []
  | Tandem => flat_map (unit_matches (data sd)) (iterrows (data sd))
  end.

Definition matches (pump_data : PumpData) : list Eff.Match :=
  flat_map (fun entry => sheet_matches (snd entry)) pump_data.

(** The positive [Eff%P1] readings of the Single sheets. *)
Definition single_readings (sd : SheetData) : nat :=
  match type sd with
  | Single =>
      if has_column (data sd) "Eff%P1"
      then count_positive (data sd) "Eff%P1" else O
  | Tandem => O
  end.

(** The number of values of a list in the band from [lo], included, to
    [hi], excluded. *)
Definition in_band (lo hi : Q) (l : list Q) : nat :=
  List.length (filter (fun q => Qle_bool lo q && Qltb q hi) l).

Definition at_least (lo : Q) (l : list Q) : nat :=
  List.length (filter (fun q => Qle_bool lo q) l).

(** Band by band sum of two dicts of counts. *)
Definition add_ranges (a b : Eff.Ranges) : Eff.Ranges :=
  Eff.mkRanges (Eff.r90_to_92 a + Eff.r90_to_92 b)
               (Eff.r92_to_94 a + Eff.r92_to_94 b)
               (Eff.r94_plus a + Eff.r94_plus b).

End EffUnits.

(** ** PDF report *)

Module Pdf.

(** [s.split(sep)] for a one-character separator. *)
Fixpoint split (sep : ascii) (s : string) : list string :=
  match s with
  | EmptyString => [EmptyString]
  | String c s' =>
      if Ascii.eqb c sep then EmptyString :: split sep s'
      else
        match split sep s' with
        | [] => [String c EmptyString]
        | w :: ws => String c w :: ws
        end
  end.

Fixpoint rev (s : string) : string :=
  match s with
  | EmptyString => EmptyString
  | String c s' => (rev s' ++ String c EmptyString)%string
  end.

(** [s.endswith(suffix)] *)
Definition endswith (suffix s : string) : bool :=
  String.prefix (rev suffix) (rev s).

(** The calls made on the [FPDF] object. *)
Inductive op : Type :=
  | add_page
  | image (name : string) (x y w : nat)
  | set_font (family style : string) (size : nat)
  | cell (w h : nat) (txt : string) (ln_ : bool) (align : string)
  | ln (h : nat).

(** The calls of the loop body of Step 5 for one line. *)
Definition line_ops (line : string) : list op :=
  if String.prefix "PUMP PERFORMANCE TEST REPORT" line then
    [set_font "Arial" "B" 14; cell 200 8 line true "C"; set_font "Arial" "" 10]
  else if String.prefix "=" line then
    [ln 2]
  else if endswith ":" line && negb (String.prefix " " line) then
    [set_font "Arial" "B" 11; cell 200 6 line true ""; set_font "Arial" "" 10]
  else if String.prefix "-" line then
    [ln 1]
  else
    [cell 200 5 line true ""].

(** The calls [create_pdf_report] makes on the document, in order, up to the
    final [pdf.output]; [logo_exists] is the result of
    [os.path.exists(logo_path)]. *)
Definition create_pdf_report (logo_exists : bool)
    (report_content customer_name order_no : string) : list op :=
  let pdf := [add_page] in
  let company_name := "VBC HYDRAULICS" in
  let logo_path := "assets/logo.png" in
  let pdf := if logo_exists then pdf ++ [image logo_path 10 8 33] else pdf in
  let pdf :=
    pdf ++ [set_font "Arial" "B" 16; cell 200 10 company_name true "C"; ln 5] in
  let pdf :=
    pdf ++
    [set_font "Arial" "" 12;
     cell 200 10 ("Customer: " ++ customer_name)%string true "";
     cell 200 10 ("Order No.: " ++ order_no)%string true "";
     ln 10] in
  let pdf := pdf ++ [set_font "Arial" "" 10] in
  let lines := split "010" report_content in
  fold_left (fun pdf line => pdf ++ line_ops line) lines pdf.

(** A font: family, style and size. *)
Definition font : Type := (string * string * nat)%type.

(** The texts a sequence of calls prints, each with the font that is current
    when its cell is made, and the font current after the calls. *)
Fixpoint printed (ops : list op) (cur : option font)
    : list (option font * string) * option font :=
  match ops with
  | [] => ([], cur)
  | set_font family style size :: ops' =>
      printed ops' (Some (family, style, size))
  | cell _ _ txt _ _ :: ops' =>
      let (texts, last) := printed ops' cur in ((cur, txt) :: texts, last)
  | _ :: ops' => printed ops' cur
  end.

(** What one line of the report prints. *)
Definition line_text (line : string) : list (option font * string) :=
  if String.prefix "PUMP PERFORMANCE TEST REPORT" line then
    [(Some ("Arial", "B", 14%nat), line)]
  else if String.prefix "=" line then []
  else if endswith ":" line && negb (String.prefix " " line) then
    [(Some ("Arial", "B", 11%nat), line)]
  else if String.prefix "-" line then []
  else [(Some ("Arial", "", 10%nat), line)].

End Pdf.

(** ** The amperage loop of [test_fixed_analysis.py] *)

Module TestFixed.

Record Stat : Type := mkStat {
  min : ext;
  max : Q;
  unit_count : nat
}.

Record Analysis : Type := mkAnalysis {
  at_0_bar : Stat;
  at_200_bar : Stat
}.

Definition get (a : Analysis) (c : condition) : Stat :=
  match c with
  | bar_0 => at_0_bar a
  | bar_200 => at_200_bar a
  end.

Definition upd (a : Analysis) (c : condition) (f : Stat -> Stat) : Analysis :=
  match c with
  | bar_0 => mkAnalysis (f (at_0_bar a)) (at_200_bar a)
  | bar_200 => mkAnalysis (at_0_bar a) (f (at_200_bar a))
  end.

Definition init : Analysis := mkAnalysis (mkStat Inf 0 O) (mkStat Inf 0 O).

Definition single (df : DataFrame) (c : condition) (st : Stat) : Stat :=
  let col_name := amp_col c P1 in
  if has_column df col_name then
    let st1 :=
      match non_zero_values df col_name with
      | [] => st
      | x :: xs =>
          mkStat (ext_min (min st) (series_min x xs))
                 (pymax (max st) (series_max x xs))
                 (unit_count st)
      end in
    mkStat (min st1) (max st1) (unit_count st1 + len df)
  else st.

Definition tandem_row (c : condition) (st : Stat) (ir : nat * Row) : Stat :=
  let (idx, row) := ir in
  match positive (at_col row (amp_col c P1)),
        positive (at_col row (amp_col c P2)) with
  | Some p1, Some p2 =>
      mkStat (ext_min (ext_min (min st) p1) p2)
             (pymax (pymax (max st) p1) p2)
             (unit_count st)
  | _, _ => st
  end.

Definition tandem (df : DataFrame) (c : condition) (st : Stat) : Stat :=
  if has_column df (amp_col c P1) && has_column df (amp_col c P2) then
    let st1 := fold_left (tandem_row c) (iterrows df) st in
    mkStat (min st1) (max st1) (unit_count st1 + len df)
  else st.

Definition sheet (a : Analysis) (entry : string * SheetData) : Analysis :=
  let df := data (snd entry) in
  match type (snd entry) with
  | Single => upd (upd a bar_0 (single df bar_0)) bar_200 (single df bar_200)
  | Tandem => upd (upd a bar_0 (tandem df bar_0)) bar_200 (tandem df bar_200)
  end.

Definition no_reading_to_zero (st : Stat) : Stat :=
  match min st with
  | Inf => mkStat (Fin 0) (max st) (unit_count st)
  | Fin _ => st
  end.

(** The loop over [pump_data] and the handling of the edge case. *)
Definition analyze (pump_data : PumpData) : Analysis :=
  let amp_analysis := fold_left sheet pump_data init in
  upd (upd amp_analysis bar_0 no_reading_to_zero) bar_200 no_reading_to_zero.

End TestFixed.

(** ** The efficiency loop of [test_smart_analysis.py] *)

Module TestSmart.

(** The values one sheet adds to [all_efficiencies]: the positive values of
    each of the columns 'Eff%P1' and 'Eff%P2' that the frame has. *)
Definition sheet_efficiencies (df : DataFrame) : list Q :=
  fold_left
    (fun all eff_col =>
       if has_column df eff_col then all ++ non_zero_values df eff_col else all)
    ["Eff%P1"; "Eff%P2"] [].

Definition all_efficiencies (pump_data : PumpData) : list Q :=
  fold_left (fun all entry => all ++ sheet_efficiencies (data (snd entry)))
            pump_data [].

(** How many of the values a row adds for a column pass a test [f]. *)
Definition row_count (f : Q -> bool) (df : DataFrame) (col : string)
    (row : Row) : nat :=
  if has_column df col then
    List.length (filter f (match positive (at_col row col) with
                           | Some q => [q]
                           | None => []
                           end))
  else O.

(** The band counts and the total the script prints. *)
Definition analyze (pump_data : PumpData) : Eff.Ranges * nat :=
  let all := all_efficiencies pump_data in
  (fold_left Eff.categorize all (Eff.mkRanges 0 0 0), List.length all).

End TestSmart.

(** * Properties *)

(** ** Numbers *)

Lemma Qltb_lt (x y : Q) : Qltb x y = true <-> x < y.
Proof.
  unfold Qltb. rewrite negb_true_iff. split.
  - intros H. apply Qnot_le_lt. intros Hle.
    apply Qle_bool_iff in Hle. congruence.
  - intros H. destruct (Qle_bool y x) eqn:E; [|reflexivity].
    apply Qle_bool_iff in E. exfalso. exact (Qlt_not_le _ _ H E).
Qed.

Lemma Qltb_ge (x y : Q) : Qltb x y = false <-> y <= x.
Proof.
  unfold Qltb. rewrite negb_false_iff. apply Qle_bool_iff.
Qed.

Lemma positive_Some (c : cell) (q : Q) :
  positive c = Some q <-> c = Num q /\ 0 < q.
Proof.
  destruct c as [|x]; simpl.
  - split; [discriminate | intros [H _]; discriminate].
  - destruct (Qltb 0 x) eqn:E.
    + apply Qltb_lt in E. split.
      * intros H. inversion H. subst. auto.
      * intros [H _]. inversion H. reflexivity.
    + split; [discriminate|]. intros [H Hq]. inversion H. subst.
      apply Qltb_lt in Hq. congruence.
Qed.

Lemma positive_gt0 (c : cell) :
  positive c = if gt0 c then positive c else None.
Proof.
  destruct c as [|x]; simpl; [reflexivity|]. destruct (Qltb 0 x); reflexivity.
Qed.

Lemma gt0_positive (c : cell) : gt0 c = true <-> exists q, positive c = Some q.
Proof.
  destruct c as [|x]; simpl.
  - split; [discriminate | intros [q H]; discriminate].
  - destruct (Qltb 0 x); split; eauto; try discriminate.
    intros [q H]. discriminate.
Qed.

(** ** Binary64 rounding *)

Lemma rne_bounds (q : Q) :
  (Qfloor q <= B64.rne q <= Qfloor q + 1)%Z.
Proof.
  unfold B64.rne.
  destruct (Qltb _ (1 # 2)); [lia|].
  destruct (Qltb (1 # 2) _); [lia|].
  destruct (Z.even (Qfloor q)); lia.
Qed.

Lemma rne_Z (z : Z) : B64.rne (inject_Z z) = z.
Proof.
  unfold B64.rne. rewrite Qfloor_Z.
  assert (H : Qltb (inject_Z z - inject_Z z) (1 # 2) = true)
    by (apply Qltb_lt; lra).
  rewrite H. reflexivity.
Qed.

Lemma rne_mono (x y : Q) : x <= y -> (B64.rne x <= B64.rne y)%Z.
Proof.
  intros H. pose proof (Qfloor_resp_le x y H) as F.
  destruct (Z.eq_dec (Qfloor x) (Qfloor y)) as [E|N].
  - unfold B64.rne. rewrite <- E.
    destruct (Qltb (x - inject_Z (Qfloor x)) (1 # 2)) eqn:X1;
    destruct (Qltb (y - inject_Z (Qfloor x)) (1 # 2)) eqn:Y1;
    destruct (Qltb (1 # 2) (x - inject_Z (Qfloor x))) eqn:X2;
    destruct (Qltb (1 # 2) (y - inject_Z (Qfloor x))) eqn:Y2;
    destruct (Z.even (Qfloor x)); try lia; exfalso;
    repeat match goal with
    | K : Qltb _ _ = true |- _ => apply Qltb_lt in K
    | K : Qltb _ _ = false |- _ => apply Qltb_ge in K
    end; lra.
  - pose proof (rne_bounds x). pose proof (rne_bounds y). lia.
Qed.

Lemma rne_ge (z : Z) (q : Q) : inject_Z z <= q -> (z <= B64.rne q)%Z.
Proof.
  intros H. pose proof (rne_mono (inject_Z z) q H) as K.
  rewrite rne_Z in K. exact K.
Qed.

Lemma rne_le (z : Z) (q : Q) : q <= inject_Z z -> (B64.rne q <= z)%Z.
Proof.
  intros H. pose proof (rne_mono q (inject_Z z) H) as K.
  rewrite rne_Z in K. exact K.
Qed.

Lemma two_neq_0 : ~ 2 == 0.
Proof. discriminate. Qed.

Lemma pow2_pos (k : Z) : 0 < 2 ^ k.
Proof. apply Qpower_0_lt. reflexivity. Qed.

Lemma pow2_mono (a b : Z) : (a <= b)%Z -> 2 ^ a <= 2 ^ b.
Proof. intros H. apply Qpower_le_compat_l; [exact H | discriminate]. Qed.

Lemma pow2_succ (k : Z) : 2 ^ (k + 1) == 2 * 2 ^ k.
Proof. rewrite Qpower_plus by exact two_neq_0. change (2 ^ 1) with 2. ring. Qed.

Lemma pow2_Z (k : Z) : (0 <= k)%Z -> inject_Z (2 ^ k) == 2 ^ k.
Proof. intros H. apply Zpower_Qpower. exact H. Qed.

Lemma binade_spec (q : Q) :
  0 < q -> 2 ^ B64.binade q <= q /\ q < 2 ^ (B64.binade q + 1).
Proof.
  intros Hq. destruct q as [n d]. unfold B64.binade. cbn [Qnum Qden].
  assert (Hn : (0 < n)%Z) by (unfold Qlt in Hq; simpl in Hq; lia).
  pose proof (Z.log2_spec n Hn) as [A1 A2].
  pose proof (Z.log2_spec (Zpos d) (Pos2Z.is_pos d)) as [B1 B2].
  pose proof (Z.log2_nonneg n) as An. pose proof (Z.log2_nonneg (Zpos d)) as Bn.
  set (a := Z.log2 n) in *. set (b := Z.log2 (Zpos d)) in *.
  assert (QA1 : 2 ^ a <= inject_Z n).
  { rewrite <- pow2_Z by exact An. rewrite <- Zle_Qle. exact A1. }
  assert (QA2 : inject_Z n < 2 * 2 ^ a).
  { rewrite <- pow2_succ, <- pow2_Z by lia. rewrite <- Zlt_Qlt.
    replace (a + 1)%Z with (Z.succ a) by lia. exact A2. }
  assert (QB1 : 2 ^ b <= inject_Z (Zpos d)).
  { rewrite <- pow2_Z by exact Bn. rewrite <- Zle_Qle. exact B1. }
  assert (QB2 : inject_Z (Zpos d) < 2 * 2 ^ b).
  { rewrite <- pow2_succ, <- pow2_Z by lia. rewrite <- Zlt_Qlt.
    replace (b + 1)%Z with (Z.succ b) by lia. exact B2. }
  pose proof (pow2_pos a) as Pa. pose proof (pow2_pos b) as Pb.
  assert (Hd : 0 < inject_Z (Zpos d)) by (rewrite <- (Zlt_Qlt 0); lia).
  assert (Eq : (n # d) * inject_Z (Zpos d) == inject_Z n).
  { rewrite Qmake_Qdiv. field. intros K. rewrite K in Hd. discriminate. }
  assert (Eab : 2 ^ (a - b) * 2 ^ b == 2 ^ a).
  { rewrite Qpower_minus by exact two_neq_0. field.
    intros K. rewrite K in Pb. discriminate. }
  set (q := n # d) in *. set (D := inject_Z (Zpos d)) in *.
  set (N := inject_Z n) in *. set (PA := 2 ^ a) in *. set (PB := 2 ^ b) in *.
  set (E := 2 ^ (a - b)) in *.
  assert (PE : 0 < E) by apply pow2_pos.
  assert (Up : q < 2 * E).
  { apply Qmult_lt_r with (z := PB); [exact Pb|].
    apply Qle_lt_trans with (q * D).
    - apply Qmult_le_l; [exact Hq | exact QB1].
    - rewrite Eq. setoid_replace (2 * E * PB) with (2 * PA) by (rewrite <- Eab; ring).
      exact QA2. }
  assert (Lo : E < 2 * q).
  { apply Qmult_lt_r with (z := PB); [exact Pb|].
    rewrite Eab. apply Qle_lt_trans with N; [exact QA1|].
    rewrite <- Eq.
    setoid_replace (2 * q * PB) with (q * (2 * PB)) by ring.
    apply Qmult_lt_l; [exact Hq | exact QB2]. }
  destruct (Qle_bool E q) eqn:T.
  - apply Qle_bool_iff in T. split; [exact T|].
    rewrite pow2_succ. exact Up.
  - assert (T' : q < E).
    { apply Qnot_le_lt. intros K. apply Qle_bool_iff in K. congruence. }
    replace (a - b - 1 + 1)%Z with (a - b)%Z by lia. split; [|exact T'].
    assert (E2 : 2 * 2 ^ (a - b - 1) == E).
    { rewrite <- pow2_succ. replace (a - b - 1 + 1)%Z with (a - b)%Z by lia.
      reflexivity. }
    pose proof (pow2_pos (a - b - 1)) as P1.
    set (E1 := 2 ^ (a - b - 1)) in *. lra.
Qed.

Lemma binade_mono (x y : Q) :
  0 < x -> x <= y -> (B64.binade x <= B64.binade y)%Z.
Proof.
  intros Hx Hxy.
  assert (Hy : 0 < y) by lra.
  destruct (binade_spec x Hx) as [X1 X2].
  destruct (binade_spec y Hy) as [Y1 Y2].
  destruct (Z_le_gt_dec (B64.binade x) (B64.binade y)) as [L|G]; [exact L|].
  exfalso.
  assert (P : 2 ^ (B64.binade y + 1) <= 2 ^ B64.binade x)
    by (apply pow2_mono; lia).
  lra.
Qed.

Lemma ulp_pos (q : Q) : 0 < B64.ulp q.
Proof. apply pow2_pos. Qed.

Lemma ulp_scale (q : Q) (k : Z) :
  (0 <= k)%Z ->
  inject_Z (2 ^ k) * B64.ulp q ==
  2 ^ (Z.max (B64.binade q) B64.emin - (B64.prec - 1) + k).
Proof.
  intros Hk. unfold B64.ulp. rewrite pow2_Z by exact Hk.
  rewrite Qpower_plus by exact two_neq_0. ring.
Qed.

Lemma round_pos_nonneg (q : Q) : 0 < q -> 0 <= B64.round_pos q.
Proof.
  intros Hq. unfold B64.round_pos. pose proof (ulp_pos q) as U.
  apply Qmult_le_0_compat; [|lra].
  rewrite <- (Zle_Qle 0). apply rne_ge.
  apply Qle_shift_div_l; [exact U|]. rewrite Qmult_0_l. lra.
Qed.

Lemma round_pos_upper (q : Q) :
  0 < q -> B64.round_pos q <= 2 ^ (Z.max (B64.binade q) B64.emin + 1).
Proof.
  intros Hq. destruct (binade_spec q Hq) as [_ Up].
  pose proof (ulp_pos q) as U.
  assert (S : inject_Z (2 ^ 53) * B64.ulp q ==
              2 ^ (Z.max (B64.binade q) B64.emin + 1)).
  { rewrite ulp_scale by lia. unfold B64.prec.
    replace (Z.max (B64.binade q) B64.emin - (53 - 1) + 53)%Z
      with (Z.max (B64.binade q) B64.emin + 1)%Z by lia.
    reflexivity. }
  assert (M : 2 ^ (B64.binade q + 1) <=
              2 ^ (Z.max (B64.binade q) B64.emin + 1))
    by (apply pow2_mono; lia).
  rewrite <- S. unfold B64.round_pos.
  apply Qmult_le_compat_r; [|lra].
  rewrite <- Zle_Qle. apply rne_le.
  apply Qle_shift_div_r; [exact U|]. rewrite S. lra.
Qed.

Lemma round_pos_lower (q : Q) :
  0 < q -> (B64.emin <= B64.binade q)%Z ->
  2 ^ B64.binade q <= B64.round_pos q.
Proof.
  intros Hq He. destruct (binade_spec q Hq) as [Lo _].
  pose proof (ulp_pos q) as U.
  assert (S : inject_Z (2 ^ 52) * B64.ulp q == 2 ^ B64.binade q).
  { rewrite ulp_scale by lia. unfold B64.prec.
    replace (Z.max (B64.binade q) B64.emin - (53 - 1) + 52)%Z
      with (B64.binade q) by lia.
    reflexivity. }
  rewrite <- S. unfold B64.round_pos.
  apply Qmult_le_compat_r; [|lra].
  rewrite <- Zle_Qle. apply rne_ge.
  apply Qle_shift_div_l; [exact U|]. rewrite S. exact Lo.
Qed.

Lemma round_pos_mono (x y : Q) :
  0 < x -> x <= y -> B64.round_pos x <= B64.round_pos y.
Proof.
  intros Hx Hxy. assert (Hy : 0 < y) by lra.
  pose proof (binade_mono x y Hx Hxy) as B.
  destruct (Z.eq_dec (Z.max (B64.binade x) B64.emin)
                     (Z.max (B64.binade y) B64.emin)) as [E|N].
  - assert (U : B64.ulp x = B64.ulp y) by (unfold B64.ulp; rewrite E; reflexivity).
    unfold B64.round_pos. rewrite U. pose proof (ulp_pos y) as P.
    apply Qmult_le_compat_r; [|lra].
    rewrite <- Zle_Qle. apply rne_mono.
    apply Qmult_le_compat_r; [exact Hxy|].
    apply Qlt_le_weak. apply Qinv_lt_0_compat. exact P.
  - assert (Ey : (B64.emin <= B64.binade y)%Z) by lia.
    apply Qle_trans with (2 ^ (Z.max (B64.binade x) B64.emin + 1)).
    + apply round_pos_upper. exact Hx.
    + apply Qle_trans with (2 ^ B64.binade y).
      * apply pow2_mono. lia.
      * apply round_pos_lower; assumption.
Qed.

Lemma round_pos_eq (x y : Q) :
  0 < x -> x == y -> B64.round_pos x == B64.round_pos y.
Proof.
  intros Hx E. assert (Hy : 0 < y) by (rewrite <- E; exact Hx).
  apply Qle_antisym; apply round_pos_mono; try assumption;
    rewrite E; apply Qle_refl.
Qed.

Lemma round_gt0 (q : Q) : 0 < q -> B64.round q = B64.round_pos q.
Proof.
  intros H. unfold B64.round.
  assert (E : (q ?= 0) = Gt) by (apply Qgt_alt; exact H).
  rewrite E. reflexivity.
Qed.

Lemma round_0 (q : Q) : q == 0 -> B64.round q = 0.
Proof.
  intros H. unfold B64.round.
  assert (E : (q ?= 0) = Eq) by (apply Qeq_alt; exact H).
  rewrite E. reflexivity.
Qed.

Lemma round_lt0 (q : Q) : q < 0 -> B64.round q = - B64.round_pos (- q).
Proof.
  intros H. unfold B64.round.
  assert (E : (q ?= 0) = Lt) by (apply Qlt_alt; exact H).
  rewrite E. reflexivity.
Qed.

(** Rounding keeps the order of non-negative numbers. *)
Lemma round_mono (x y : Q) : 0 <= x -> x <= y -> B64.round x <= B64.round y.
Proof.
  intros Hx Hxy.
  destruct (Qlt_le_dec 0 x) as [Px|Zx].
  - rewrite (round_gt0 x Px), (round_gt0 y) by lra.
    apply round_pos_mono; assumption.
  - rewrite (round_0 x) by lra.
    destruct (Qlt_le_dec 0 y) as [Py|Zy].
    + rewrite (round_gt0 y Py). apply round_pos_nonneg. exact Py.
    + rewrite (round_0 y) by lra. lra.
Qed.

Lemma round_nonneg (x : Q) : 0 <= x -> 0 <= B64.round x.
Proof.
  intros H. change 0 with (B64.round 0) at 1. apply round_mono; lra.
Qed.

(** The magnitude of a rounded number is the rounded magnitude. *)
Lemma abs_round_le (z m : Q) :
  Qabs z <= m -> B64.round m == m -> Qabs (B64.round z) <= m.
Proof.
  intros Hz Hm.
  pose proof (Qabs_nonneg z) as Nz.
  destruct (Qlt_le_dec 0 z) as [Pz|Zz].
  - rewrite Qabs_pos in Hz by lra.
    rewrite Qabs_pos by (apply round_nonneg; lra).
    rewrite <- Hm. apply round_mono; lra.
  - destruct (Qlt_le_dec z 0) as [Lz|Gz].
    + rewrite Qabs_neg in Hz by lra.
      rewrite (round_lt0 z Lz).
      assert (P : 0 < - z) by lra.
      pose proof (round_pos_nonneg (- z) P) as R.
      rewrite Qabs_neg by lra.
      rewrite <- Hm, (round_gt0 m) by lra.
      setoid_replace (- - B64.round_pos (- z)) with (B64.round_pos (- z))
        by ring.
      apply round_pos_mono; lra.
    + rewrite (round_0 z) by lra. simpl. lra.
Qed.

Lemma rne_eq (q : Q) (z : Z) : q == inject_Z z -> B64.rne q = z.
Proof.
  intros E. apply Z.le_antisymm.
  - apply rne_le. lra.
  - apply rne_ge. lra.
Qed.

Lemma binade_unique (q : Q) (e : Z) :
  2 ^ e <= q -> q < 2 ^ (e + 1) -> B64.binade q = e.
Proof.
  intros Lo Up.
  assert (Hq : 0 < q) by (pose proof (pow2_pos e); lra).
  destruct (binade_spec q Hq) as [L U].
  destruct (Z_lt_le_dec (B64.binade q) e) as [A|A].
  - exfalso.
    assert (P : 2 ^ (B64.binade q + 1) <= 2 ^ e) by (apply pow2_mono; lia).
    lra.
  - destruct (Z_lt_le_dec e (B64.binade q)) as [B|B]; [|lia].
    exfalso.
    assert (P : 2 ^ (e + 1) <= 2 ^ B64.binade q) by (apply pow2_mono; lia).
    lra.
Qed.

Lemma binade_double (q : Q) : 0 < q -> B64.binade (2 * q) = (B64.binade q + 1)%Z.
Proof.
  intros Hq. destruct (binade_spec q Hq) as [L U].
  apply binade_unique.
  - rewrite pow2_succ. lra.
  - rewrite !pow2_succ. rewrite pow2_succ in U. lra.
Qed.

(** A number of the grid stays on it when it is doubled. *)
Lemma round_pos_double (q : Q) :
  0 < q -> B64.round_pos q == q -> B64.round_pos (2 * q) == 2 * q.
Proof.
  intros Hq R. unfold B64.round_pos in *.
  pose proof (ulp_pos q) as U. pose proof (ulp_pos (2 * q)) as U2.
  set (n := B64.rne (q / B64.ulp q)) in *.
  assert (Eq : q / B64.ulp q == inject_Z n).
  { apply Qmult_inj_r with (B64.ulp q); [lra|]. rewrite R. field. lra. }
  destruct (Z_lt_le_dec (B64.binade q) B64.emin) as [A|A].
  - assert (E : B64.ulp (2 * q) = B64.ulp q).
    { unfold B64.ulp. rewrite binade_double by exact Hq.
      replace (Z.max (B64.binade q + 1) B64.emin) with B64.emin by lia.
      replace (Z.max (B64.binade q) B64.emin) with B64.emin by lia.
      reflexivity. }
    rewrite E.
    rewrite (rne_eq _ (2 * n)%Z).
    + rewrite inject_Z_mult. rewrite <- Eq. field. lra.
    + rewrite inject_Z_mult. rewrite <- Eq. field. lra.
  - assert (E : B64.ulp (2 * q) == 2 * B64.ulp q).
    { unfold B64.ulp. rewrite binade_double by exact Hq.
      replace (Z.max (B64.binade q + 1) B64.emin - (B64.prec - 1))%Z
        with (Z.max (B64.binade q) B64.emin - (B64.prec - 1) + 1)%Z by lia.
      apply pow2_succ. }
    rewrite (rne_eq _ n).
    + rewrite E, <- Eq. field. lra.
    + rewrite <- Eq, E. field. lra.
Qed.

Lemma round_double (q : Q) :
  0 < q -> B64.round q == q -> B64.round (2 * q) == 2 * q.
Proof.
  intros Hq R. rewrite (round_gt0 q Hq) in R.
  rewrite round_gt0 by lra. apply round_pos_double; assumption.
Qed.

(** Half the rounded sum of two numbers of the grid, rounded, lies between them. *)
Lemma average_between (lo hi s : Q) :
  0 < lo -> lo <= hi -> B64.round lo == lo -> B64.round hi == hi ->
  2 * lo <= s -> s <= 2 * hi ->
  lo <= B64.round (B64.round s / 2) /\ B64.round (B64.round s / 2) <= hi.
Proof.
  intros Hlo Hle Rlo Rhi S1 S2.
  assert (Hhi : 0 < hi) by lra.
  pose proof (round_double lo Hlo Rlo) as Dlo.
  pose proof (round_double hi Hhi Rhi) as Dhi.
  assert (A : 2 * lo <= B64.round s).
  { rewrite <- Dlo. apply round_mono; lra. }
  assert (B : B64.round s <= 2 * hi).
  { rewrite <- Dhi. apply round_mono; lra. }
  split.
  - apply Qle_trans with (B64.round lo); [lra|].
    apply round_mono; [lra|]. apply Qle_shift_div_l; lra.
  - apply Qle_trans with (B64.round hi); [|lra].
    apply round_mono.
    + apply Qle_shift_div_l; lra.
    + apply Qle_shift_div_r; lra.
Qed.

Lemma round_eq_nonneg (x y : Q) :
  0 <= x -> x == y -> B64.round x == B64.round y.
Proof.
  intros Hx E. apply Qle_antisym; apply round_mono; lra.
Qed.

Lemma round_1 : B64.round 1 == 1.
Proof. vm_compute. reflexivity. Qed.

Lemma round_100 : B64.round 100 == 100.
Proof. vm_compute. reflexivity. Qed.

(** ** Pump type detection *)

Lemma has_column_In (df : DataFrame) (col : string) :
  has_column df col = true <-> In col (columns df).
Proof.
  unfold has_column. rewrite existsb_exists. split.
  - intros [x [Hx E]]. apply String.eqb_eq in E. subst. exact Hx.
  - intros H. exists col. split; [exact H | apply String.eqb_refl].
Qed.

Lemma filter_nonempty {A : Type} (f : A -> bool) (l : list A) (x : A) :
  In x l -> f x = true -> filter f l <> [].
Proof.
  intros Hin Hf E.
  assert (H : In x (filter f l)) by (apply filter_In; split; assumption).
  rewrite E in H. exact H.
Qed.

(** The test [non_zero_p2_eff > len(df) * 0.5] on two counts. *)
Lemma half_lt (n c : nat) :
  Qltb (inject_Z (Z.of_nat n) * (1 # 2)) (inject_Z (Z.of_nat c))
  = (n <? 2 * c)%nat.
Proof.
  destruct (n <? 2 * c)%nat eqn:E.
  - apply Nat.ltb_lt in E. apply Qltb_lt.
    unfold Qlt, Qmult, inject_Z. simpl. lia.
  - apply Nat.ltb_ge in E. apply Qltb_ge.
    unfold Qle, Qmult, inject_Z. simpl. lia.
Qed.

(** C2. [determine_pump_type] decides in this order, the first match
    winning: the lowered sheet name contains "single": Single; it contains
    "tandem": Tandem; the frame has no column 'Eff%P2': Single; otherwise
    Tandem exactly when the number of rows with [Eff%P2 > 0] strictly exceeds
    half the number of rows, and Single if not. *)
Theorem determine_pump_type_priority (df : DataFrame) (sheet_name : string) :
  determine_pump_type df sheet_name =
    if Str.contains "single" (Str.lower sheet_name) then Single
    else if Str.contains "tandem" (Str.lower sheet_name) then Tandem
    else if negb (has_column df "Eff%P2") then Single
    else if (len df <? 2 * count_positive df "Eff%P2")%nat then Tandem
    else Single.
Proof.
  unfold determine_pump_type.
  destruct (Str.contains "single" (Str.lower sheet_name)); [reflexivity|].
  destruct (Str.contains "tandem" (Str.lower sheet_name)); [reflexivity|].
  destruct (has_column df "Eff%P2") eqn:Hcol; simpl negb; cbv iota.
  - destruct (filter _ (columns df)) as [|c0 cs] eqn:Hf.
    + exfalso. apply has_column_In in Hcol.
      exact (filter_nonempty _ _ _ Hcol eq_refl Hf).
    + rewrite half_lt. reflexivity.
  - destruct (filter _ (columns df)) as [|c0 cs]; [reflexivity|].
    rewrite half_lt. reflexivity.
Qed.

(** A frame with no rows, under a sheet name that says "tandem", is
    classified Tandem: the name is looked at before the rows. *)
Example empty_tandem_sheet :
  len (mkDF ["Pump Sr. No"; "Eff%P1"; "Eff%P2"] []) = O /\
  determine_pump_type (mkDF ["Pump Sr. No"; "Eff%P1"; "Eff%P2"] []) "TandemPump"
  = Tandem.
Proof. split; reflexivity. Qed.

(** C3, amended. A frame with no rows is classified Single exactly when its
    lowered sheet name contains "single" or does not contain "tandem"; a
    name that contains "tandem" and not "single" makes it Tandem. *)
Theorem determine_pump_type_empty (df : DataFrame) (sheet_name : string) :
  len df = O ->
  (determine_pump_type df sheet_name = Single <->
   (Str.contains "single" (Str.lower sheet_name) = true \/
    Str.contains "tandem" (Str.lower sheet_name) = false)).
Proof.
  intros Hlen. unfold determine_pump_type.
  assert (H0 : count_positive df "Eff%P2" = O).
  { unfold count_positive. unfold len in Hlen.
    destruct (rows df); [reflexivity | discriminate]. }
  destruct (Str.contains "single" (Str.lower sheet_name)).
  - split; auto.
  - destruct (Str.contains "tandem" (Str.lower sheet_name)).
    + split; [discriminate | intros [H|H]; discriminate].
    + split; [auto|]. intros _.
      destruct (filter _ (columns df)); [reflexivity|].
      rewrite half_lt, Hlen, H0.
      destruct (has_column df "Eff%P2"); reflexivity.
Qed.

Lemma determine_pump_type_empty_witness :
  determine_pump_type (mkDF ["Eff%P1"; "Eff%P2"] []) "Sheet1" = Single <->
  (Str.contains "single" (Str.lower "Sheet1") = true \/
   Str.contains "tandem" (Str.lower "Sheet1") = false).
Proof.
  apply (determine_pump_type_empty (mkDF ["Eff%P1"; "Eff%P2"] []) "Sheet1").
  reflexivity.
Defined.

(** ** Efficiency distribution analysis *)

Lemma map_snd_iterrows (df : DataFrame) : map snd (iterrows df) = rows df.
Proof.
  unfold iterrows. generalize 0%nat. induction (rows df) as [|r rs IH]; intros k.
  - reflexivity.
  - simpl. rewrite IH. reflexivity.
Qed.

Lemma non_zero_values_rows (df : DataFrame) (col : string) :
  non_zero_values df col =
  flat_map (fun row => match positive (at_col row col) with
                       | Some q => [q]
                       | None => []
                       end) (rows df).
Proof.
  unfold non_zero_values, column. induction (rows df) as [|r rs IH].
  - reflexivity.
  - simpl. destruct (positive (at_col r col)); simpl; rewrite IH; reflexivity.
Qed.

(** One categorized value lands in exactly one band when it is at least 90
    and in none when it is under 90. *)
Lemma categorize_sum (r : Eff.Ranges) (eff : Q) :
  (Eff.sum (Eff.categorize r eff) + (if Qltb eff 90 then 1 else 0)
   = Eff.sum r + 1)%nat.
Proof.
  unfold Eff.categorize, Eff.sum.
  destruct (Qle_bool 90 eff) eqn:E90; destruct (Qltb eff 92) eqn:L92; simpl;
  destruct (Qle_bool 92 eff) eqn:E92; destruct (Qltb eff 94) eqn:L94; simpl;
  destruct (Qle_bool 94 eff) eqn:E94; destruct (Qltb eff 90) eqn:L90; simpl;
  try lia; exfalso;
  repeat match goal with
  | H : Qle_bool _ _ = true |- _ => apply Qle_bool_iff in H
  | H : Qle_bool ?a ?b = false |- _ =>
      assert (b < a) by (apply Qltb_lt; unfold Qltb; rewrite H; reflexivity);
      clear H
  | H : Qltb _ _ = true |- _ => apply Qltb_lt in H
  | H : Qltb _ _ = false |- _ => apply Qltb_ge in H
  end; lra.
Qed.

Lemma fold_categorize_sum (l : list Q) (r : Eff.Ranges) :
  (Eff.sum (fold_left Eff.categorize l r) + EffSpec.below_90 l
   = Eff.sum r + List.length l)%nat.
Proof.
  revert r. induction l as [|q l IH]; intros r.
  - unfold EffSpec.below_90. simpl. lia.
  - simpl fold_left. specialize (IH (Eff.categorize r q)).
    pose proof (categorize_sum r q) as Hq.
    unfold EffSpec.below_90 in *. simpl.
    destruct (Qltb q 90); simpl; lia.
Qed.

Lemma flat_map_nil {A B : Type} (l : list A) :
  flat_map (fun _ : A => @nil B) l = [].
Proof. induction l; simpl; auto. Qed.

Lemma eff_single_readings (df : DataFrame) (acc : Eff.Acc) (n : nat) :
  let l := EffSpec.sheet_readings (mkSheet df Single n) in
  Eff.single df acc =
  Eff.mkAcc (fold_left Eff.categorize l (Eff.efficiency_ranges acc))
            (Eff.total_individual_pumps acc + List.length l)
            (Eff.tandem_matching_analysis acc).
Proof.
  unfold EffSpec.sheet_readings, EffSpec.unit_readings, Eff.single. simpl.
  destruct (has_column df "Eff%P1").
  - rewrite non_zero_values_rows. reflexivity.
  - rewrite flat_map_nil. simpl. destruct acc; simpl. f_equal. lia.
Qed.

Lemma eff_tandem_rows (df : DataFrame) (irs : list (nat * Row)) (acc : Eff.Acc) :
  let l := flat_map (EffSpec.unit_readings Tandem df) (map snd irs) in
  let acc' := fold_left (Eff.tandem_row df) irs acc in
  Eff.efficiency_ranges acc' =
    fold_left Eff.categorize l (Eff.efficiency_ranges acc) /\
  Eff.total_individual_pumps acc' =
    (Eff.total_individual_pumps acc + List.length l)%nat.
Proof.
  cbv zeta. revert acc.
  induction irs as [|[idx row] irs IH]; intros acc;
    cbn [fold_left map snd flat_map].
  - split; [reflexivity | simpl; lia].
  - destruct (IH (Eff.tandem_row df acc (idx, row))) as [IH1 IH2].
    rewrite IH1, IH2, fold_left_app, length_app. clear IH IH1 IH2.
    unfold Eff.tandem_row, EffSpec.unit_readings.
    destruct (positive (row_get df row "Eff%P1" (Num 0))) as [p1|];
      [destruct (positive (row_get df row "Eff%P2" (Num 0))) as [p2|]|].
    + simpl. split; [reflexivity | lia].
    + simpl. split; [reflexivity | lia].
    + simpl. split; [reflexivity | lia].
Qed.

Lemma eff_sheet_readings (acc : Eff.Acc) (entry : string * SheetData) :
  let l := EffSpec.sheet_readings (snd entry) in
  Eff.efficiency_ranges (Eff.sheet acc entry) =
    fold_left Eff.categorize l (Eff.efficiency_ranges acc) /\
  Eff.total_individual_pumps (Eff.sheet acc entry) =
    (Eff.total_individual_pumps acc + List.length l)%nat.
Proof.
  cbv zeta. destruct entry as [name [df t n]]. unfold Eff.sheet. simpl.
  destruct t.
  - rewrite (eff_single_readings df acc n). simpl. split; reflexivity.
  - unfold Eff.tandem, EffSpec.sheet_readings. simpl.
    pose proof (eff_tandem_rows df (iterrows df) acc) as H.
    cbv zeta in H. rewrite map_snd_iterrows in H. exact H.
Qed.

(** The analyzer's band counts and total are those of the list of the
    readings it counts. *)
Lemma eff_fold_readings (pump_data : PumpData) (acc : Eff.Acc) :
  let l := EffSpec.counted_readings pump_data in
  let acc' := fold_left Eff.sheet pump_data acc in
  Eff.efficiency_ranges acc' =
    fold_left Eff.categorize l (Eff.efficiency_ranges acc) /\
  Eff.total_individual_pumps acc' =
    (Eff.total_individual_pumps acc + List.length l)%nat.
Proof.
  cbv zeta. revert acc.
  induction pump_data as [|entry pd IH]; intros acc; simpl.
  - split; [reflexivity | lia].
  - destruct (IH (Eff.sheet acc entry)) as [IH1 IH2].
    destruct (eff_sheet_readings acc entry) as [H1 H2].
    rewrite IH1, IH2, H1, H2.
    unfold EffSpec.counted_readings. simpl.
    rewrite fold_left_app, length_app. split; [reflexivity | lia].
Qed.

Lemma unit_readings_positive (t : PumpType) (df : DataFrame) (row : Row) (q : Q) :
  In q (EffSpec.unit_readings t df row) -> 0 < q.
Proof.
  unfold EffSpec.unit_readings. destruct t.
  - destruct (has_column df "Eff%P1"); [|intros []].
    destruct (positive _) as [x|] eqn:E; [|intros []].
    apply positive_Some in E. intros [H|[]]. subst. apply E.
  - destruct (positive (row_get df row "Eff%P1" (Num 0))) as [p1|] eqn:E1;
      [|intros []].
    destruct (positive (row_get df row "Eff%P2" (Num 0))) as [p2|] eqn:E2;
      [|intros []].
    apply positive_Some in E1, E2.
    intros [H|[H|[]]]; subst; [apply E1 | apply E2].
Qed.

Lemma counted_readings_positive (pump_data : PumpData) (q : Q) :
  In q (EffSpec.counted_readings pump_data) -> 0 < q.
Proof.
  unfold EffSpec.counted_readings, EffSpec.sheet_readings.
  intros H. apply in_flat_map in H. destruct H as [entry [_ H]].
  apply in_flat_map in H. destruct H as [row [_ H]].
  exact (unit_readings_positive _ _ _ _ H).
Qed.

Lemma below_90_zero (l : list Q) :
  EffSpec.below_90 l = O <-> (forall q, In q l -> 90 <= q).
Proof.
  unfold EffSpec.below_90. induction l as [|x l IH]; simpl.
  - split; [intros _ q [] | reflexivity].
  - destruct (Qltb x 90) eqn:E; simpl.
    + split; [discriminate|]. intros H. exfalso.
      apply Qltb_lt in E. specialize (H x (or_introl eq_refl)). lra.
    + apply Qltb_ge in E. rewrite IH. split.
      * intros H q [Hq|Hq]; [subst; exact E | auto].
      * intros H q Hq. auto.
Qed.

(** A Single sheet with one reading of 85: the reading is counted, and no
    band takes it. *)
Example reading_below_90_counted :
  let pump_data :=
    [("SinglePump",
      mkSheet (mkDF ["Pump Sr. No"; "Eff%P1"] [mkRow "1" [("Eff%P1", Num 85)]])
              Single 1)] in
  let r := analyze_efficiency_distribution pump_data in
  Eff.total_individual_pumps r = 1%nat /\
  Eff.sum (Eff.efficiency_ranges r) = 0%nat /\
  Eff.total_individual_pumps r <> Eff.sum (Eff.efficiency_ranges r).
Proof. repeat split. discriminate. Qed.

(** C1, amended. The total of individual readings is at least the sum of the
    three band counts, and the two are equal exactly when every counted
    reading is at least 90: a counted reading under 90 is in the total and in
    no band. *)
Theorem total_vs_band_sum (pump_data : PumpData) :
  let r := analyze_efficiency_distribution pump_data in
  (Eff.sum (Eff.efficiency_ranges r) <= Eff.total_individual_pumps r)%nat /\
  (Eff.total_individual_pumps r = Eff.sum (Eff.efficiency_ranges r) <->
   forall q, In q (EffSpec.counted_readings pump_data) -> 90 <= q).
Proof.
  intros r. subst r. unfold analyze_efficiency_distribution.
  destruct (eff_fold_readings pump_data Eff.init) as [H1 H2].
  pose proof (fold_categorize_sum (EffSpec.counted_readings pump_data)
                (Eff.efficiency_ranges Eff.init)) as Hs.
  rewrite <- H1 in Hs. simpl in H2, Hs.
  split; [lia|]. rewrite <- below_90_zero. lia.
Qed.

(** C9. The total of individual readings is at least the sum of the three
    band counts, and the difference is the number of counted readings under
    90, where the counted readings, all strictly positive, are the positive
    [Eff%P1] of the Single sheets and both readings of the Tandem records
    that have both positive; the total is the number of counted readings. *)
Theorem total_minus_bands_is_below_90 (pump_data : PumpData) :
  let r := analyze_efficiency_distribution pump_data in
  let counted := EffSpec.counted_readings pump_data in
  (Eff.sum (Eff.efficiency_ranges r) <= Eff.total_individual_pumps r)%nat /\
  (Eff.total_individual_pumps r - Eff.sum (Eff.efficiency_ranges r)
   = EffSpec.below_90 counted)%nat /\
  Eff.total_individual_pumps r = List.length counted /\
  (forall q, In q counted -> 0 < q).
Proof.
  intros r counted. subst r counted. unfold analyze_efficiency_distribution.
  destruct (eff_fold_readings pump_data Eff.init) as [H1 H2].
  pose proof (fold_categorize_sum (EffSpec.counted_readings pump_data)
                (Eff.efficiency_ranges Eff.init)) as Hs.
  rewrite <- H1 in Hs. simpl in H2, Hs.
  repeat split; try lia. apply counted_readings_positive.
Qed.

Lemma fold_left_fixed {A B : Type} (f : A -> B -> A) (l : list B) (a : A) :
  (forall x, In x l -> f a x = a) -> fold_left f l a = a.
Proof.
  induction l as [|x l IH]; simpl; intros H.
  - reflexivity.
  - rewrite (H x (or_introl eq_refl)). apply IH. intros y Hy. apply H. auto.
Qed.

Lemma gt0_row_get (df : DataFrame) (row : Row) (col : string) :
  gt0 (row_get df row col (Num 0)) = reading_gt0 (reading df row col).
Proof.
  unfold row_get, reading. destruct (has_column df col); reflexivity.
Qed.

Lemma in_iterrows (df : DataFrame) (idx : nat) (row : Row) :
  In (idx, row) (iterrows df) -> In row (rows df).
Proof.
  intros H. rewrite <- map_snd_iterrows.
  change row with (snd (idx, row)). apply in_map. exact H.
Qed.

Lemma eff_tandem_row_skip (df : DataFrame) (acc : Eff.Acc) (idx : nat) (row : Row) :
  reading_gt0 (reading df row "Eff%P1") &&
  reading_gt0 (reading df row "Eff%P2") = false ->
  Eff.tandem_row df acc (idx, row) = acc.
Proof.
  rewrite <- !gt0_row_get. unfold Eff.tandem_row.
  rewrite (positive_gt0 (row_get df row "Eff%P1" (Num 0))).
  rewrite (positive_gt0 (row_get df row "Eff%P2" (Num 0))).
  destruct (gt0 (row_get df row "Eff%P1" (Num 0)));
    destruct (gt0 (row_get df row "Eff%P2" (Num 0))); simpl; try discriminate;
    intros _; try reflexivity.
  destruct (positive (row_get df row "Eff%P1" (Num 0))); reflexivity.
Qed.

(** C6. A sheet classified Tandem in which no record has both [Eff%P1 > 0]
    and [Eff%P2 > 0] leaves the analyzer's accumulator as it found it: no
    match entry, no band count and nothing on the total of individual
    readings come from it, and the analysis of the whole input is that of
    the input without the sheet. *)
Theorem tandem_sheet_without_pair (name : string) (sd : SheetData) :
  type sd = Tandem ->
  (forall row, In row (rows (data sd)) ->
     reading_gt0 (reading (data sd) row "Eff%P1") &&
     reading_gt0 (reading (data sd) row "Eff%P2") = false) ->
  (forall acc, Eff.sheet acc (name, sd) = acc) /\
  (forall before after,
     analyze_efficiency_distribution (before ++ (name, sd) :: after) =
     analyze_efficiency_distribution (before ++ after)).
Proof.
  intros Ht Hrows.
  assert (Hskip : forall acc, Eff.sheet acc (name, sd) = acc).
  { intros acc. unfold Eff.sheet. simpl. rewrite Ht. unfold Eff.tandem.
    apply fold_left_fixed. intros [idx row] Hin.
    apply eff_tandem_row_skip. apply Hrows.
    exact (in_iterrows _ _ _ Hin). }
  split; [exact Hskip|].
  intros before after. unfold analyze_efficiency_distribution.
  rewrite !fold_left_app. simpl. rewrite Hskip. reflexivity.
Qed.

Lemma tandem_sheet_without_pair_witness :
  let sd :=
    mkSheet (mkDF ["Pump Sr. No"; "Eff%P1"; "Eff%P2"]
               [mkRow "T1" [("Eff%P1", Num 91); ("Eff%P2", Num 0)];
                mkRow "T2" [("Eff%P1", Num 95)]])
            Tandem 2 in
  (forall acc, Eff.sheet acc ("TandemPump", sd) = acc) /\
  (forall before after,
     analyze_efficiency_distribution (before ++ ("TandemPump", sd) :: after) =
     analyze_efficiency_distribution (before ++ after)).
Proof.
  apply tandem_sheet_without_pair.
  - reflexivity.
  - simpl. intros row [H|[H|[]]]; subst; reflexivity.
Defined.

(** ** Amperage analysis *)

Lemma pymax_Qmax (a b : Q) : pymax a b == Qmax a b.
Proof.
  unfold pymax. destruct (Qltb a b) eqn:E.
  - apply Qltb_lt in E. symmetry. apply Q.max_r. lra.
  - apply Qltb_ge in E. symmetry. apply Q.max_l. exact E.
Qed.

Lemma pymax_cases (a b : Q) :
  (a < b /\ pymax a b = b) \/ (b <= a /\ pymax a b = a).
Proof.
  unfold pymax. destruct (Qltb a b) eqn:E.
  - left. apply Qltb_lt in E. auto.
  - right. apply Qltb_ge in E. auto.
Qed.

Lemma pymin_cases (a b : Q) :
  (b < a /\ pymin a b = b) \/ (a <= b /\ pymin a b = a).
Proof.
  unfold pymin. destruct (Qltb b a) eqn:E.
  - left. apply Qltb_lt in E. auto.
  - right. apply Qltb_ge in E. auto.
Qed.

(** The difference and the percentage difference of two positive readings,
    as the binary64 operations of the program give them. *)
Lemma percentage_diff_bounds (p1 p2 : Q) :
  0 < p1 -> 0 < p2 ->
  let difference := Qabs (B64.round (p1 - p2)) in
  let percentage_diff :=
    B64.round (B64.round (difference / pymax p1 p2) * 100) in
  0 <= difference /\ 0 <= percentage_diff /\
  (B64.representable p1 -> B64.representable p2 ->
   difference <= pymax p1 p2 /\ percentage_diff <= 100).
Proof.
  intros H1 H2. cbv zeta.
  assert (Hm : 0 < pymax p1 p2).
  { destruct (pymax_cases p1 p2) as [[_ E]|[_ E]]; rewrite E; assumption. }
  pose proof (Qabs_nonneg (B64.round (p1 - p2))) as Hn.
  set (d := Qabs (B64.round (p1 - p2))) in *.
  assert (Hq0 : 0 <= d / pymax p1 p2).
  { apply Qle_shift_div_l; [exact Hm | lra]. }
  pose proof (round_nonneg _ Hq0) as Hr0.
  split; [exact Hn|]. split.
  - apply round_nonneg. lra.
  - intros [R1 _] [R2 _].
    assert (Rm : B64.round (pymax p1 p2) == pymax p1 p2).
    { destruct (pymax_cases p1 p2) as [[_ E]|[_ E]]; rewrite E; assumption. }
    assert (Hd : d <= pymax p1 p2).
    { apply abs_round_le; [|exact Rm]. apply Qabs_Qle_condition.
      destruct (pymax_cases p1 p2) as [[L E]|[L E]]; rewrite E; split; lra. }
    split; [exact Hd|].
    assert (Hq1 : d / pymax p1 p2 <= 1).
    { apply Qle_shift_div_r; [exact Hm | lra]. }
    assert (Hr1 : B64.round (d / pymax p1 p2) <= 1).
    { apply Qle_trans with (B64.round 1).
      - apply round_mono; assumption.
      - pose proof round_1 as K. lra. }
    apply Qle_trans with (B64.round 100).
    + apply round_mono; lra.
    + pose proof round_100 as K. lra.
Qed.

Lemma reading_gt0_positive (df : DataFrame) (row : Row) (col : string) :
  has_column df col = true ->
  forall q, positive (at_col row col) = Some q ->
  reading_gt0 (reading df row col) = true /\ reading df row col = Some (Num q).
Proof.
  intros Hc q Hq. unfold reading. rewrite Hc. simpl.
  apply positive_Some in Hq. destruct Hq as [E Hpos].
  rewrite E. simpl. split; [apply Qltb_lt; exact Hpos | reflexivity].
Qed.

Lemma reading_gt0_not_positive (df : DataFrame) (row : Row) (col : string) :
  positive (at_col row col) = None -> reading_gt0 (reading df row col) = false.
Proof.
  intros Hq. unfold reading. destruct (has_column df col); [|reflexivity].
  simpl. destruct (gt0 (at_col row col)) eqn:E; [|reflexivity].
  apply gt0_positive in E. destruct E as [q E]. congruence.
Qed.

(** What one record of a Tandem sheet that has both columns of the condition
    appends to [tandem_analysis]. *)
Lemma tandem_row_emitted (df : DataFrame) (c : condition) (st : Amp.Stat)
    (idx : nat) (row : Row) :
  has_column df (amp_col c P1) = true ->
  has_column df (amp_col c P2) = true ->
  exists es : list Amp.Match,
    Amp.tandem_analysis (Amp.tandem_row df c st (idx, row)) =
      Amp.tandem_analysis st ++ es /\
      (fun (row : Row) (es : list Amp.Match) =>
         let r1 := reading df row (amp_col c P1) in
         let r2 := reading df row (amp_col c P2) in
         (reading_gt0 r1 = true /\ reading_gt0 r2 = true /\
          exists e, es = [e] /\
            r1 = Some (Num (Amp.p1_amp e)) /\
            r2 = Some (Num (Amp.p2_amp e)) /\
            Amp.difference e =
              Qabs (B64.round (Amp.p1_amp e - Amp.p2_amp e)) /\
            Amp.percentage_diff e =
              B64.round
                (B64.round
                   (Amp.difference e / pymax (Amp.p1_amp e) (Amp.p2_amp e)) *
                 100) /\
            0 <= Amp.percentage_diff e /\
            (B64.representable (Amp.p1_amp e) ->
             B64.representable (Amp.p2_amp e) ->
             Amp.percentage_diff e <= 100))
         \/
         ((reading_gt0 r1 = false \/ reading_gt0 r2 = false) /\ es = []))
      row es.
Proof.
  intros H1 H2. unfold Amp.tandem_row.
  destruct (positive (at_col row (amp_col c P1))) as [p1|] eqn:E1;
    [destruct (positive (at_col row (amp_col c P2))) as [p2|] eqn:E2|].
  - eexists. split; [reflexivity|]. left. cbv zeta.
    destruct (reading_gt0_positive df row _ H1 p1 E1) as [G1 R1].
    destruct (reading_gt0_positive df row _ H2 p2 E2) as [G2 R2].
    apply positive_Some in E1, E2.
    destruct (percentage_diff_bounds p1 p2 (proj2 E1) (proj2 E2))
      as [B0 [B1 B2]].
    split; [exact G1|]. split; [exact G2|].
    eexists. split; [reflexivity|].
    cbn [Amp.p1_amp Amp.p2_amp Amp.difference Amp.percentage_diff].
    split; [exact R1|]. split; [exact R2|].
    split; [reflexivity|]. split; [reflexivity|].
    split; [exact B1|]. intros Q1 Q2. exact (proj2 (B2 Q1 Q2)).
  - exists []. rewrite app_nil_r. split; [reflexivity|].
    right. split; [|reflexivity].
    right. apply reading_gt0_not_positive. exact E2.
  - exists []. rewrite app_nil_r. split; [reflexivity|].
    right. split; [|reflexivity].
    left. apply reading_gt0_not_positive. exact E1.
Qed.

Lemma amp_get_upd_same (a : Amp.Analysis) (c : condition) (f : Amp.Stat -> Amp.Stat) :
  Amp.get (Amp.upd a c f) c = f (Amp.get a c).
Proof. destruct c; reflexivity. Qed.

Lemma amp_get_sheet (a : Amp.Analysis) (entry : string * SheetData) (c : condition) :
  Amp.get (Amp.sheet a entry) c =
  match type (snd entry) with
  | Single => Amp.single (data (snd entry)) c (Amp.get a c)
  | Tandem => Amp.tandem (data (snd entry)) c (Amp.get a c)
  end.
Proof.
  unfold Amp.sheet. destruct (type (snd entry)); destruct c; reflexivity.
Qed.

(** A Single sheet appends no entry, whatever its columns hold. *)
Lemma amp_single_keeps_entries (df : DataFrame) (c : condition) (st : Amp.Stat) :
  Amp.tandem_analysis (Amp.single df c st) = Amp.tandem_analysis st.
Proof.
  unfold Amp.single. destruct (has_column df (amp_col c P1)); [|reflexivity].
  destruct (non_zero_values df (amp_col c P1)); reflexivity.
Qed.

Lemma concat_nils (A B : Type) (l : list A) :
  List.concat (map (fun _ => @nil B) l) = [].
Proof. induction l; simpl; auto. Qed.

(** C4, the case that refutes the claim as it is worded. The record holds
    the binary64 numbers 1e-17 and 1.0, both strictly positive. In a sheet
    typed Tandem the entry is emitted and its [percentage_diff] is 100, not
    under 100: [1e-17 - 1.0] rounds to [-1.0]. In a sheet typed Single (its
    name holds the word) no entry is emitted for the same record. *)
Lemma tandem_amp_match_counterexample :
  let tiny : Q := 6490371073168535 # 649037107316853453566312041152512 in
  let df :=
    mkDF ["Pump Sr. No"; "0 Bar Amp P1"; "0 Bar Amp P2"]
         [mkRow "U1" [("0 Bar Amp P1", Num tiny); ("0 Bar Amp P2", Num 1)]] in
  let entries (sheet_name : string) :=
    Amp.tandem_analysis
      (Amp.get (analyze_amperage (fst (analyze_pump_data [(sheet_name, df)])))
               bar_0) in
  B64.representable tiny /\ B64.representable 1 /\
  Forall (fun row =>
            reading_gt0 (reading df row (amp_col bar_0 P1)) = true /\
            reading_gt0 (reading df row (amp_col bar_0 P2)) = true)
         (rows df) /\
  (exists e, entries "Tandem Pumps" = [e] /\
     Amp.p1_amp e = tiny /\ Amp.p2_amp e = 1 /\
     Amp.percentage_diff e == 100 /\ ~ Amp.percentage_diff e < 100) /\
  entries "Single Pumps" = [].
Proof.
  cbv zeta. split; [|split; [|split; [|split]]].
  - split; vm_compute; reflexivity.
  - split; vm_compute; reflexivity.
  - repeat constructor.
  - match goal with
    | |- exists e, ?l = _ /\ _ => set (r := l)
    end.
    vm_compute in r. subst r. eexists. split; [reflexivity|].
    cbn [Amp.p1_amp Amp.p2_amp Amp.percentage_diff].
    split; [reflexivity|]. split; [reflexivity|].
    split; [reflexivity|]. intros K. vm_compute in K. discriminate K.
  - vm_compute. reflexivity.
Qed.

(** C4. What one sheet appends to [tandem_analysis] of a condition. A sheet
    typed Single appends nothing. A sheet typed Tandem appends, record by
    record and in order: one entry when both the P1 and the P2 amperage
    readings of the record are strictly positive, and none when either is
    not. The entry carries the two readings; its [difference] is the
    magnitude of the rounded [p1 - p2] and its [percentage_diff] is
    [difference / max(p1, p2) * 100] with the quotient and the product
    rounded. That value is at least 0, and at most 100 when the two readings
    are binary64 numbers. *)
Theorem tandem_amp_match_emitted (a : Amp.Analysis) (sheet_name : string)
    (sd : SheetData) (c : condition) :
  let df := data sd in
  let before := Amp.tandem_analysis (Amp.get a c) in
  let after :=
    Amp.tandem_analysis (Amp.get (Amp.sheet a (sheet_name, sd)) c) in
  match type sd with
  | Single => after = before
  | Tandem =>
      exists ess : list (list Amp.Match),
        after = before ++ List.concat ess /\
        Forall2
          (fun (row : Row) (es : list Amp.Match) =>
             let r1 := reading df row (amp_col c P1) in
             let r2 := reading df row (amp_col c P2) in
             (reading_gt0 r1 = true /\ reading_gt0 r2 = true /\
              exists e, es = [e] /\
                r1 = Some (Num (Amp.p1_amp e)) /\
                r2 = Some (Num (Amp.p2_amp e)) /\
                Amp.difference e =
                  Qabs (B64.round (Amp.p1_amp e - Amp.p2_amp e)) /\
                Amp.percentage_diff e =
                  B64.round
                    (B64.round
                       (Amp.difference e /
                        pymax (Amp.p1_amp e) (Amp.p2_amp e)) *
                     100) /\
                0 <= Amp.percentage_diff e /\
                (B64.representable (Amp.p1_amp e) ->
                 B64.representable (Amp.p2_amp e) ->
                 Amp.percentage_diff e <= 100))
             \/
             ((reading_gt0 r1 = false \/ reading_gt0 r2 = false) /\ es = []))
          (rows df) ess
  end.
Proof.
  cbv zeta. rewrite amp_get_sheet. cbn [snd].
  destruct (type sd).
  - apply amp_single_keeps_entries.
  - set (df := data sd). set (st := Amp.get a c). unfold Amp.tandem.
    rewrite <- (map_snd_iterrows df).
    destruct (has_column df (amp_col c P1)) eqn:H1;
      [destruct (has_column df (amp_col c P2)) eqn:H2|]; cbn [andb].
    + clearbody st. revert st.
      induction (iterrows df) as [|[idx row] irs IH]; intros st.
      * exists []. simpl. rewrite app_nil_r. split; [reflexivity | constructor].
      * cbn [fold_left map snd].
        destruct (IH (Amp.tandem_row df c st (idx, row))) as [ess [E F]].
        destruct (tandem_row_emitted df c st idx row H1 H2) as [es [Er R]].
        exists (es :: ess). split.
        -- rewrite E, Er. cbn [List.concat]. rewrite <- app_assoc. reflexivity.
        -- constructor; assumption.
    + exists (map (fun _ => []) (map snd (iterrows df))). split.
      * rewrite concat_nils, app_nil_r. reflexivity.
      * induction (map snd (iterrows df)) as [|row rs IH];
          constructor; [|exact IH].
        right. split; [|reflexivity]. right. unfold reading. rewrite H2.
        reflexivity.
    + exists (map (fun _ => []) (map snd (iterrows df))). split.
      * rewrite concat_nils, app_nil_r. reflexivity.
      * induction (map snd (iterrows df)) as [|row rs IH];
          constructor; [|exact IH].
        right. split; [|reflexivity]. left. unfold reading. rewrite H1.
        reflexivity.
Qed.

Lemma tandem_amp_match_emitted_witness :
  let df :=
    mkDF ["Pump Sr. No"; "0 Bar Amp P1"; "0 Bar Amp P2"]
         [mkRow "T1" [("0 Bar Amp P1", Num 10); ("0 Bar Amp P2", Num 12)];
          mkRow "T2" [("0 Bar Amp P1", Num 0); ("0 Bar Amp P2", Num 5)]] in
  exists ess : list (list Amp.Match),
    Amp.tandem_analysis
      (Amp.get (Amp.sheet Amp.init ("TandemPump", mkSheet df Tandem 2)) bar_0) =
      [] ++ List.concat ess /\
    Forall2
      (fun (row : Row) (es : list Amp.Match) =>
         let r1 := reading df row (amp_col bar_0 P1) in
         let r2 := reading df row (amp_col bar_0 P2) in
         (reading_gt0 r1 = true /\ reading_gt0 r2 = true /\
          exists e, es = [e] /\
            r1 = Some (Num (Amp.p1_amp e)) /\
            r2 = Some (Num (Amp.p2_amp e)) /\
            Amp.difference e =
              Qabs (B64.round (Amp.p1_amp e - Amp.p2_amp e)) /\
            Amp.percentage_diff e =
              B64.round
                (B64.round
                   (Amp.difference e / pymax (Amp.p1_amp e) (Amp.p2_amp e)) *
                 100) /\
            0 <= Amp.percentage_diff e /\
            (B64.representable (Amp.p1_amp e) ->
             B64.representable (Amp.p2_amp e) ->
             Amp.percentage_diff e <= 100))
         \/
         ((reading_gt0 r1 = false \/ reading_gt0 r2 = false) /\ es = []))
      (rows df) ess.
Proof.
  exact (tandem_amp_match_emitted Amp.init "TandemPump"
           (mkSheet
              (mkDF ["Pump Sr. No"; "0 Bar Amp P1"; "0 Bar Amp P2"]
                 [mkRow "T1" [("0 Bar Amp P1", Num 10); ("0 Bar Amp P2", Num 12)];
                  mkRow "T2" [("0 Bar Amp P1", Num 0); ("0 Bar Amp P2", Num 5)]])
              Tandem 2)
           bar_0).
Defined.

Lemma amp_get_analyze (pump_data : PumpData) (c : condition) :
  Amp.get (analyze_amperage pump_data) c =
  Amp.no_reading_to_zero (Amp.get (Amp.folded pump_data) c).
Proof. unfold analyze_amperage. destruct c; reflexivity. Qed.

Lemma amp_folded_app (before after : PumpData) :
  Amp.folded (before ++ after) = fold_left Amp.sheet after (Amp.folded before).
Proof. unfold Amp.folded. apply fold_left_app. Qed.

Lemma series_min_least (xs : list Q) (x : Q) :
  In (series_min x xs) (x :: xs) /\
  forall v, In v (x :: xs) -> series_min x xs <= v.
Proof.
  unfold series_min. revert x. induction xs as [|y ys IH]; intros x.
  - simpl. split; [auto|]. intros v [E|[]]. subst. lra.
  - cbn [fold_left]. destruct (IH (pymin x y)) as [Hin Hle]. split.
    + destruct Hin as [E|Hin]; [|right; right; exact Hin].
      rewrite <- E. destruct (pymin_cases x y) as [[_ P]|[_ P]]; rewrite P;
        simpl; auto.
    + intros v Hv.
      assert (Hp : fold_left pymin ys (pymin x y) <= pymin x y)
        by (apply Hle; left; reflexivity).
      destruct Hv as [E|[E|Hv]].
      * subst v. destruct (pymin_cases x y) as [[L P]|[L P]]; rewrite P in *; lra.
      * subst v. destruct (pymin_cases x y) as [[L P]|[L P]]; rewrite P in *; lra.
      * apply Hle. right. exact Hv.
Qed.

Lemma series_max_greatest (xs : list Q) (x : Q) :
  In (series_max x xs) (x :: xs) /\
  forall v, In v (x :: xs) -> v <= series_max x xs.
Proof.
  unfold series_max. revert x. induction xs as [|y ys IH]; intros x.
  - simpl. split; [auto|]. intros v [E|[]]. subst. lra.
  - cbn [fold_left]. destruct (IH (pymax x y)) as [Hin Hle]. split.
    + destruct Hin as [E|Hin]; [|right; right; exact Hin].
      rewrite <- E. destruct (pymax_cases x y) as [[_ P]|[_ P]]; rewrite P;
        simpl; auto.
    + intros v Hv.
      assert (Hp : pymax x y <= fold_left pymax ys (pymax x y))
        by (apply Hle; left; reflexivity).
      destruct Hv as [E|[E|Hv]].
      * subst v. destruct (pymax_cases x y) as [[L P]|[L P]]; rewrite P in *; lra.
      * subst v. destruct (pymax_cases x y) as [[L P]|[L P]]; rewrite P in *; lra.
      * apply Hle. right. exact Hv.
Qed.

(** Folding a non-empty block [ws] of positive values through its least
    value [lo] and its greatest value [hi]. *)
Lemma tracks_block (mn : ext) (mx : Q) (vs ws : list Q) (lo hi : Q) :
  (forall v, In v vs -> 0 < v) ->
  (forall v, In v ws -> 0 < v) ->
  In lo ws -> (forall v, In v ws -> lo <= v) ->
  In hi ws -> (forall v, In v ws -> v <= hi) ->
  AmpSpec.tracks mn mx vs ->
  AmpSpec.tracks (ext_min mn lo) (pymax mx hi) (vs ++ ws).
Proof.
  intros Pvs Pws Hlo Llo Hhi Lhi [Hmn Hmx]. split.
  - destruct mn as [|m]; simpl.
    + subst vs. simpl. auto.
    + destruct Hmn as [Hin Hle].
      destruct (pymin_cases m lo) as [[L P]|[L P]]; rewrite P; split.
      * apply in_or_app. auto.
      * intros v Hv. apply in_app_or in Hv. destruct Hv as [Hv|Hv].
        -- specialize (Hle v Hv). lra.
        -- auto.
      * apply in_or_app. auto.
      * intros v Hv. apply in_app_or in Hv. destruct Hv as [Hv|Hv].
        -- auto.
        -- specialize (Llo v Hv). lra.
  - destruct (vs ++ ws) as [|z zs] eqn:Ez.
    + apply app_eq_nil in Ez. destruct Ez as [_ Ez]. subst ws. destruct Hlo.
    + rewrite <- Ez. clear Ez z zs.
      destruct vs as [|y ys].
      * subst mx. simpl.
        assert (H0 : 0 < hi) by auto.
        destruct (pymax_cases 0 hi) as [[L P]|[L P]]; [|lra].
        rewrite P. auto.
      * destruct Hmx as [Hin Hle].
        destruct (pymax_cases mx hi) as [[L P]|[L P]]; rewrite P; split.
        -- apply in_or_app. auto.
        -- intros v Hv. apply in_app_or in Hv. destruct Hv as [Hv|Hv].
           ++ specialize (Hle v Hv). lra.
           ++ auto.
        -- apply in_or_app. auto.
        -- intros v Hv. apply in_app_or in Hv. destruct Hv as [Hv|Hv].
           ++ auto.
           ++ specialize (Lhi v Hv). lra.
Qed.

Lemma tracks_one (mn : ext) (mx : Q) (vs : list Q) (p : Q) :
  (forall v, In v vs -> 0 < v) -> 0 < p ->
  AmpSpec.tracks mn mx vs ->
  AmpSpec.tracks (ext_min mn p) (pymax mx p) (vs ++ [p]).
Proof.
  intros Pvs Pp H.
  apply tracks_block; try assumption; simpl;
    try (left; reflexivity);
    intros v [E|[]]; subst; try exact Pp; lra.
Qed.


Lemma amp_unit_values_positive (t : PumpType) (df : DataFrame) (c : condition)
    (row : Row) (v : Q) :
  In v (AmpSpec.unit_values t df c row) -> 0 < v.
Proof.
  unfold AmpSpec.unit_values. destruct t.
  - destruct (has_column df (amp_col c P1)); [|intros []].
    destruct (positive _) as [x|] eqn:E; [|intros []].
    apply positive_Some in E. intros [H|[]]. subst. apply E.
  - destruct (has_column df (amp_col c P1) && has_column df (amp_col c P2));
      [|intros []].
    destruct (positive (at_col row (amp_col c P1))) as [p1|] eqn:E1; [|intros []].
    destruct (positive (at_col row (amp_col c P2))) as [p2|] eqn:E2; [|intros []].
    apply positive_Some in E1, E2.
    intros [H|[H|[]]]; subst; [apply E1 | apply E2].
Qed.

Lemma amp_sheet_values_positive (c : condition) (sd : SheetData) (v : Q) :
  In v (AmpSpec.sheet_values c sd) -> 0 < v.
Proof.
  unfold AmpSpec.sheet_values. intros H. apply in_flat_map in H.
  destruct H as [row [_ H]]. exact (amp_unit_values_positive _ _ _ _ _ H).
Qed.

Lemma amp_folded_values_positive (c : condition) (pump_data : PumpData) (v : Q) :
  In v (AmpSpec.folded_values c pump_data) -> 0 < v.
Proof.
  unfold AmpSpec.folded_values. intros H. apply in_flat_map in H.
  destruct H as [entry [_ H]]. exact (amp_sheet_values_positive _ _ _ H).
Qed.

Lemma amp_single_tracks (df : DataFrame) (c : condition) (st : Amp.Stat)
    (vs : list Q) (n : nat) :
  (forall v, In v vs -> 0 < v) ->
  AmpSpec.tracks (Amp.min st) (Amp.max st) vs ->
  AmpSpec.tracks (Amp.min (Amp.single df c st)) (Amp.max (Amp.single df c st))
                 (vs ++ AmpSpec.sheet_values c (mkSheet df Single n)).
Proof.
  intros Pvs H.
  pose proof (amp_sheet_values_positive c (mkSheet df Single n)) as Pws.
  unfold AmpSpec.sheet_values, AmpSpec.unit_values in *. cbn [type data] in *.
  unfold Amp.single.
  destruct (has_column df (amp_col c P1)).
  - rewrite <- non_zero_values_rows in *.
    destruct (non_zero_values df (amp_col c P1)) as [|x xs].
    + rewrite app_nil_r. exact H.
    + cbn [Amp.min Amp.max].
      destruct (series_min_least xs x) as [Hlo Llo].
      destruct (series_max_greatest xs x) as [Hhi Lhi].
      apply tracks_block; assumption.
  - rewrite flat_map_nil, app_nil_r. exact H.
Qed.

Lemma amp_tandem_rows_tracks (df : DataFrame) (c : condition)
    (irs : list (nat * Row)) (st : Amp.Stat) (vs : list Q) :
  has_column df (amp_col c P1) && has_column df (amp_col c P2) = true ->
  (forall v, In v vs -> 0 < v) ->
  AmpSpec.tracks (Amp.min st) (Amp.max st) vs ->
  let st' := fold_left (Amp.tandem_row df c) irs st in
  AmpSpec.tracks (Amp.min st') (Amp.max st')
    (vs ++ flat_map (AmpSpec.unit_values Tandem df c) (map snd irs)).
Proof.
  intros Hc. cbv zeta. revert st vs.
  induction irs as [|[idx row] irs IH]; intros st vs Pvs H;
    cbn [fold_left map snd flat_map].
  - rewrite app_nil_r. exact H.
  - rewrite app_assoc. apply IH.
    + intros v Hv. apply in_app_or in Hv. destruct Hv as [Hv|Hv]; [auto|].
      exact (amp_unit_values_positive _ _ _ _ _ Hv).
    + pose proof (amp_unit_values_positive Tandem df c row) as Pws.
      unfold AmpSpec.unit_values in *. rewrite Hc in *. unfold Amp.tandem_row.
      destruct (positive (at_col row (amp_col c P1))) as [p1|];
        [destruct (positive (at_col row (amp_col c P2))) as [p2|]|];
        try (rewrite app_nil_r; exact H).
      cbn [Amp.min Amp.max].
      change [p1; p2] with ([p1] ++ [p2]). rewrite app_assoc.
      assert (P1' : 0 < p1) by (apply Pws; simpl; auto).
      assert (P2' : 0 < p2) by (apply Pws; simpl; auto).
      apply tracks_one; [|exact P2'|apply tracks_one; assumption].
      intros v Hv. apply in_app_or in Hv. destruct Hv as [Hv|[Hv|[]]];
        [auto | subst; exact P1'].
Qed.

Lemma amp_tandem_tracks (df : DataFrame) (c : condition) (st : Amp.Stat)
    (vs : list Q) (n : nat) :
  (forall v, In v vs -> 0 < v) ->
  AmpSpec.tracks (Amp.min st) (Amp.max st) vs ->
  AmpSpec.tracks (Amp.min (Amp.tandem df c st)) (Amp.max (Amp.tandem df c st))
                 (vs ++ AmpSpec.sheet_values c (mkSheet df Tandem n)).
Proof.
  intros Pvs H. unfold AmpSpec.sheet_values, Amp.tandem. cbn [type data].
  destruct (has_column df (amp_col c P1) && has_column df (amp_col c P2)) eqn:Hc.
  - cbn [Amp.min Amp.max]. rewrite <- (map_snd_iterrows df).
    apply amp_tandem_rows_tracks; assumption.
  - unfold AmpSpec.unit_values. rewrite Hc, flat_map_nil, app_nil_r. exact H.
Qed.

Lemma amp_fold_tracks (c : condition) (pump_data : PumpData) (a : Amp.Analysis)
    (vs : list Q) :
  (forall v, In v vs -> 0 < v) ->
  AmpSpec.tracks (Amp.min (Amp.get a c)) (Amp.max (Amp.get a c)) vs ->
  let a' := fold_left Amp.sheet pump_data a in
  AmpSpec.tracks (Amp.min (Amp.get a' c)) (Amp.max (Amp.get a' c))
                 (vs ++ AmpSpec.folded_values c pump_data).
Proof.
  cbv zeta. revert a vs.
  induction pump_data as [|[name [df t n]] pd IH]; intros a vs Pvs H.
  - simpl. rewrite app_nil_r. exact H.
  - cbn [fold_left]. unfold AmpSpec.folded_values. cbn [flat_map snd].
    rewrite app_assoc. apply IH.
    + intros v Hv. apply in_app_or in Hv. destruct Hv as [Hv|Hv]; [auto|].
      exact (amp_sheet_values_positive _ _ _ Hv).
    + rewrite amp_get_sheet. cbn [snd type data]. destruct t.
      * apply amp_single_tracks; assumption.
      * apply amp_tandem_tracks; assumption.
Qed.

(** The accumulator after the loop over the sheets tracks the values folded
    for the condition. *)
Lemma amp_folded_tracks (c : condition) (pump_data : PumpData) :
  let st := Amp.get (Amp.folded pump_data) c in
  AmpSpec.tracks (Amp.min st) (Amp.max st) (AmpSpec.folded_values c pump_data).
Proof.
  cbv zeta. unfold Amp.folded.
  change (AmpSpec.folded_values c pump_data)
    with ([] ++ AmpSpec.folded_values c pump_data).
  apply amp_fold_tracks.
  - intros v [].
  - destruct c; split; reflexivity.
Qed.

Lemma flat_map_all_nil {A B : Type} (f : A -> list B) (l : list A) :
  (forall x, In x l -> f x = []) -> flat_map f l = [].
Proof.
  induction l as [|x l IH]; simpl; intros H; [reflexivity|].
  rewrite (H x (or_introl eq_refl)). apply IH. intros y Hy. apply H. auto.
Qed.

Lemma not_gt0_positive (df : DataFrame) (row : Row) (col : string) :
  has_column df col = true ->
  reading_gt0 (reading df row col) = false ->
  positive (at_col row col) = None.
Proof.
  unfold reading. intros Hc. rewrite Hc. simpl. intros H.
  rewrite positive_gt0, H. reflexivity.
Qed.

Lemma no_positive_unit_values (c : condition) (sd : SheetData) (row : Row) :
  AmpSpec.no_positive c sd -> In row (rows (data sd)) ->
  AmpSpec.unit_values (type sd) (data sd) c row = [].
Proof.
  intros H Hin. unfold AmpSpec.unit_values. destruct (type sd).
  - destruct (has_column _ (amp_col c P1)) eqn:H1; [|reflexivity].
    rewrite (not_gt0_positive _ _ _ H1 (H P1 row Hin)). reflexivity.
  - destruct (has_column _ (amp_col c P1)) eqn:H1; [|reflexivity].
    destruct (has_column _ (amp_col c P2)) eqn:H2; [|reflexivity].
    rewrite (not_gt0_positive _ _ _ H1 (H P1 row Hin)). reflexivity.
Qed.

Lemma no_positive_folded_values (c : condition) (pump_data : PumpData) :
  (forall entry, In entry pump_data -> AmpSpec.no_positive c (snd entry)) ->
  AmpSpec.folded_values c pump_data = [].
Proof.
  intros H. unfold AmpSpec.folded_values. apply flat_map_all_nil.
  intros entry Hin. unfold AmpSpec.sheet_values. apply flat_map_all_nil.
  intros row Hrow. apply no_positive_unit_values; auto.
Qed.

(** C5. For a condition, the minimum and the maximum are taken over the
    values the analyzer folds, all of them strictly positive readings: with
    at least one folded value the minimum is a least and the maximum a
    greatest of them. With none (in particular when no record of any sheet
    has a positive reading of the condition) the minimum and the maximum are
    both 0, and the minimum is never the sentinel in the result. The sentinel
    is replaced once, on the accumulator that the loop over all the sheets
    leaves: after any leading part of the sheets the accumulator still holds
    the sentinel exactly when no value was folded so far, and the remaining
    sheets are folded into that accumulator. *)
Theorem amperage_min_max (pump_data : PumpData) (c : condition) :
  let st := Amp.get (analyze_amperage pump_data) c in
  let vs := AmpSpec.folded_values c pump_data in
  (forall v, In v vs -> 0 < v) /\
  (vs <> [] ->
   exists m, Amp.min st = Fin m /\
     In m vs /\ (forall v, In v vs -> m <= v) /\
     In (Amp.max st) vs /\ (forall v, In v vs -> v <= Amp.max st)) /\
  (vs = [] -> Amp.min st = Fin 0 /\ Amp.max st = 0) /\
  ((forall entry, In entry pump_data -> AmpSpec.no_positive c (snd entry)) ->
   Amp.min st = Fin 0 /\ Amp.max st = 0) /\
  Amp.min st <> Inf /\
  st = Amp.no_reading_to_zero (Amp.get (Amp.folded pump_data) c) /\
  (forall before after, pump_data = before ++ after ->
     (Amp.min (Amp.get (Amp.folded before) c) = Inf <->
      AmpSpec.folded_values c before = []) /\
     Amp.folded pump_data = fold_left Amp.sheet after (Amp.folded before)).
Proof.
  cbv zeta. rewrite amp_get_analyze.
  pose proof (amp_folded_tracks c pump_data) as T. cbv zeta in T.
  assert (Hnil : AmpSpec.folded_values c pump_data = [] ->
            Amp.min (Amp.no_reading_to_zero (Amp.get (Amp.folded pump_data) c))
              = Fin 0 /\
            Amp.max (Amp.no_reading_to_zero (Amp.get (Amp.folded pump_data) c))
              = 0).
  { intros E. rewrite E in T. destruct T as [Tmin Tmax].
    unfold Amp.no_reading_to_zero.
    destruct (Amp.min (Amp.get (Amp.folded pump_data) c)) as [|m] eqn:Em.
    - simpl. auto.
    - destruct Tmin as [[] _]. }
  repeat split.
  - apply amp_folded_values_positive.
  - intros Hne. destruct T as [Tmin Tmax]. unfold Amp.no_reading_to_zero.
    destruct (Amp.min (Amp.get (Amp.folded pump_data) c)) as [|m] eqn:Em.
    + contradiction.
    + exists m. rewrite Em.
      destruct (AmpSpec.folded_values c pump_data) as [|z zs];
        [contradiction|].
      destruct Tmin as [Hin Hle]. destruct Tmax as [Hin' Hle']. auto.
  - apply Hnil. assumption.
  - apply Hnil. assumption.
  - apply Hnil. apply no_positive_folded_values. assumption.
  - apply Hnil. apply no_positive_folded_values. assumption.
  - unfold Amp.no_reading_to_zero.
    destruct (Amp.min (Amp.get (Amp.folded pump_data) c)) eqn:Em;
      [simpl; discriminate | rewrite Em; discriminate].
  - intros Hinf. pose proof (amp_folded_tracks c before) as [Tb _].
    rewrite Hinf in Tb. exact Tb.
  - intros E. pose proof (amp_folded_tracks c before) as [Tb _].
    rewrite E in Tb.
    destruct (Amp.min (Amp.get (Amp.folded before) c));
      [reflexivity | destruct Tb as [[] _]].
  - subst pump_data. apply amp_folded_app.
Qed.

(** The sentinel is not replaced sheet by sheet: a first sheet without a
    positive reading does not turn the minimum of the run into 0. *)
Example min_after_sheet_without_reading :
  let s1 := mkSheet (mkDF ["0 Bar Amp P1"] [mkRow "1" [("0 Bar Amp P1", Num 0)]])
                    Single 1 in
  let s2 := mkSheet (mkDF ["0 Bar Amp P1"] [mkRow "2" [("0 Bar Amp P1", Num 7)]])
                    Single 1 in
  Amp.min (Amp.get (analyze_amperage [("A", s1); ("B", s2)]) bar_0) = Fin 7 /\
  Amp.min (Amp.get (analyze_amperage [("A", s1)]) bar_0) = Fin 0 /\
  Amp.max (Amp.get (analyze_amperage [("A", s1)]) bar_0) = 0.
Proof. repeat split. Qed.

Lemma amp_tandem_rows_unit_count (df : DataFrame) (c : condition)
    (irs : list (nat * Row)) (st : Amp.Stat) :
  Amp.unit_count (fold_left (Amp.tandem_row df c) irs st) = Amp.unit_count st.
Proof.
  revert st. induction irs as [|[idx row] irs IH]; intros st; cbn [fold_left].
  - reflexivity.
  - rewrite IH. unfold Amp.tandem_row.
    destruct (positive (at_col row (amp_col c P1)));
      [destruct (positive (at_col row (amp_col c P2)))|]; reflexivity.
Qed.

Lemma amp_sheet_unit_count (a : Amp.Analysis) (entry : string * SheetData)
    (c : condition) :
  Amp.unit_count (Amp.get (Amp.sheet a entry) c) =
  (Amp.unit_count (Amp.get a c) + AmpSpec.sheet_units c (snd entry))%nat.
Proof.
  rewrite amp_get_sheet. unfold AmpSpec.sheet_units.
  destruct (type (snd entry)).
  - unfold Amp.single. destruct (has_column _ (amp_col c P1)); [|lia].
    destruct (non_zero_values _ _); reflexivity.
  - unfold Amp.tandem.
    destruct (has_column _ (amp_col c P1) && has_column _ (amp_col c P2)); [|lia].
    cbn [Amp.unit_count]. rewrite amp_tandem_rows_unit_count. reflexivity.
Qed.

Lemma amp_fold_unit_count (c : condition) (pump_data : PumpData) (a : Amp.Analysis) :
  Amp.unit_count (Amp.get (fold_left Amp.sheet pump_data a) c) =
  (Amp.unit_count (Amp.get a c) + AmpSpec.units c pump_data)%nat.
Proof.
  revert a. induction pump_data as [|entry pd IH]; intros a; simpl.
  - lia.
  - rewrite IH, amp_sheet_unit_count. lia.
Qed.

Lemma amp_sheet_no_match (a : Amp.Analysis) (entry : string * SheetData)
    (c : condition) :
  AmpSpec.no_positive c (snd entry) ->
  Amp.tandem_analysis (Amp.get (Amp.sheet a entry) c) =
  Amp.tandem_analysis (Amp.get a c).
Proof.
  intros H. rewrite amp_get_sheet. destruct (type (snd entry)).
  - unfold Amp.single. destruct (has_column _ (amp_col c P1)); [|reflexivity].
    destruct (non_zero_values _ _); reflexivity.
  - unfold Amp.tandem.
    destruct (has_column _ (amp_col c P1)) eqn:H1; [|reflexivity].
    destruct (has_column _ (amp_col c P2)) eqn:H2; [|reflexivity].
    cbn [andb Amp.tandem_analysis]. rewrite fold_left_fixed; [reflexivity|].
    intros [idx row] Hin. unfold Amp.tandem_row.
    rewrite (not_gt0_positive _ _ _ H1 (H P1 row (in_iterrows _ _ _ Hin))).
    reflexivity.
Qed.

Lemma amp_fold_no_match (c : condition) (pump_data : PumpData) (a : Amp.Analysis) :
  (forall entry, In entry pump_data -> AmpSpec.no_positive c (snd entry)) ->
  Amp.tandem_analysis (Amp.get (fold_left Amp.sheet pump_data a) c) =
  Amp.tandem_analysis (Amp.get a c).
Proof.
  revert a. induction pump_data as [|entry pd IH]; intros a H; simpl.
  - reflexivity.
  - rewrite IH by (intros e He; apply H; right; exact He).
    apply amp_sheet_no_match. apply H. left. reflexivity.
Qed.

(** The statistics of a condition without a positive reading. *)
Lemma amp_no_positive_stat (c : condition) (pump_data : PumpData) :
  (forall entry, In entry pump_data -> AmpSpec.no_positive c (snd entry)) ->
  Amp.get (analyze_amperage pump_data) c =
  Amp.mkStat (Fin 0) 0 (AmpSpec.units c pump_data) [].
Proof.
  intros H. rewrite amp_get_analyze.
  pose proof (amp_folded_tracks c pump_data) as T. cbv zeta in T.
  rewrite (no_positive_folded_values c pump_data H) in T.
  destruct T as [Tmin Tmax].
  pose proof (amp_fold_unit_count c pump_data Amp.init) as U.
  pose proof (amp_fold_no_match c pump_data Amp.init H) as M.
  fold (Amp.folded pump_data) in U, M.
  unfold Amp.no_reading_to_zero.
  destruct (Amp.get (Amp.folded pump_data) c) as [mn mx uc ta].
  cbn [Amp.min Amp.max Amp.unit_count Amp.tandem_analysis] in *.
  destruct mn as [|m]; [|destruct Tmin as [[] _]].
  subst mx. rewrite U, M. destruct c; reflexivity.
Qed.

(** ** Report content *)

Lemma config_fold (pump_data : PumpData) (ls : list string) (n : nat) (b : bool) :
  fold_left Report.config_step pump_data (ls, n, b) =
  (ls ++ map ReportSpec.config_line pump_data,
   (n + ReportSpec.total_units pump_data)%nat,
   b || ReportSpec.has_tandem pump_data).
Proof.
  revert ls n b. induction pump_data as [|[name d] pd IH]; intros ls n b.
  - simpl. rewrite app_nil_r, Nat.add_0_r, orb_false_r. reflexivity.
  - cbn [fold_left]. unfold Report.config_step at 2.
    destruct (type d) eqn:Ht; rewrite IH; clear IH;
      unfold ReportSpec.total_units, ReportSpec.has_tandem,
        ReportSpec.config_line, list_sum;
      cbn [map fold_right existsb fst snd]; rewrite Ht;
      cbn [PumpType_eqb orb]; rewrite <- app_assoc; cbn [app];
      (apply (f_equal2 pair);
       [apply (f_equal2 pair); [reflexivity | lia] | destruct b; reflexivity]).
Qed.

(** The report, section by section. *)
Lemma report_layout (pump_data : PumpData) (total_pumps : nat)
    (amp_analysis : Amp.Analysis) (efficiency_ranges : Eff.Ranges)
    (total_efficiency_readings : nat)
    (tandem_matching_analysis : option (list Eff.Match)) :
  Report.lines pump_data total_pumps amp_analysis efficiency_ranges
    total_efficiency_readings tandem_matching_analysis =
  (ReportSpec.header ++ map ReportSpec.config_line pump_data) ++
  [("Total units tested: " ++
    Str.of_nat (ReportSpec.total_units pump_data))%string;
   ("Total individual pumps: " ++
    Str.of_nat total_efficiency_readings)%string;
   ""] ++
  ["AMPERAGE ANALYSIS:"; Str.rep 18 "-"] ++
  Report.condition_block bar_0 (Amp.get amp_analysis bar_0) ++
  Report.condition_block bar_200 (Amp.get amp_analysis bar_200) ++
  ReportSpec.efficiency_lines efficiency_ranges total_efficiency_readings ++
  Report.eff_matching_lines tandem_matching_analysis
    (ReportSpec.has_tandem pump_data).
Proof.
  unfold Report.lines. rewrite config_fold. cbn [fold_left orb Nat.add].
  unfold ReportSpec.header, ReportSpec.efficiency_lines.
  repeat rewrite <- app_assoc. reflexivity.
Qed.

Lemma segment_fourth {A : Type} (a b d e f r : list A) :
  exists pre post, a ++ b ++ d ++ e ++ f ++ r = pre ++ e ++ post.
Proof.
  exists (a ++ b ++ d), (f ++ r). rewrite <- !app_assoc. reflexivity.
Qed.

Lemma segment_fifth {A : Type} (a b d e f r : list A) :
  exists pre post, a ++ b ++ d ++ e ++ f ++ r = pre ++ f ++ post.
Proof.
  exists (a ++ b ++ d ++ e), r. rewrite <- !app_assoc. reflexivity.
Qed.

(** A condition block is a segment of the report. *)
Lemma condition_block_in_report (c : condition) (pump_data : PumpData)
    (total_pumps : nat) (amp_analysis : Amp.Analysis)
    (efficiency_ranges : Eff.Ranges) (total_efficiency_readings : nat)
    (tandem_matching_analysis : option (list Eff.Match)) :
  exists pre post,
    Report.lines pump_data total_pumps amp_analysis efficiency_ranges
      total_efficiency_readings tandem_matching_analysis =
    pre ++ Report.condition_block c (Amp.get amp_analysis c) ++ post.
Proof.
  rewrite report_layout. destruct c.
  - apply segment_fourth.
  - apply segment_fifth.
Qed.

(** A Single sheet whose only 0-bar reading is 0: the sheet has the column,
    so its row is a unit of the condition, and the block shows the number of
    units, not the line for no data. *)
Example zero_reading_block :
  let pump_data :=
    [("SinglePump",
      mkSheet (mkDF ["Pump Sr. No"; "0 Bar Amp P1"]
                 [mkRow "1" [("0 Bar Amp P1", Num 0)]])
              Single 1)] in
  (forall entry, In entry pump_data -> AmpSpec.no_positive bar_0 (snd entry)) /\
  Report.condition_block bar_0 (Amp.get (analyze_amperage pump_data) bar_0) =
    ["0 Bar Conditions:"; "  Total units analyzed: 1"; ""] /\
  ~ In "  No data available"
      (Report.condition_block bar_0 (Amp.get (analyze_amperage pump_data) bar_0)).
Proof.
  cbv zeta. split; [|split].
  - intros entry [E|[]]. subst entry. intros s row [E|[]]. subst row.
    destruct s; reflexivity.
  - reflexivity.
  - intros [H|[H|[H|[]]]]; discriminate.
Qed.

(** C7, amended. When no amperage reading of a condition is positive in any
    sheet, the condition's block of the report has no minimum and no maximum
    amperage line and no tandem matching lines: after its title it has one
    line, which is the line for no data exactly when the condition's unit
    count is 0 (no sheet with rows has the columns of the condition), and the
    number of units analyzed otherwise. *)
Theorem zero_data_block (pump_data : PumpData) (c : condition) :
  (forall entry, In entry pump_data -> AmpSpec.no_positive c (snd entry)) ->
  let block :=
    Report.condition_block c (Amp.get (analyze_amperage pump_data) c) in
  block =
    [(Report.condition_name c ++ " Conditions:")%string;
     if (0 <? AmpSpec.units c pump_data)%nat
     then ("  Total units analyzed: " ++
           Str.of_nat (AmpSpec.units c pump_data))%string
     else "  No data available";
     ""] /\
  (forall l, In l block ->
     String.prefix "  Minimum amperage:" l = false /\
     String.prefix "  Maximum amperage:" l = false) /\
  (In "  No data available" block <-> AmpSpec.units c pump_data = O) /\
  (forall total_pumps efficiency_ranges total_efficiency_readings
          tandem_matching_analysis,
     exists pre post,
       Report.lines pump_data total_pumps (analyze_amperage pump_data)
         efficiency_ranges total_efficiency_readings tandem_matching_analysis
       = pre ++ block ++ post).
Proof.
  intros H. cbv zeta.
  assert (E : Report.condition_block c (Amp.get (analyze_amperage pump_data) c) =
    [(Report.condition_name c ++ " Conditions:")%string;
     if (0 <? AmpSpec.units c pump_data)%nat
     then ("  Total units analyzed: " ++
           Str.of_nat (AmpSpec.units c pump_data))%string
     else "  No data available";
     ""]).
  { rewrite (amp_no_positive_stat c pump_data H). unfold Report.condition_block.
    cbn [Amp.unit_count Amp.max Amp.min Amp.tandem_analysis
         Report.amp_matching_lines].
    destruct (0 <? AmpSpec.units c pump_data)%nat; reflexivity. }
  split; [exact E|]. split; [|split].
  - rewrite E. intros l Hl.
    destruct (0 <? AmpSpec.units c pump_data)%nat; destruct c;
      destruct Hl as [Hl|[Hl|[Hl|[]]]]; subst l; split; reflexivity.
  - rewrite E. destruct (0 <? AmpSpec.units c pump_data)%nat eqn:U.
    + apply Nat.ltb_lt in U. split.
      * destruct c; intros [Hl|[Hl|[Hl|[]]]]; discriminate.
      * lia.
    + apply Nat.ltb_ge in U. split; [lia|]. intros _. simpl. auto.
  - intros. apply condition_block_in_report.
Qed.

Lemma zero_data_block_witness :
  let pump_data :=
    [("TandemPump",
      mkSheet (mkDF ["Pump Sr. No"; "Eff%P1"; "Eff%P2"; "0 Bar Amp P1"]
                 [mkRow "T1" [("Eff%P1", Num 91); ("Eff%P2", Num 95);
                              ("0 Bar Amp P1", Num 0)]])
              Tandem 1)] in
  Report.condition_block bar_0 (Amp.get (analyze_amperage pump_data) bar_0) =
    ["0 Bar Conditions:"; "  No data available"; ""].
Proof.
  cbv zeta.
  refine (proj1 (zero_data_block _ bar_0 _)).
  intros entry [E|[]]. subst entry. intros s row [E|[]]. subst row.
  destruct s; reflexivity.
Defined.

Lemma analyze_pump_data_fold (sheets : list (string * DataFrame))
    (pump_data : PumpData) (total_pumps : nat) :
  fold_left
    (fun (acc : PumpData * nat) (s : string * DataFrame) =>
       let (pump_data, total_pumps) := acc in
       let (sheet_name, df) := s in
       let pump_type := determine_pump_type df sheet_name in
       (pump_data ++ [(sheet_name, mkSheet df pump_type (len df))],
        (total_pumps + len df)%nat))
    sheets (pump_data, total_pumps) =
  (pump_data ++
     map (fun s => (fst s, mkSheet (snd s) (determine_pump_type (snd s) (fst s))
                             (len (snd s)))) sheets,
   (total_pumps + list_sum (map (fun s => len (snd s)) sheets))%nat).
Proof.
  revert pump_data total_pumps.
  induction sheets as [|[name df] sheets IH]; intros pd tp.
  - simpl. rewrite app_nil_r, Nat.add_0_r. reflexivity.
  - cbn [fold_left]. rewrite IH. cbn [map list_sum fold_right fst snd].
    rewrite <- app_assoc. apply (f_equal2 pair); [reflexivity|].
    unfold list_sum. cbn [fold_right]. lia.
Qed.

(** The entries of [pump_data] carry the number of rows of their frame. *)
Lemma analyze_pump_data_units (sheets : list (string * DataFrame)) :
  ReportSpec.total_units (fst (analyze_pump_data sheets)) =
  list_sum (map (fun s => len (snd s)) sheets) /\
  snd (analyze_pump_data sheets) =
  list_sum (map (fun s => len (snd s)) sheets).
Proof.
  unfold analyze_pump_data. rewrite analyze_pump_data_fold. cbn [fst snd app].
  split; [|reflexivity].
  unfold ReportSpec.total_units. rewrite map_map. reflexivity.
Qed.

Lemma eff_total_readings_of_units (pump_data : PumpData) :
  Eff.total_individual_pumps (analyze_efficiency_distribution pump_data) =
  ReportSpec.readings_of_units pump_data.
Proof.
  unfold analyze_efficiency_distribution.
  destruct (eff_fold_readings pump_data Eff.init) as [_ H]. rewrite H.
  cbn [Eff.total_individual_pumps Eff.init Nat.add].
  unfold EffSpec.counted_readings, ReportSpec.readings_of_units.
  rewrite length_flat_map. f_equal. apply map_ext. intros entry.
  unfold EffSpec.sheet_readings. apply length_flat_map.
Qed.

(** C10. The line "Total individual pumps" of the report prints the
    [total_efficiency_readings] it is given, whatever [total_pumps] is; in
    the run of the application that is the analyzer's total of individual
    readings, the sum over the units of the readings each contributes, while
    "Total units tested" prints the number of rows of the sheets. A unit
    without a positive efficiency reading, and a Tandem unit with only one
    positive side, contribute no reading. *)
Theorem total_individual_pumps_line :
  (forall pump_data total_pumps amp_analysis efficiency_ranges
          total_efficiency_readings tandem_matching_analysis,
     exists post,
       Report.lines pump_data total_pumps amp_analysis efficiency_ranges
         total_efficiency_readings tandem_matching_analysis =
       (ReportSpec.header ++ map ReportSpec.config_line pump_data) ++
       [("Total units tested: " ++
         Str.of_nat (ReportSpec.total_units pump_data))%string;
        ("Total individual pumps: " ++
         Str.of_nat total_efficiency_readings)%string;
        ""] ++ post) /\
  (forall sheets text,
     main sheets = Some text ->
     let pump_data := fst (analyze_pump_data sheets) in
     exists post,
       text =
       Str.join (String "010" "")
         ((ReportSpec.header ++ map ReportSpec.config_line pump_data) ++
          [("Total units tested: " ++
            Str.of_nat (list_sum (map (fun s => len (snd s)) sheets)))%string;
           ("Total individual pumps: " ++
            Str.of_nat (ReportSpec.readings_of_units pump_data))%string;
           ""] ++ post)) /\
  (forall df row,
     reading_gt0 (reading df row "Eff%P1") = false ->
     EffSpec.unit_readings Single df row = []) /\
  (forall df row,
     reading_gt0 (reading df row "Eff%P1") &&
     reading_gt0 (reading df row "Eff%P2") = false ->
     EffSpec.unit_readings Tandem df row = []).
Proof.
  split; [|split; [|split]].
  - intros. rewrite report_layout.
    exists (["AMPERAGE ANALYSIS:"; Str.rep 18 "-"] ++
            Report.condition_block bar_0 (Amp.get amp_analysis bar_0) ++
            Report.condition_block bar_200 (Amp.get amp_analysis bar_200) ++
            ReportSpec.efficiency_lines efficiency_ranges
              total_efficiency_readings ++
            Report.eff_matching_lines tandem_matching_analysis
              (ReportSpec.has_tandem pump_data)).
    reflexivity.
  - intros sheets text. unfold main.
    pose proof (analyze_pump_data_units sheets) as [U _].
    destruct (analyze_pump_data sheets) as [pd tp]. cbn [fst] in *.
    destruct pd as [|e pd']; [discriminate|].
    destruct (0 <? tp)%nat; [|discriminate].
    intros E. inversion E as [E']. clear E E'.
    unfold generate_report_content. rewrite report_layout.
    rewrite eff_total_readings_of_units, U.
    set (pump_data := e :: pd').
    set (amp_analysis := analyze_amperage pump_data).
    set (r := analyze_efficiency_distribution pump_data).
    exists (["AMPERAGE ANALYSIS:"; Str.rep 18 "-"] ++
            Report.condition_block bar_0 (Amp.get amp_analysis bar_0) ++
            Report.condition_block bar_200 (Amp.get amp_analysis bar_200) ++
            ReportSpec.efficiency_lines (Eff.efficiency_ranges r)
              (ReportSpec.readings_of_units pump_data) ++
            Report.eff_matching_lines (Some (Eff.tandem_matching_analysis r))
              (ReportSpec.has_tandem pump_data)).
    reflexivity.
  - intros df row H. unfold EffSpec.unit_readings.
    destruct (has_column df "Eff%P1") eqn:Hc; [|reflexivity].
    rewrite (not_gt0_positive _ _ _ Hc H). reflexivity.
  - intros df row H. unfold EffSpec.unit_readings.
    rewrite <- !gt0_row_get in H.
    rewrite (positive_gt0 (row_get df row "Eff%P1" (Num 0))).
    rewrite (positive_gt0 (row_get df row "Eff%P2" (Num 0))).
    destruct (gt0 (row_get df row "Eff%P1" (Num 0))); [|reflexivity].
    destruct (gt0 (row_get df row "Eff%P2" (Num 0))); [discriminate|].
    destruct (positive (row_get df row "Eff%P1" (Num 0))); reflexivity.
Qed.

(** One Tandem unit with a single positive side: one unit tested, no
    individual pump. *)
Example one_sided_tandem_unit :
  let df := mkDF ["Pump Sr. No"; "Eff%P1"; "Eff%P2"]
                 [mkRow "T1" [("Eff%P1", Num 93); ("Eff%P2", Num 0)]] in
  let pump_data := fst (analyze_pump_data [("TandemPump", df)]) in
  let r := analyze_efficiency_distribution pump_data in
  let report_lines :=
    Report.lines pump_data 1 (analyze_amperage pump_data)
      (Eff.efficiency_ranges r) (Eff.total_individual_pumps r)
      (Some (Eff.tandem_matching_analysis r)) in
  nth_error report_lines 5 =
    Some "TandemPump: 1 Tandem units (each with 2 pumps)" /\
  nth_error report_lines 6 = Some "Total units tested: 1" /\
  nth_error report_lines 7 = Some "Total individual pumps: 0".
Proof. vm_compute. repeat split. Qed.

(** * Further properties of the analyzers *)

(** ** Amperage: units, entries and bounds *)

Lemma amp_tandem_rows_matches (df : DataFrame) (c : condition)
    (irs : list (nat * Row)) (st : Amp.Stat) :
  Amp.tandem_analysis (fold_left (Amp.tandem_row df c) irs st) =
  Amp.tandem_analysis st ++ flat_map (AmpUnits.unit_matches df c) irs.
Proof.
  revert st. induction irs as [|[idx row] irs IH]; intros st;
    cbn [fold_left flat_map].
  - rewrite app_nil_r. reflexivity.
  - rewrite IH, app_assoc. f_equal.
    unfold Amp.tandem_row, AmpUnits.unit_matches. cbn [fst snd].
    destruct (positive (at_col row (amp_col c P1)));
      [destruct (positive (at_col row (amp_col c P2)))|];
      cbn [Amp.tandem_analysis]; rewrite ?app_nil_r; reflexivity.
Qed.

Lemma amp_sheet_matches (a : Amp.Analysis) (entry : string * SheetData)
    (c : condition) :
  Amp.tandem_analysis (Amp.get (Amp.sheet a entry) c) =
  Amp.tandem_analysis (Amp.get a c) ++ AmpUnits.sheet_matches c (snd entry).
Proof.
  rewrite amp_get_sheet. unfold AmpUnits.sheet_matches.
  destruct (type (snd entry)).
  - rewrite amp_single_keeps_entries, app_nil_r. reflexivity.
  - unfold Amp.tandem.
    destruct (has_column _ (amp_col c P1) && has_column _ (amp_col c P2)).
    + cbn [Amp.tandem_analysis]. apply amp_tandem_rows_matches.
    + rewrite app_nil_r. reflexivity.
Qed.

Lemma amp_fold_matches (c : condition) (pump_data : PumpData) (a : Amp.Analysis) :
  Amp.tandem_analysis (Amp.get (fold_left Amp.sheet pump_data a) c) =
  Amp.tandem_analysis (Amp.get a c) ++ AmpUnits.matches c pump_data.
Proof.
  revert a. induction pump_data as [|entry pd IH]; intros a.
  - simpl. rewrite app_nil_r. reflexivity.
  - cbn [fold_left]. rewrite IH, amp_sheet_matches.
    unfold AmpUnits.matches. cbn [flat_map]. rewrite app_assoc. reflexivity.
Qed.

Lemma no_reading_to_zero_keeps (st : Amp.Stat) :
  Amp.max (Amp.no_reading_to_zero st) = Amp.max st /\
  Amp.unit_count (Amp.no_reading_to_zero st) = Amp.unit_count st /\
  Amp.tandem_analysis (Amp.no_reading_to_zero st) = Amp.tandem_analysis st.
Proof.
  unfold Amp.no_reading_to_zero. destruct (Amp.min st); auto.
Qed.

(** The entries of a condition in the result, sheet by sheet. *)
Lemma amp_analyze_matches (c : condition) (pump_data : PumpData) :
  Amp.tandem_analysis (Amp.get (analyze_amperage pump_data) c) =
  AmpUnits.matches c pump_data.
Proof.
  rewrite amp_get_analyze.
  destruct (no_reading_to_zero_keeps (Amp.get (Amp.folded pump_data) c))
    as [_ [_ E]].
  rewrite E. unfold Amp.folded. rewrite amp_fold_matches.
  destruct c; reflexivity.
Qed.

Lemma amp_analyze_unit_count (c : condition) (pump_data : PumpData) :
  Amp.unit_count (Amp.get (analyze_amperage pump_data) c) =
  AmpSpec.units c pump_data.
Proof.
  rewrite amp_get_analyze.
  destruct (no_reading_to_zero_keeps (Amp.get (Amp.folded pump_data) c))
    as [_ [E _]].
  rewrite E. unfold Amp.folded. rewrite amp_fold_unit_count.
  destruct c; reflexivity.
Qed.

Lemma length_iterrows (df : DataFrame) : List.length (iterrows df) = len df.
Proof.
  rewrite <- (length_map snd), map_snd_iterrows. reflexivity.
Qed.

Lemma length_flat_map_le {A B : Type} (f : A -> list B) (l : list A) :
  (forall x, List.length (f x) <= 1)%nat ->
  (List.length (flat_map f l) <= List.length l)%nat.
Proof.
  intros H. induction l as [|x l IH]; simpl; [lia|].
  rewrite length_app. specialize (H x). lia.
Qed.

Lemma amp_sheet_matches_le (c : condition) (sd : SheetData) :
  (List.length (AmpUnits.sheet_matches c sd) <= AmpSpec.sheet_units c sd)%nat.
Proof.
  unfold AmpUnits.sheet_matches, AmpSpec.sheet_units.
  destruct (type sd); [simpl; lia|].
  destruct (has_column _ (amp_col c P1) && has_column _ (amp_col c P2));
    [|simpl; lia].
  rewrite <- length_iterrows. apply length_flat_map_le.
  intros ir. unfold AmpUnits.unit_matches.
  destruct (positive _); [destruct (positive _)|]; simpl; lia.
Qed.

(** X1. For a condition, [unit_count] is the number of rows of the sheets
    that have the columns the condition needs ([P1] for a Single sheet, [P1]
    and [P2] for a Tandem sheet), whatever the readings are; a sheet that
    lacks a needed column adds no unit. *)
Theorem unit_count_counts_rows (pump_data : PumpData) (c : condition) :
  Amp.unit_count (Amp.get (analyze_amperage pump_data) c) =
  list_sum
    (map (fun entry : string * SheetData =>
            let df := data (snd entry) in
            match type (snd entry) with
            | Single => if has_column df (amp_col c P1) then len df else O
            | Tandem =>
                if has_column df (amp_col c P1) && has_column df (amp_col c P2)
                then len df else O
            end) pump_data).
Proof.
  rewrite amp_analyze_unit_count. unfold AmpSpec.units, list_sum.
  induction pump_data as [|entry pd IH]; simpl; [reflexivity|].
  rewrite IH. reflexivity.
Qed.

(** X2. For a condition, the tandem entries are at most as many as the units
    analyzed, and the entries with more than 10% difference at most as many
    as the entries: the three counts of a condition block of the report are
    ordered. *)
Theorem mismatched_le_matched_le_units (pump_data : PumpData) (c : condition) :
  let st := Amp.get (analyze_amperage pump_data) c in
  (List.length
     (filter (fun u => Qltb 10 (Amp.percentage_diff u)) (Amp.tandem_analysis st))
   <= List.length (Amp.tandem_analysis st))%nat /\
  (List.length (Amp.tandem_analysis st) <= Amp.unit_count st)%nat.
Proof.
  cbv zeta. split; [apply filter_length_le|].
  rewrite amp_analyze_matches, amp_analyze_unit_count.
  unfold AmpUnits.matches, AmpSpec.units.
  induction pump_data as [|entry pd IH]; simpl; [lia|].
  rewrite length_app. pose proof (amp_sheet_matches_le c (snd entry)). lia.
Qed.

Lemma amp_match_facts (c : condition) (pump_data : PumpData) (e : Amp.Match) :
  In e (AmpUnits.matches c pump_data) ->
  0 < Amp.p1_amp e /\ 0 < Amp.p2_amp e /\
  Amp.difference e = Qabs (B64.round (Amp.p1_amp e - Amp.p2_amp e)) /\
  Amp.percentage_diff e =
    B64.round
      (B64.round (Amp.difference e / pymax (Amp.p1_amp e) (Amp.p2_amp e)) *
       100) /\
  In (Amp.p1_amp e) (AmpSpec.folded_values c pump_data) /\
  In (Amp.p2_amp e) (AmpSpec.folded_values c pump_data).
Proof.
  unfold AmpUnits.matches, AmpSpec.folded_values. intros H.
  apply in_flat_map in H. destruct H as [entry [Hentry H]].
  unfold AmpUnits.sheet_matches in H.
  destruct (type (snd entry)) eqn:Ht; [destruct H|].
  destruct (has_column (data (snd entry)) (amp_col c P1) &&
            has_column (data (snd entry)) (amp_col c P2)) eqn:Hc; [|destruct H].
  apply in_flat_map in H. destruct H as [[idx row] [Hrow H]].
  unfold AmpUnits.unit_matches in H. cbn [fst snd] in H.
  destruct (positive (at_col row (amp_col c P1))) as [p1|] eqn:E1; [|destruct H].
  destruct (positive (at_col row (amp_col c P2))) as [p2|] eqn:E2; [|destruct H].
  destruct H as [H|[]]. subst e.
  cbn [Amp.p1_amp Amp.p2_amp Amp.difference Amp.percentage_diff].
  assert (Hv : forall v, In v [p1; p2] ->
             In v (flat_map (fun entry => AmpSpec.sheet_values c (snd entry))
                     pump_data)).
  { intros v Hv. apply in_flat_map. exists entry. split; [exact Hentry|].
    unfold AmpSpec.sheet_values. apply in_flat_map. exists row.
    split; [exact (in_iterrows _ _ _ Hrow)|].
    unfold AmpSpec.unit_values. rewrite Ht, Hc, E1, E2. exact Hv. }
  apply positive_Some in E1, E2.
  split; [apply E1|]. split; [apply E2|].
  split; [reflexivity|]. split; [reflexivity|].
  split; apply Hv; simpl; auto.
Qed.

(** X3. Every tandem entry of a condition holds two strictly positive
    readings; its [difference] is the magnitude of the rounded [p1 - p2],
    which is at least 0 and, when the two readings are binary64 numbers, at
    most the larger of the two (it can equal it: 1e-17 and 1.0 give 1.0);
    both readings lie between the minimum and the maximum that the analysis
    reports for the condition. *)
Theorem tandem_entry_within_min_max (pump_data : PumpData) (c : condition)
    (e : Amp.Match) :
  let st := Amp.get (analyze_amperage pump_data) c in
  In e (Amp.tandem_analysis st) ->
  0 < Amp.p1_amp e /\ 0 < Amp.p2_amp e /\
  Amp.difference e = Qabs (B64.round (Amp.p1_amp e - Amp.p2_amp e)) /\
  0 <= Amp.difference e /\
  (B64.representable (Amp.p1_amp e) -> B64.representable (Amp.p2_amp e) ->
   Amp.difference e <= Qmax (Amp.p1_amp e) (Amp.p2_amp e)) /\
  exists m, Amp.min st = Fin m /\
    m <= Amp.p1_amp e /\ Amp.p1_amp e <= Amp.max st /\
    m <= Amp.p2_amp e /\ Amp.p2_amp e <= Amp.max st.
Proof.
  cbv zeta. rewrite amp_analyze_matches. intros H.
  destruct (amp_match_facts c pump_data e H) as [H1 [H2 [Hd [_ [I1 I2]]]]].
  destruct (percentage_diff_bounds _ _ H1 H2) as [B0 [_ B2]].
  split; [exact H1|]. split; [exact H2|]. split; [exact Hd|].
  split; [rewrite Hd; exact B0|].
  split.
  - intros Q1 Q2. rewrite Hd, <- pymax_Qmax. exact (proj1 (B2 Q1 Q2)).
  - rewrite amp_get_analyze.
    pose proof (amp_folded_tracks c pump_data) as [Tmin Tmax].
    destruct (no_reading_to_zero_keeps (Amp.get (Amp.folded pump_data) c))
      as [Emax _].
    rewrite Emax. unfold Amp.no_reading_to_zero.
    destruct (AmpSpec.folded_values c pump_data) as [|z zs] eqn:Ev;
      [destruct I1|].
    destruct (Amp.min (Amp.get (Amp.folded pump_data) c)) as [|m] eqn:Em;
      [discriminate|].
    exists m. rewrite Em. destruct Tmin as [_ Hle]. destruct Tmax as [_ Hge].
    repeat split; auto.
Qed.

Lemma tandem_entry_within_min_max_witness :
  let df := mkDF ["Pump Sr. No"; "0 Bar Amp P1"; "0 Bar Amp P2"]
                 [mkRow "T1" [("0 Bar Amp P1", Num 10); ("0 Bar Amp P2", Num 12)]] in
  let pump_data := [("TandemPump", mkSheet df Tandem 1)] in
  let e :=
    Amp.mkMatch "T1" 10 12 (Qabs (B64.round (10 - 12)))
      (B64.round (B64.round (Qabs (B64.round (10 - 12)) / 12) * 100)) in
  In e (Amp.tandem_analysis (Amp.get (analyze_amperage pump_data) bar_0)) /\
  B64.representable 10 /\ B64.representable 12 /\
  Amp.difference e == 2 /\
  Amp.difference e <= Qmax 10 12 /\
  exists m, Amp.min (Amp.get (analyze_amperage pump_data) bar_0) = Fin m /\
    m <= Amp.p1_amp e /\
    Amp.p1_amp e <= Amp.max (Amp.get (analyze_amperage pump_data) bar_0) /\
    m <= Amp.p2_amp e /\
    Amp.p2_amp e <= Amp.max (Amp.get (analyze_amperage pump_data) bar_0).
Proof.
  cbv zeta.
  assert (H : In (Amp.mkMatch "T1" 10 12 (Qabs (B64.round (10 - 12)))
                    (B64.round
                       (B64.round (Qabs (B64.round (10 - 12)) / 12) * 100)))
                 (Amp.tandem_analysis
                    (Amp.get
                       (analyze_amperage
                          [("TandemPump",
                            mkSheet
                              (mkDF ["Pump Sr. No"; "0 Bar Amp P1"; "0 Bar Amp P2"]
                                 [mkRow "T1" [("0 Bar Amp P1", Num 10);
                                              ("0 Bar Amp P2", Num 12)]])
                              Tandem 1)]) bar_0))).
  { vm_compute. left. reflexivity. }
  assert (R10 : B64.representable 10) by (split; vm_compute; reflexivity).
  assert (R12 : B64.representable 12) by (split; vm_compute; reflexivity).
  destruct (tandem_entry_within_min_max _ bar_0 _ H)
    as [_ [_ [_ [_ [B M]]]]].
  split; [exact H|]. split; [exact R10|]. split; [exact R12|].
  split; [vm_compute; reflexivity|].
  split; [exact (B R10 R12) | exact M].
Defined.

(** X4. In the result of the analysis the minimum of a condition is a
    number, never the sentinel; it is at most the maximum; the maximum is
    strictly positive exactly when some reading was folded, and then the
    minimum is strictly positive too. *)
Theorem amp_min_le_max (pump_data : PumpData) (c : condition) :
  let st := Amp.get (analyze_amperage pump_data) c in
  exists m, Amp.min st = Fin m /\
    0 <= m /\ m <= Amp.max st /\
    (0 < Amp.max st <-> AmpSpec.folded_values c pump_data <> []) /\
    (0 < Amp.max st -> 0 < m).
Proof.
  cbv zeta. rewrite amp_get_analyze.
  pose proof (amp_folded_tracks c pump_data) as [Tmin Tmax].
  pose proof (amp_folded_values_positive c pump_data) as Pos.
  destruct (no_reading_to_zero_keeps (Amp.get (Amp.folded pump_data) c))
    as [Emax _].
  rewrite Emax. unfold Amp.no_reading_to_zero.
  destruct (AmpSpec.folded_values c pump_data) as [|z zs] eqn:Ev.
  - destruct (Amp.min (Amp.get (Amp.folded pump_data) c)) as [|m] eqn:Em;
      [|destruct Tmin as [[] _]].
    exists 0. cbn [Amp.min]. rewrite Tmax.
    repeat split; try lra; try (intros H; exfalso; apply H; reflexivity).
  - destruct (Amp.min (Amp.get (Amp.folded pump_data) c)) as [|m] eqn:Em;
      [discriminate|].
    exists m. rewrite Em. destruct Tmin as [Hin Hle]. destruct Tmax as [Hin' Hge].
    pose proof (Pos m Hin) as Pm. pose proof (Hle _ Hin') as Hmm.
    repeat split; try lra; try discriminate; intros _; lra.
Qed.

(** The minimum and the maximum of the result against the folded values. *)
Lemma amp_result_spec (c : condition) (pump_data : PumpData) :
  let st := Amp.get (analyze_amperage pump_data) c in
  let vs := AmpSpec.folded_values c pump_data in
  (vs = [] -> Amp.min st = Fin 0 /\ Amp.max st = 0) /\
  (vs <> [] ->
   exists m, Amp.min st = Fin m /\
     In m vs /\ (forall v, In v vs -> m <= v) /\
     In (Amp.max st) vs /\ (forall v, In v vs -> v <= Amp.max st)).
Proof.
  cbv zeta. rewrite amp_get_analyze.
  pose proof (amp_folded_tracks c pump_data) as [Tmin Tmax].
  destruct (no_reading_to_zero_keeps (Amp.get (Amp.folded pump_data) c))
    as [Emax _].
  rewrite Emax. unfold Amp.no_reading_to_zero.
  destruct (AmpSpec.folded_values c pump_data) as [|z zs] eqn:Ev.
  - destruct (Amp.min (Amp.get (Amp.folded pump_data) c)) as [|m] eqn:Em;
      [|destruct Tmin as [[] _]].
    split; [intros _; cbn [Amp.min]; auto | intros H; contradiction].
  - destruct (Amp.min (Amp.get (Amp.folded pump_data) c)) as [|m] eqn:Em;
      [discriminate|].
    split; [discriminate|]. intros _. exists m. rewrite Em.
    destruct Tmin as [Hin Hle]. destruct Tmax as [Hin' Hge]. auto.
Qed.

Lemma amp_units_list_sum (c : condition) (pump_data : PumpData) :
  AmpSpec.units c pump_data =
  list_sum (map (fun entry => AmpSpec.sheet_units c (snd entry)) pump_data).
Proof.
  unfold AmpSpec.units, list_sum.
  induction pump_data as [|entry pd IH]; simpl; [reflexivity|].
  rewrite IH. reflexivity.
Qed.

(** X5. The statistics of a condition do not depend on the order of the
    sheets: for two orders of the same sheets the unit counts are equal, the
    tandem entries are the same up to their order, and the minima and the
    maxima are equal as numbers. *)
Theorem amperage_order_independent (pump_data pump_data' : PumpData)
    (c : condition) :
  Permutation pump_data pump_data' ->
  let st := Amp.get (analyze_amperage pump_data) c in
  let st' := Amp.get (analyze_amperage pump_data') c in
  Amp.unit_count st = Amp.unit_count st' /\
  Permutation (Amp.tandem_analysis st) (Amp.tandem_analysis st') /\
  Amp.max st == Amp.max st' /\
  exists m m', Amp.min st = Fin m /\ Amp.min st' = Fin m' /\ m == m'.
Proof.
  intros HP. cbv zeta.
  assert (HV : Permutation (AmpSpec.folded_values c pump_data)
                           (AmpSpec.folded_values c pump_data')).
  { unfold AmpSpec.folded_values. apply Permutation_flat_map. exact HP. }
  split; [|split].
  - rewrite !amp_analyze_unit_count, !amp_units_list_sum.
    apply Permutation_list_sum. apply Permutation_map. exact HP.
  - rewrite !amp_analyze_matches. unfold AmpUnits.matches.
    apply Permutation_flat_map. exact HP.
  - destruct (amp_result_spec c pump_data) as [N S].
    destruct (amp_result_spec c pump_data') as [N' S'].
    destruct (AmpSpec.folded_values c pump_data) as [|z zs] eqn:Ev.
    + apply Permutation_nil in HV. rewrite HV in N'.
      destruct (N eq_refl) as [Em Ex]. destruct (N' eq_refl) as [Em' Ex'].
      rewrite Ex, Ex'. split; [reflexivity|].
      exists 0, 0. repeat split; auto; reflexivity.
    + destruct (AmpSpec.folded_values c pump_data') as [|z' zs'] eqn:Ev'.
      * apply Permutation_sym, Permutation_nil in HV. discriminate.
      * destruct S as [m [Em [Hin [Hle [Hin' Hge]]]]]; [discriminate|].
        destruct S' as [m' [Em' [Jin [Jle [Jin' Jge]]]]]; [discriminate|].
        split.
        -- apply Qle_antisym.
           ++ apply Jge. exact (Permutation_in _ HV Hin').
           ++ apply Hge. exact (Permutation_in _ (Permutation_sym HV) Jin').
        -- exists m, m'. repeat split; auto. apply Qle_antisym.
           ++ apply Hle. exact (Permutation_in _ (Permutation_sym HV) Jin).
           ++ apply Jle. exact (Permutation_in _ HV Hin).
Qed.

Lemma amperage_order_independent_witness :
  let s1 := mkSheet (mkDF ["0 Bar Amp P1"] [mkRow "1" [("0 Bar Amp P1", Num 9)]])
                    Single 1 in
  let s2 := mkSheet (mkDF ["0 Bar Amp P1"; "0 Bar Amp P2"]
                       [mkRow "2" [("0 Bar Amp P1", Num 7);
                                   ("0 Bar Amp P2", Num 8)]])
                    Tandem 1 in
  Amp.unit_count (Amp.get (analyze_amperage [("A", s1); ("B", s2)]) bar_0) =
  Amp.unit_count (Amp.get (analyze_amperage [("B", s2); ("A", s1)]) bar_0).
Proof.
  cbv zeta.
  refine (proj1 (amperage_order_independent _ _ bar_0 _)).
  apply perm_swap.
Defined.

(** X6. Analyzing two lists of sheets one after the other composes: for a
    condition the unit count of the whole is the sum of the two unit counts,
    the tandem entries are those of the first list followed by those of the
    second, and the maximum is the larger of the two maxima. *)
Theorem amperage_of_concatenation (before after : PumpData) (c : condition) :
  let st := Amp.get (analyze_amperage (before ++ after)) c in
  let st1 := Amp.get (analyze_amperage before) c in
  let st2 := Amp.get (analyze_amperage after) c in
  Amp.unit_count st = (Amp.unit_count st1 + Amp.unit_count st2)%nat /\
  Amp.tandem_analysis st = Amp.tandem_analysis st1 ++ Amp.tandem_analysis st2 /\
  Amp.max st == Qmax (Amp.max st1) (Amp.max st2).
Proof.
  cbv zeta. split; [|split].
  - rewrite !amp_analyze_unit_count, !amp_units_list_sum, map_app, list_sum_app.
    reflexivity.
  - rewrite !amp_analyze_matches. unfold AmpUnits.matches.
    apply flat_map_app.
  - destruct (amp_result_spec c (before ++ after)) as [N S].
    destruct (amp_result_spec c before) as [N1 S1].
    destruct (amp_result_spec c after) as [N2 S2].
    pose proof (amp_folded_values_positive c after) as Pos2.
    pose proof (amp_folded_values_positive c before) as Pos1.
    assert (EV : AmpSpec.folded_values c (before ++ after) =
                 AmpSpec.folded_values c before ++ AmpSpec.folded_values c after)
      by (unfold AmpSpec.folded_values; apply flat_map_app).
    rewrite EV in *.
    destruct (AmpSpec.folded_values c before) as [|x xs] eqn:E1;
      destruct (AmpSpec.folded_values c after) as [|y ys] eqn:E2.
    + destruct (N eq_refl) as [_ Ex]. destruct (N1 eq_refl) as [_ Ex1].
      destruct (N2 eq_refl) as [_ Ex2]. rewrite Ex, Ex1, Ex2.
      symmetry. apply Q.max_l. lra.
    + destruct (N1 eq_refl) as [_ Ex1]. rewrite Ex1.
      destruct S2 as [m2 [_ [_ [_ [Hin2 Hge2]]]]]; [discriminate|].
      destruct S as [m [_ [_ [_ [Hin Hge]]]]]; [discriminate|].
      simpl app in Hin, Hge.
      pose proof (Pos2 _ Hin2) as P2.
      rewrite Q.max_r by lra. apply Qle_antisym; auto.
    + destruct (N2 eq_refl) as [_ Ex2]. rewrite Ex2.
      destruct S1 as [m1 [_ [_ [_ [Hin1 Hge1]]]]]; [discriminate|].
      destruct S as [m [_ [_ [_ [Hin Hge]]]]]; [discriminate|].
      rewrite app_nil_r in Hin, Hge.
      pose proof (Pos1 _ Hin1) as P1'.
      rewrite Q.max_l by lra. apply Qle_antisym; auto.
    + destruct S1 as [m1 [_ [_ [_ [Hin1 Hge1]]]]]; [discriminate|].
      destruct S2 as [m2 [_ [_ [_ [Hin2 Hge2]]]]]; [discriminate|].
      destruct S as [m [_ [_ [_ [Hin Hge]]]]]; [discriminate|].
      apply Qle_antisym.
      * apply in_app_or in Hin. destruct Hin as [Hin|Hin].
        -- apply Qle_trans with (Amp.max (Amp.get (analyze_amperage before) c)).
           ++ apply Hge1. exact Hin.
           ++ apply Q.le_max_l.
        -- apply Qle_trans with (Amp.max (Amp.get (analyze_amperage after) c)).
           ++ apply Hge2. exact Hin.
           ++ apply Q.le_max_r.
      * apply Q.max_lub; apply Hge; apply in_or_app; auto.
Qed.

(** ** Efficiency: bands, entries and totals *)

Lemma eff_tandem_rows_matches (df : DataFrame) (irs : list (nat * Row))
    (acc : Eff.Acc) :
  Eff.tandem_matching_analysis (fold_left (Eff.tandem_row df) irs acc) =
  Eff.tandem_matching_analysis acc ++ flat_map (EffUnits.unit_matches df) irs.
Proof.
  revert acc. induction irs as [|[idx row] irs IH]; intros acc;
    cbn [fold_left flat_map].
  - rewrite app_nil_r. reflexivity.
  - rewrite IH, app_assoc. f_equal.
    unfold Eff.tandem_row, EffUnits.unit_matches. cbn [fst snd].
    destruct (positive (row_get df row "Eff%P1" (Num 0)));
      [destruct (positive (row_get df row "Eff%P2" (Num 0)))|];
      cbn [Eff.tandem_matching_analysis]; rewrite ?app_nil_r; reflexivity.
Qed.

Lemma eff_sheet_matches (acc : Eff.Acc) (entry : string * SheetData) :
  Eff.tandem_matching_analysis (Eff.sheet acc entry) =
  Eff.tandem_matching_analysis acc ++ EffUnits.sheet_matches (snd entry).
Proof.
  unfold Eff.sheet, EffUnits.sheet_matches. destruct (type (snd entry)).
  - unfold Eff.single. destruct (has_column _ "Eff%P1");
      rewrite app_nil_r; reflexivity.
  - apply eff_tandem_rows_matches.
Qed.

(** The entries of the result, sheet by sheet. *)
Lemma eff_analyze_matches (pump_data : PumpData) :
  Eff.tandem_matching_analysis (analyze_efficiency_distribution pump_data) =
  EffUnits.matches pump_data.
Proof.
  unfold analyze_efficiency_distribution.
  change (EffUnits.matches pump_data)
    with (Eff.tandem_matching_analysis Eff.init ++ EffUnits.matches pump_data).
  generalize Eff.init.
  induction pump_data as [|entry pd IH]; intros acc.
  - simpl. rewrite app_nil_r. reflexivity.
  - cbn [fold_left]. rewrite IH, eff_sheet_matches.
    unfold EffUnits.matches. cbn [flat_map]. rewrite app_assoc. reflexivity.
Qed.

(** One value through the chain: the three tests as three intervals. *)
Lemma categorize_bands (r : Eff.Ranges) (eff : Q) :
  Eff.categorize r eff =
  Eff.mkRanges
    (Eff.r90_to_92 r + (if Qle_bool 90 eff && Qltb eff 92 then 1 else 0))
    (Eff.r92_to_94 r + (if Qle_bool 92 eff && Qltb eff 94 then 1 else 0))
    (Eff.r94_plus r + (if Qle_bool 94 eff then 1 else 0)).
Proof.
  unfold Eff.categorize. destruct r as [a b c]. cbn.
  destruct (Qle_bool 90 eff) eqn:E90; destruct (Qltb eff 92) eqn:L92;
  destruct (Qle_bool 92 eff) eqn:E92; destruct (Qltb eff 94) eqn:L94;
  destruct (Qle_bool 94 eff) eqn:E94; cbn;
  rewrite ?Nat.add_0_r; try reflexivity; exfalso;
  repeat match goal with
  | H : Qle_bool _ _ = true |- _ => apply Qle_bool_iff in H
  | H : Qle_bool ?a ?b = false |- _ =>
      assert (b < a) by (apply Qltb_lt; unfold Qltb; rewrite H; reflexivity);
      clear H
  | H : Qltb _ _ = true |- _ => apply Qltb_lt in H
  | H : Qltb _ _ = false |- _ => apply Qltb_ge in H
  end; lra.
Qed.

Lemma fold_categorize_bands (l : list Q) (r : Eff.Ranges) :
  fold_left Eff.categorize l r =
  Eff.mkRanges (Eff.r90_to_92 r + EffUnits.in_band 90 92 l)
               (Eff.r92_to_94 r + EffUnits.in_band 92 94 l)
               (Eff.r94_plus r + EffUnits.at_least 94 l).
Proof.
  revert r. unfold EffUnits.in_band, EffUnits.at_least.
  induction l as [|q l IH]; intros r.
  - simpl. rewrite !Nat.add_0_r. destruct r; reflexivity.
  - cbn [fold_left filter]. rewrite IH, categorize_bands.
    cbn [Eff.r90_to_92 Eff.r92_to_94 Eff.r94_plus].
    destruct (Qle_bool 90 q && Qltb q 92);
      destruct (Qle_bool 92 q && Qltb q 94);
      destruct (Qle_bool 94 q); cbn [List.length]; f_equal; lia.
Qed.

(** X7. The three band counts of the result are the numbers of counted
    readings in [90, 92), in [92, 94) and at or above 94: the chain of tests
    puts a reading of exactly 92 or 94 in the higher band, and a reading in
    no more than one band. *)
Theorem band_counts_are_interval_counts (pump_data : PumpData) :
  let r := Eff.efficiency_ranges (analyze_efficiency_distribution pump_data) in
  let counted := EffSpec.counted_readings pump_data in
  Eff.r90_to_92 r = EffUnits.in_band 90 92 counted /\
  Eff.r92_to_94 r = EffUnits.in_band 92 94 counted /\
  Eff.r94_plus r = EffUnits.at_least 94 counted /\
  (forall q, Qle_bool 90 q && Qltb q 92 = true ->
             Qle_bool 92 q && Qltb q 94 = false /\ Qle_bool 94 q = false) /\
  (forall q, Qle_bool 92 q && Qltb q 94 = true -> Qle_bool 94 q = false).
Proof.
  cbv zeta. unfold analyze_efficiency_distribution.
  destruct (eff_fold_readings pump_data Eff.init) as [H _]. rewrite H.
  rewrite fold_categorize_bands. cbn.
  repeat split; try reflexivity.
  - apply andb_true_iff in H0. destruct H0 as [_ L]. apply Qltb_lt in L.
    apply andb_false_iff. left.
    destruct (Qle_bool 92 q) eqn:E; [|reflexivity].
    apply Qle_bool_iff in E. lra.
  - apply andb_true_iff in H0. destruct H0 as [_ L]. apply Qltb_lt in L.
    destruct (Qle_bool 94 q) eqn:E; [|reflexivity].
    apply Qle_bool_iff in E. lra.
  - intros q H0. apply andb_true_iff in H0. destruct H0 as [_ L].
    apply Qltb_lt in L.
    destruct (Qle_bool 94 q) eqn:E; [|reflexivity].
    apply Qle_bool_iff in E. lra.
Qed.

Lemma count_positive_flat_map (df : DataFrame) (col : string) :
  count_positive df col =
  List.length
    (flat_map (fun row => match positive (at_col row col) with
                          | Some q => [q]
                          | None => []
                          end) (rows df)).
Proof.
  unfold count_positive. induction (rows df) as [|r rs IH]; [reflexivity|].
  cbn [filter flat_map]. rewrite length_app, <- IH, (positive_gt0 (at_col r col)).
  destruct (gt0 (at_col r col)) eqn:G.
  - apply gt0_positive in G. destruct G as [q G]. rewrite G. reflexivity.
  - reflexivity.
Qed.

Lemma eff_tandem_readings_matches (df : DataFrame) (irs : list (nat * Row)) :
  List.length (flat_map (EffSpec.unit_readings Tandem df) (map snd irs)) =
  (2 * List.length (flat_map (EffUnits.unit_matches df) irs))%nat.
Proof.
  induction irs as [|[idx row] irs IH]; [reflexivity|].
  cbn [map flat_map snd]. rewrite !length_app, IH.
  unfold EffSpec.unit_readings, EffUnits.unit_matches. cbn [fst snd].
  destruct (positive (row_get df row "Eff%P1" (Num 0)));
    [destruct (positive (row_get df row "Eff%P2" (Num 0)))|];
    cbn [List.length]; lia.
Qed.

Lemma eff_sheet_readings_count (sd : SheetData) :
  List.length (EffSpec.sheet_readings sd) =
  (EffUnits.single_readings sd + 2 * List.length (EffUnits.sheet_matches sd))%nat.
Proof.
  unfold EffSpec.sheet_readings, EffUnits.single_readings,
    EffUnits.sheet_matches.
  destruct (type sd).
  - unfold EffSpec.unit_readings.
    destruct (has_column (data sd) "Eff%P1").
    + rewrite count_positive_flat_map. simpl. lia.
    + rewrite flat_map_nil. reflexivity.
  - rewrite <- (map_snd_iterrows (data sd)) at 1.
    rewrite eff_tandem_readings_matches. lia.
Qed.

(** X8. The total of individual readings is the number of positive [Eff%P1]
    readings of the Single sheets that have the column, plus two for every
    tandem entry: a Tandem sheet contributes readings only in pairs. *)
Theorem total_is_singles_plus_pairs (pump_data : PumpData) :
  let r := analyze_efficiency_distribution pump_data in
  Eff.total_individual_pumps r =
  (list_sum (map (fun entry => EffUnits.single_readings (snd entry)) pump_data)
   + 2 * List.length (Eff.tandem_matching_analysis r))%nat.
Proof.
  cbv zeta. rewrite eff_analyze_matches. unfold analyze_efficiency_distribution.
  destruct (eff_fold_readings pump_data Eff.init) as [_ H]. rewrite H.
  cbn [Eff.total_individual_pumps Eff.init Nat.add]. clear H.
  unfold EffSpec.counted_readings, EffUnits.matches.
  induction pump_data as [|entry pd IH]; [reflexivity|].
  cbn [flat_map map]. rewrite !length_app, IH, eff_sheet_readings_count.
  unfold list_sum. cbn [fold_right]. lia.
Qed.

Lemma eff_match_facts (pump_data : PumpData) (e : Eff.Match) :
  In e (EffUnits.matches pump_data) ->
  0 < Eff.p1_eff e /\ 0 < Eff.p2_eff e /\
  Eff.difference e = Qabs (B64.round (Eff.p1_eff e - Eff.p2_eff e)) /\
  Eff.average_eff e = B64.div (B64.add (Fin (Eff.p1_eff e)) (Eff.p2_eff e)) 2 /\
  exists entry, In entry pump_data /\ type (snd entry) = Tandem.
Proof.
  unfold EffUnits.matches. intros H.
  apply in_flat_map in H. destruct H as [entry [Hentry H]].
  unfold EffUnits.sheet_matches in H.
  destruct (type (snd entry)) eqn:Ht; [destruct H|].
  apply in_flat_map in H. destruct H as [[idx row] [Hrow H]].
  unfold EffUnits.unit_matches in H. cbn [fst snd] in H.
  destruct (positive (row_get _ row "Eff%P1" (Num 0))) as [p1|] eqn:E1;
    [|destruct H].
  destruct (positive (row_get _ row "Eff%P2" (Num 0))) as [p2|] eqn:E2;
    [|destruct H].
  destruct H as [H|[]]. subst e.
  cbn [Eff.p1_eff Eff.p2_eff Eff.difference Eff.average_eff].
  apply positive_Some in E1, E2.
  split; [apply E1|]. split; [apply E2|].
  split; [reflexivity|]. split; [reflexivity|].
  exists entry. auto.
Qed.

(** X9. Every tandem efficiency entry holds two strictly positive
    efficiencies; its [difference] is the magnitude of the rounded
    [p1 - p2], which is at least 0, and its [average_eff] is the rounded sum
    halved. When the two efficiencies are binary64 numbers the difference is
    at most the larger of the two, an average that is a number lies between
    the smaller and the larger, and the average is a number whenever the
    larger is under [2 ^ 1023]. *)
Theorem tandem_eff_entry_bounds (pump_data : PumpData) (e : Eff.Match) :
  In e (Eff.tandem_matching_analysis
          (analyze_efficiency_distribution pump_data)) ->
  0 < Eff.p1_eff e /\ 0 < Eff.p2_eff e /\
  Eff.difference e = Qabs (B64.round (Eff.p1_eff e - Eff.p2_eff e)) /\
  0 <= Eff.difference e /\
  Eff.average_eff e = B64.div (B64.add (Fin (Eff.p1_eff e)) (Eff.p2_eff e)) 2 /\
  (B64.representable (Eff.p1_eff e) -> B64.representable (Eff.p2_eff e) ->
   Eff.difference e <= Qmax (Eff.p1_eff e) (Eff.p2_eff e) /\
   (forall a, Eff.average_eff e = Fin a ->
      Qmin (Eff.p1_eff e) (Eff.p2_eff e) <= a /\
      a <= Qmax (Eff.p1_eff e) (Eff.p2_eff e)) /\
   (Qmax (Eff.p1_eff e) (Eff.p2_eff e) < 2 ^ 1023 ->
    exists a, Eff.average_eff e = Fin a)).
Proof.
  rewrite eff_analyze_matches. intros H.
  destruct (eff_match_facts pump_data e H) as [H1 [H2 [Hd [Ha _]]]].
  set (p1 := Eff.p1_eff e) in *. set (p2 := Eff.p2_eff e) in *.
  split; [exact H1|]. split; [exact H2|]. split; [exact Hd|].
  split; [rewrite Hd; apply Qabs_nonneg|].
  split; [exact Ha|].
  intros [R1 _] [R2 _].
  assert (Hlo : 0 < Qmin p1 p2).
  { destruct (Q.min_spec p1 p2) as [[_ E]|[_ E]]; rewrite E; assumption. }
  assert (Hle : Qmin p1 p2 <= Qmax p1 p2).
  { apply Qle_trans with p1; [apply Q.le_min_l | apply Q.le_max_l]. }
  assert (Rlo : B64.round (Qmin p1 p2) == Qmin p1 p2).
  { destruct (Q.min_spec p1 p2) as [[L E]|[L E]].
    - transitivity (B64.round p1); [apply round_eq_nonneg; lra | lra].
    - transitivity (B64.round p2); [apply round_eq_nonneg; lra | lra]. }
  assert (Rhi : B64.round (Qmax p1 p2) == Qmax p1 p2).
  { destruct (Q.max_spec p1 p2) as [[L E]|[L E]].
    - transitivity (B64.round p2); [apply round_eq_nonneg; lra | lra].
    - transitivity (B64.round p1); [apply round_eq_nonneg; lra | lra]. }
  assert (S1 : 2 * Qmin p1 p2 <= p1 + p2).
  { pose proof (Q.le_min_l p1 p2). pose proof (Q.le_min_r p1 p2). lra. }
  assert (S2 : p1 + p2 <= 2 * Qmax p1 p2).
  { pose proof (Q.le_max_l p1 p2). pose proof (Q.le_max_r p1 p2). lra. }
  destruct (average_between _ _ _ Hlo Hle Rlo Rhi S1 S2) as [A1 A2].
  split; [|split].
  - rewrite Hd. apply abs_round_le; [|exact Rhi].
    apply Qabs_Qle_condition.
    pose proof (Q.le_max_l p1 p2). pose proof (Q.le_max_r p1 p2).
    split; lra.
  - intros a Hfin. rewrite Ha in Hfin. unfold B64.add, B64.finite in Hfin.
    destruct (Qle_bool (2 ^ B64.emax) (Qabs (B64.round (p1 + p2))));
      [discriminate|].
    cbn [B64.div] in Hfin. injection Hfin as Hfin. rewrite <- Hfin.
    split; assumption.
  - intros Hb. rewrite Ha. unfold B64.add, B64.finite.
    destruct (Qle_bool (2 ^ B64.emax) (Qabs (B64.round (p1 + p2)))) eqn:T;
      [|eexists; reflexivity].
    exfalso. apply Qle_bool_iff in T.
    assert (N : 0 <= B64.round (p1 + p2)) by (apply round_nonneg; lra).
    rewrite Qabs_pos in T by exact N.
    assert (U : B64.round (p1 + p2) <= 2 * Qmax p1 p2).
    { rewrite <- (round_double _ (Qlt_le_trans _ _ _ Hlo Hle) Rhi).
      apply round_mono; lra. }
    change (2 ^ B64.emax) with (2 ^ (1023 + 1)) in T.
    rewrite pow2_succ in T. lra.
Qed.

Lemma tandem_eff_entry_bounds_witness :
  let df := mkDF ["Pump Sr. No"; "Eff%P1"; "Eff%P2"]
                 [mkRow "T1" [("Eff%P1", Num 91); ("Eff%P2", Num 95)]] in
  let e :=
    Eff.mkMatch "T1" 91 95 (Qabs (B64.round (91 - 95)))
      (B64.div (B64.add (Fin 91) 95) 2) in
  In e (Eff.tandem_matching_analysis
          (analyze_efficiency_distribution
             [("TandemPump", mkSheet df Tandem 1)])) /\
  B64.representable 91 /\ B64.representable 95 /\
  Eff.difference e == 4 /\
  Eff.difference e <= Qmax 91 95 /\
  exists a, Eff.average_eff e = Fin a /\ a == 93 /\
    Qmin 91 95 <= a /\ a <= Qmax 91 95.
Proof.
  cbv zeta.
  assert (H : In (Eff.mkMatch "T1" 91 95 (Qabs (B64.round (91 - 95)))
                    (B64.div (B64.add (Fin 91) 95) 2))
                 (Eff.tandem_matching_analysis
                    (analyze_efficiency_distribution
                       [("TandemPump",
                         mkSheet (mkDF ["Pump Sr. No"; "Eff%P1"; "Eff%P2"]
                                    [mkRow "T1" [("Eff%P1", Num 91);
                                                 ("Eff%P2", Num 95)]])
                                 Tandem 1)]))).
  { vm_compute. left. reflexivity. }
  assert (R91 : B64.representable 91) by (split; vm_compute; reflexivity).
  assert (R95 : B64.representable 95) by (split; vm_compute; reflexivity).
  destruct (tandem_eff_entry_bounds _ _ H) as [_ [_ [_ [_ [_ B]]]]].
  destruct (B R91 R95) as [D [A F]].
  split; [exact H|]. split; [exact R91|]. split; [exact R95|].
  split; [vm_compute; reflexivity|].
  split; [exact D|].
  exists (B64.round (B64.round (91 + 95) / 2)).
  split; [vm_compute; reflexivity|].
  split; [vm_compute; reflexivity|].
  apply A. vm_compute. reflexivity.
Defined.

Lemma filter_length_perm {A : Type} (f : A -> bool) (l l' : list A) :
  Permutation l l' ->
  List.length (filter f l) = List.length (filter f l').
Proof.
  intros H. induction H as [|x l l' H IH|x y l|l l' l'' H1 IH1 H2 IH2].
  - reflexivity.
  - simpl. destruct (f x); simpl; rewrite IH; reflexivity.
  - simpl. destruct (f x); destruct (f y); reflexivity.
  - rewrite IH1. exact IH2.
Qed.

Lemma eff_analyze_spec (pump_data : PumpData) :
  let r := analyze_efficiency_distribution pump_data in
  let counted := EffSpec.counted_readings pump_data in
  Eff.efficiency_ranges r =
    Eff.mkRanges (EffUnits.in_band 90 92 counted)
                 (EffUnits.in_band 92 94 counted)
                 (EffUnits.at_least 94 counted) /\
  Eff.total_individual_pumps r = List.length counted.
Proof.
  cbv zeta. unfold analyze_efficiency_distribution.
  destruct (eff_fold_readings pump_data Eff.init) as [H1 H2].
  rewrite H1, H2, fold_categorize_bands. split; reflexivity.
Qed.

(** X10. The efficiency analysis does not depend on the order of the
    sheets: for two orders of the same sheets the three band counts and the
    total of individual readings are equal, and the tandem entries are the
    same up to their order. *)
Theorem efficiency_order_independent (pump_data pump_data' : PumpData) :
  Permutation pump_data pump_data' ->
  let r := analyze_efficiency_distribution pump_data in
  let r' := analyze_efficiency_distribution pump_data' in
  Eff.efficiency_ranges r = Eff.efficiency_ranges r' /\
  Eff.total_individual_pumps r = Eff.total_individual_pumps r' /\
  Permutation (Eff.tandem_matching_analysis r) (Eff.tandem_matching_analysis r').
Proof.
  intros HP. cbv zeta.
  assert (HC : Permutation (EffSpec.counted_readings pump_data)
                           (EffSpec.counted_readings pump_data')).
  { unfold EffSpec.counted_readings. apply Permutation_flat_map. exact HP. }
  destruct (eff_analyze_spec pump_data) as [R T].
  destruct (eff_analyze_spec pump_data') as [R' T'].
  split; [|split].
  - rewrite R, R'. unfold EffUnits.in_band, EffUnits.at_least.
    rewrite (filter_length_perm (fun q => Qle_bool 90 q && Qltb q 92) _ _ HC).
    rewrite (filter_length_perm (fun q => Qle_bool 92 q && Qltb q 94) _ _ HC).
    rewrite (filter_length_perm (fun q => Qle_bool 94 q) _ _ HC).
    reflexivity.
  - rewrite T, T'. apply Permutation_length. exact HC.
  - rewrite !eff_analyze_matches. unfold EffUnits.matches.
    apply Permutation_flat_map. exact HP.
Qed.

Lemma efficiency_order_independent_witness :
  let s1 := mkSheet (mkDF ["Eff%P1"] [mkRow "1" [("Eff%P1", Num 93)]])
                    Single 1 in
  let s2 := mkSheet (mkDF ["Eff%P1"; "Eff%P2"]
                       [mkRow "2" [("Eff%P1", Num 91); ("Eff%P2", Num 95)]])
                    Tandem 1 in
  Eff.efficiency_ranges (analyze_efficiency_distribution [("A", s1); ("B", s2)])
  = Eff.efficiency_ranges
      (analyze_efficiency_distribution [("B", s2); ("A", s1)]).
Proof.
  cbv zeta.
  refine (proj1 (efficiency_order_independent _ _ _)).
  apply perm_swap.
Defined.

(** X11. Analyzing two lists of sheets one after the other composes: the
    band counts and the total of the whole are the sums of those of the two
    lists, and the tandem entries are those of the first list followed by
    those of the second. *)
Theorem efficiency_of_concatenation (before after : PumpData) :
  let r := analyze_efficiency_distribution (before ++ after) in
  let r1 := analyze_efficiency_distribution before in
  let r2 := analyze_efficiency_distribution after in
  Eff.efficiency_ranges r =
    EffUnits.add_ranges (Eff.efficiency_ranges r1) (Eff.efficiency_ranges r2) /\
  Eff.total_individual_pumps r =
    (Eff.total_individual_pumps r1 + Eff.total_individual_pumps r2)%nat /\
  Eff.tandem_matching_analysis r =
    Eff.tandem_matching_analysis r1 ++ Eff.tandem_matching_analysis r2.
Proof.
  cbv zeta.
  destruct (eff_analyze_spec (before ++ after)) as [R T].
  destruct (eff_analyze_spec before) as [R1 T1].
  destruct (eff_analyze_spec after) as [R2 T2].
  assert (EC : EffSpec.counted_readings (before ++ after) =
               EffSpec.counted_readings before ++ EffSpec.counted_readings after)
    by (unfold EffSpec.counted_readings; apply flat_map_app).
  split; [|split].
  - rewrite R, R1, R2, EC. unfold EffUnits.add_ranges, EffUnits.in_band,
      EffUnits.at_least. cbn. rewrite !filter_app, !length_app. reflexivity.
  - rewrite T, T1, T2, EC. apply length_app.
  - rewrite !eff_analyze_matches. unfold EffUnits.matches. apply flat_map_app.
Qed.

(** ** Pump type detection: the sheet name *)

Lemma prefix_app (a b : string) : String.prefix a (a ++ b) = true.
Proof.
  induction a as [|c a IH]; simpl; [destruct b; reflexivity|].
  destruct (ascii_dec c c) as [_|N]; [exact IH | contradiction].
Qed.

Lemma prefix_split (a s : string) :
  String.prefix a s = true -> exists post, s = (a ++ post)%string.
Proof.
  revert s. induction a as [|c a IH]; intros s H.
  - exists s. reflexivity.
  - destruct s as [|d s]; [discriminate|]. simpl in H.
    destruct (ascii_dec c d) as [E|N]; [|discriminate].
    destruct (IH s H) as [post Hp]. exists post. subst. reflexivity.
Qed.

(** [sub in s] holds exactly for the strings that have [sub] as a contiguous
    part. *)
Lemma contains_spec (sub s : string) :
  Str.contains sub s = true <->
  exists pre post, s = (pre ++ sub ++ post)%string.
Proof.
  split.
  - induction s as [|c s IH]; intros H; cbn [Str.contains] in H;
      apply orb_true_iff in H; destruct H as [H|H].
    + destruct (prefix_split _ _ H) as [post Hp].
      exists EmptyString, post. exact Hp.
    + discriminate.
    + destruct (prefix_split _ _ H) as [post Hp].
      exists EmptyString, post. exact Hp.
    + destruct (IH H) as [pre [post Hp]].
      exists (String c pre), post. rewrite Hp. reflexivity.
  - intros [pre [post Hp]]. subst s.
    induction pre as [|c pre IH].
    + cbn [append]. pose proof (prefix_app sub post) as P.
      destruct (sub ++ post)%string; cbn [Str.contains]; rewrite P;
        reflexivity.
    + cbn [append Str.contains]. rewrite IH. apply orb_true_r.
Qed.

Lemma lower_app (a b : string) :
  Str.lower (a ++ b) = (Str.lower a ++ Str.lower b)%string.
Proof.
  induction a as [|c a IH]; simpl; [reflexivity|]. rewrite IH. reflexivity.
Qed.

(** X12. A sheet whose name has the word "single", in any mix of upper and
    lower case, anywhere in it is classified Single whatever its data and
    whatever else the name says; a sheet whose name has the word "tandem" in
    any case, and not the word "single", is classified Tandem whatever its
    data. *)
Theorem name_decides_type (df : DataFrame) (pre w post : string) :
  (Str.lower w = "single" ->
   determine_pump_type df (pre ++ w ++ post) = Single) /\
  (Str.lower w = "tandem" ->
   Str.contains "single" (Str.lower (pre ++ w ++ post)) = false ->
   determine_pump_type df (pre ++ w ++ post) = Tandem).
Proof.
  assert (C : forall word, Str.lower w = word ->
            Str.contains word (Str.lower (pre ++ w ++ post)) = true).
  { intros word E. apply contains_spec.
    exists (Str.lower pre), (Str.lower post).
    rewrite !lower_app, E. reflexivity. }
  unfold determine_pump_type. split.
  - intros E. rewrite (C _ E). reflexivity.
  - intros E N. rewrite N, (C _ E). reflexivity.
Qed.

Lemma name_decides_type_witness :
  determine_pump_type (mkDF ["Eff%P1"] []) "Line 2 TANDEM pumps" = Tandem.
Proof.
  refine (proj2 (name_decides_type (mkDF ["Eff%P1"] []) "Line 2 " "TANDEM"
                   " pumps") _ _); reflexivity.
Defined.

(** ** Report content: sections, worst offenders and guards *)

(** X13. The report text is its lines joined by newlines, and the lines are,
    in this order: the five lines of the header, one configuration line per
    sheet in the order of the sheets, the total of the [count] fields and
    the total of readings, the amperage title and the blocks of 0 bar and of
    200 bar, the efficiency lines, and the tandem matching lines. *)
Theorem report_sections_in_order (pump_data : PumpData) (total_pumps : nat)
    (amp_analysis : Amp.Analysis) (efficiency_ranges : Eff.Ranges)
    (total_efficiency_readings : nat)
    (tandem_matching_analysis : option (list Eff.Match)) :
  generate_report_content pump_data total_pumps amp_analysis efficiency_ranges
    total_efficiency_readings tandem_matching_analysis =
  Str.join (String "010" "")
    (["PUMP PERFORMANCE TEST REPORT"; Str.rep 50 "="; "";
      "PUMP CONFIGURATION ANALYSIS:"; Str.rep 28 "-"] ++
     map ReportSpec.config_line pump_data ++
     [("Total units tested: " ++
       Str.of_nat (list_sum (map (fun entry => count (snd entry)) pump_data)))
        %string;
      ("Total individual pumps: " ++ Str.of_nat total_efficiency_readings)
        %string;
      ""; "AMPERAGE ANALYSIS:"; Str.rep 18 "-"] ++
     Report.condition_block bar_0 (Amp.get amp_analysis bar_0) ++
     Report.condition_block bar_200 (Amp.get amp_analysis bar_200) ++
     ReportSpec.efficiency_lines efficiency_ranges total_efficiency_readings ++
     Report.eff_matching_lines tandem_matching_analysis
       (existsb (fun entry => PumpType_eqb (type (snd entry)) Tandem)
                pump_data)).
Proof.
  unfold generate_report_content. rewrite report_layout.
  unfold ReportSpec.header, ReportSpec.total_units, ReportSpec.has_tandem.
  rewrite <- !app_assoc. reflexivity.
Qed.

(** The element [max(l, key=f)] returns: the first one of greatest key. *)
Lemma max_by_fold {A : Type} (key : A -> Q) (xs pre post : list A) (b : A) :
  (forall y, In y pre -> key y < key b) ->
  (forall y, In y post -> key y <= key b) ->
  exists pre' post',
    pre ++ b :: post ++ xs = pre' ++ Report.max_by key b xs :: post' /\
    (forall y, In y pre' -> key y < key (Report.max_by key b xs)) /\
    (forall y, In y post' -> key y <= key (Report.max_by key b xs)).
Proof.
  unfold Report.max_by. revert pre post b.
  induction xs as [|y ys IH]; intros pre post b Hpre Hpost.
  - exists pre, post. rewrite app_nil_r. auto.
  - cbn [fold_left]. destruct (Qltb (key b) (key y)) eqn:E.
    + apply Qltb_lt in E.
      destruct (IH (pre ++ b :: post) [] y) as [pre' [post' [Heq H]]].
      * intros z Hz. apply in_app_or in Hz. destruct Hz as [Hz|[Hz|Hz]].
        -- specialize (Hpre z Hz). lra.
        -- subst z. exact E.
        -- specialize (Hpost z Hz). lra.
      * intros z [].
      * exists pre', post'. split; [|exact H].
        rewrite <- Heq. rewrite <- !app_assoc. reflexivity.
    + apply Qltb_ge in E.
      destruct (IH pre (post ++ [y]) b) as [pre' [post' [Heq H]]].
      * exact Hpre.
      * intros z Hz. apply in_app_or in Hz. destruct Hz as [Hz|[Hz|[]]].
        -- auto.
        -- subst z. exact E.
      * exists pre', post'. split; [|exact H].
        rewrite <- Heq. rewrite <- !app_assoc. reflexivity.
Qed.

Lemma max_by_first_greatest {A : Type} (key : A -> Q) (x : A) (xs : list A) :
  exists pre post,
    x :: xs = pre ++ Report.max_by key x xs :: post /\
    (forall y, In y pre -> key y < key (Report.max_by key x xs)) /\
    (forall y, In y post -> key y <= key (Report.max_by key x xs)).
Proof.
  destruct (max_by_fold key xs [] [] x) as [pre [post H]];
    [intros y [] | intros y [] |].
  exists pre, post. exact H.
Qed.

Lemma filter_split {A : Type} (f : A -> bool) (l a b : list A) (w : A) :
  filter f l = a ++ w :: b ->
  exists pre post,
    l = pre ++ w :: post /\ filter f pre = a /\ filter f post = b.
Proof.
  revert a. induction l as [|x l IH]; intros a H.
  - destruct a; discriminate.
  - cbn [filter] in H. destruct (f x) eqn:E.
    + destruct a as [|a0 a].
      * inversion H. subst. exists [], l. simpl. auto.
      * inversion H. subst a0.
        destruct (IH a H2) as [pre [post [Hl [Ha Hb]]]].
        exists (x :: pre), post. simpl. rewrite E, Ha. subst l. auto.
    + destruct (IH a H) as [pre [post [Hl [Ha Hb]]]].
      exists (x :: pre), post. simpl. rewrite E. subst l. auto.
Qed.

(** The first element of greatest key among those over a threshold is the
    first element of greatest key of the whole list. *)
Lemma worst_over_threshold {A : Type} (key : A -> Q) (t : Q) (l : list A)
    (u : A) (us : list A) :
  filter (fun x => Qltb t (key x)) l = u :: us ->
  let w := Report.max_by key u us in
  t < key w /\
  exists pre post,
    l = pre ++ w :: post /\
    (forall y, In y pre -> key y < key w) /\
    (forall y, In y post -> key y <= key w).
Proof.
  intros Hf. cbv zeta.
  destruct (max_by_first_greatest key u us) as [a [b [Hab [Ha Hb]]]].
  set (w := Report.max_by key u us) in *.
  assert (Hw : t < key w).
  { assert (In w (filter (fun x => Qltb t (key x)) l)).
    { rewrite Hf, Hab. apply in_or_app. right. left. reflexivity. }
    apply filter_In in H. apply Qltb_lt. apply H. }
  split; [exact Hw|].
  rewrite Hab in Hf.
  destruct (filter_split _ _ _ _ _ Hf) as [pre [post [Hl [Fa Fb]]]].
  exists pre, post. split; [exact Hl|]. split.
  - intros y Hy. destruct (Qltb t (key y)) eqn:E.
    + apply Ha. rewrite <- Fa. apply filter_In. auto.
    + apply Qltb_ge in E. lra.
  - intros y Hy. destruct (Qltb t (key y)) eqn:E.
    + apply Hb. rewrite <- Fb. apply filter_In. auto.
    + apply Qltb_ge in E. lra.
Qed.

(** X14. When some tandem entry of a condition has a percentage difference
    over 10, the line of the worst mismatch names an entry over 10 whose
    percentage difference no entry exceeds, and among the entries of that
    greatest difference the first in the list; the efficiency line of the
    worst mismatch does the same with the difference and the threshold 3.
    When no entry is over the threshold the line says that all units are
    within tolerance. *)
Theorem worst_mismatch_is_first_greatest :
  (forall (ta : list Amp.Match) (e : Amp.Match),
     In e ta ->
     match filter (fun u => Qltb 10 (Amp.percentage_diff u)) ta with
     | [] =>
         last (Report.amp_matching_lines ta) "" =
         "    - All tandem units within 10% tolerance"
     | u :: us =>
         exists w pre post,
           ta = pre ++ w :: post /\
           10 < Amp.percentage_diff w /\
           (forall y, In y pre ->
              Amp.percentage_diff y < Amp.percentage_diff w) /\
           (forall y, In y post ->
              Amp.percentage_diff y <= Amp.percentage_diff w) /\
           last (Report.amp_matching_lines ta) "" =
           ("    - Worst mismatch: " ++
            Report.fixed 1 (Amp.percentage_diff w) ++
            "% (Unit " ++ Amp.unit_id w ++ ")")%string
     end) /\
  (forall (tma : list Eff.Match) (e : Eff.Match),
     In e tma ->
     match filter (fun u => Qltb 3 (Eff.difference u)) tma with
     | [] =>
         last (Report.eff_matching_lines (Some tma) true) "" =
         "All tandem units within 3% efficiency tolerance"
     | u :: us =>
         exists w pre post,
           tma = pre ++ w :: post /\
           3 < Eff.difference w /\
           (forall y, In y pre -> Eff.difference y < Eff.difference w) /\
           (forall y, In y post -> Eff.difference y <= Eff.difference w) /\
           last (Report.eff_matching_lines (Some tma) true) "" =
           ("Worst efficiency mismatch: " ++
            Report.fixed 2 (Eff.difference w) ++
            "% (Unit " ++ Eff.unit_id w ++ ")")%string
     end).
Proof.
  split.
  - intros ta e He. destruct ta as [|t0 ta']; [destruct He|].
    unfold Report.amp_matching_lines.
    destruct (filter _ (t0 :: ta')) as [|u us] eqn:Hf.
    + reflexivity.
    + destruct (worst_over_threshold Amp.percentage_diff 10 _ u us Hf)
        as [Hw [pre [post [Hl [Hpre Hpost]]]]].
      exists (Report.max_by Amp.percentage_diff u us), pre, post.
      repeat split; auto.
  - intros tma e He. destruct tma as [|t0 tma']; [destruct He|].
    unfold Report.eff_matching_lines.
    destruct (filter _ (t0 :: tma')) as [|u us] eqn:Hf.
    + reflexivity.
    + destruct (worst_over_threshold Eff.difference 3 _ u us Hf)
        as [Hw [pre [post [Hl [Hpre Hpost]]]]].
      exists (Report.max_by Eff.difference u us), pre, post.
      repeat split; auto.
Qed.

(** X15. Tandem efficiency entries come from Tandem sheets only: when the
    analysis of the sheets has an entry, some sheet is Tandem. In the report
    of a run the section of the tandem pump matching is therefore present
    exactly when the analysis has at least one entry, and input with Single
    sheets only never has it. *)
Theorem tandem_section_iff_entries (pump_data : PumpData) :
  let r := analyze_efficiency_distribution pump_data in
  (Eff.tandem_matching_analysis r <> [] ->
   ReportSpec.has_tandem pump_data = true) /\
  (Report.eff_matching_lines (Some (Eff.tandem_matching_analysis r))
     (ReportSpec.has_tandem pump_data) = [] <->
   Eff.tandem_matching_analysis r = []) /\
  ((forall entry, In entry pump_data -> type (snd entry) = Single) ->
   Eff.tandem_matching_analysis r = []).
Proof.
  cbv zeta. rewrite eff_analyze_matches.
  assert (HT : EffUnits.matches pump_data <> [] ->
               ReportSpec.has_tandem pump_data = true).
  { intros Hne. destruct (EffUnits.matches pump_data) as [|e l] eqn:E;
      [contradiction|].
    assert (Hin : In e (EffUnits.matches pump_data))
      by (rewrite E; left; reflexivity).
    destruct (eff_match_facts pump_data e Hin)
      as [_ [_ [_ [_ [entry [He Ht]]]]]].
    unfold ReportSpec.has_tandem. apply existsb_exists.
    exists entry. rewrite Ht. auto. }
  split; [exact HT|]. split.
  - unfold Report.eff_matching_lines.
    destruct (EffUnits.matches pump_data) as [|e l] eqn:E.
    + split; reflexivity.
    + rewrite HT by discriminate. split; discriminate.
  - intros Hs. destruct (EffUnits.matches pump_data) as [|e l] eqn:E;
      [reflexivity|].
    assert (Hin : In e (EffUnits.matches pump_data))
      by (rewrite E; left; reflexivity).
    destruct (eff_match_facts pump_data e Hin)
      as [_ [_ [_ [_ [entry [He Ht]]]]]].
    rewrite (Hs entry He) in Ht. discriminate.
Qed.

Lemma amp_values_have_units (c : condition) (pump_data : PumpData) (v : Q) :
  In v (AmpSpec.folded_values c pump_data) ->
  (0 < AmpSpec.units c pump_data)%nat.
Proof.
  unfold AmpSpec.folded_values. intros H.
  apply in_flat_map in H. destruct H as [entry [Hentry H]].
  unfold AmpSpec.sheet_values in H. apply in_flat_map in H.
  destruct H as [row [Hrow H]].
  assert (Hu : (0 < AmpSpec.sheet_units c (snd entry))%nat).
  { assert (Hlen : (0 < len (data (snd entry)))%nat).
    { unfold len. destruct (rows (data (snd entry))); [destruct Hrow|].
      simpl. lia. }
    unfold AmpSpec.sheet_units. unfold AmpSpec.unit_values in H.
    destruct (type (snd entry)).
    - destruct (has_column _ (amp_col c P1)); [exact Hlen | destruct H].
    - destruct (has_column _ (amp_col c P1) && has_column _ (amp_col c P2));
        [exact Hlen | destruct H]. }
  clear H Hrow. rewrite amp_units_list_sum.
  induction pump_data as [|e pd IH]; [destruct Hentry|].
  unfold list_sum. cbn [map fold_right].
  destruct Hentry as [E|Hentry]; [subst e; lia|].
  specialize (IH Hentry). unfold list_sum in IH. lia.
Qed.

(** X16. In the report of a run, the block of a condition has its minimum
    and maximum amperage lines exactly when at least one reading was folded
    for the condition. The minimum [m] that is handed to the two-decimal
    format is then strictly positive and at most the maximum; this is a
    fact about the number, not about its text: a minimum under 0.005 is
    printed as 0.00. The block ends with the number of units analyzed. With
    no folded reading the block has its title and one line: the number of
    units analyzed, or the line for no data when that number is 0. *)
Theorem min_max_lines_iff_folded (pump_data : PumpData) (c : condition) :
  let st := Amp.get (analyze_amperage pump_data) c in
  let title := (Report.condition_name c ++ " Conditions:")%string in
  (AmpSpec.folded_values c pump_data <> [] ->
   exists m, Amp.min st = Fin m /\ 0 < m /\ m <= Amp.max st /\
     Report.condition_block c st =
     [title;
      ("  Minimum amperage: " ++ Report.fixed 2 m ++ " A")%string;
      ("  Maximum amperage: " ++ Report.fixed 2 (Amp.max st) ++ " A")%string]
     ++ Report.amp_matching_lines (Amp.tandem_analysis st) ++
     [("  Total units analyzed: " ++ Str.of_nat (Amp.unit_count st))%string;
      ""]) /\
  (AmpSpec.folded_values c pump_data = [] ->
   Report.condition_block c st =
   [title;
    if (0 <? Amp.unit_count st)%nat
    then ("  Total units analyzed: " ++ Str.of_nat (Amp.unit_count st))%string
    else "  No data available";
    ""]).
Proof.
  cbv zeta.
  destruct (amp_result_spec c pump_data) as [N S].
  pose proof (amp_folded_values_positive c pump_data) as Pos.
  split.
  - intros Hne. destruct (S Hne) as [m [Em [Hin [Hle [Hin' Hge]]]]].
    exists m. pose proof (Pos _ Hin) as Pm. pose proof (Hle _ Hin') as Hmm.
    repeat split; try assumption.
    pose proof (amp_values_have_units c pump_data m Hin) as U.
    rewrite <- amp_analyze_unit_count in U.
    unfold Report.condition_block. rewrite Em.
    apply Nat.ltb_lt in U. rewrite U.
    assert (Hmax : Qltb 0 (Amp.max (Amp.get (analyze_amperage pump_data) c))
                   = true) by (apply Qltb_lt; lra).
    rewrite Hmax. cbn [Report.fixed_ext]. rewrite <- !app_assoc. reflexivity.
  - intros He. destruct (N He) as [Em Ex].
    assert (Hta : Amp.tandem_analysis (Amp.get (analyze_amperage pump_data) c)
                  = []).
    { rewrite amp_analyze_matches.
      destruct (AmpUnits.matches c pump_data) as [|e l] eqn:E; [reflexivity|].
      assert (Hin : In e (AmpUnits.matches c pump_data))
        by (rewrite E; left; reflexivity).
      destruct (amp_match_facts c pump_data e Hin) as [_ [_ [_ [_ [I1 _]]]]].
      rewrite He in I1. destruct I1. }
    unfold Report.condition_block. rewrite Ex, Hta.
    cbn [Report.amp_matching_lines].
    destruct (0 <? Amp.unit_count (Amp.get (analyze_amperage pump_data) c))%nat;
      reflexivity.
Qed.

(** ** Reading the sheets and the main logic *)

(** X17. [analyze_pump_data] keeps the sheets in their order, gives each
    entry its frame, the type [determine_pump_type] finds for the frame and
    the sheet name, and the number of rows as [count]; the [total_pumps] it
    returns is the number of rows of all the sheets, the number the report
    prints as the total of units tested. *)
Theorem analyze_pump_data_entries (sheets : list (string * DataFrame)) :
  fst (analyze_pump_data sheets) =
    map (fun s => (fst s, mkSheet (snd s)
                            (determine_pump_type (snd s) (fst s))
                            (len (snd s)))) sheets /\
  snd (analyze_pump_data sheets) =
    list_sum (map (fun s => len (snd s)) sheets) /\
  snd (analyze_pump_data sheets) =
    ReportSpec.total_units (fst (analyze_pump_data sheets)).
Proof.
  unfold analyze_pump_data. rewrite analyze_pump_data_fold.
  cbn [fst snd app Nat.add]. repeat split.
  unfold ReportSpec.total_units. rewrite map_map. reflexivity.
Qed.

(** X18. The main logic produces a report exactly when the sheets have at
    least one row between them; with no sheet, or with sheets that all have
    no row, it produces none. *)
Theorem main_reports_iff_rows (sheets : list (string * DataFrame)) :
  (main sheets = None <->
   forall s, In s sheets -> rows (snd s) = []) /\
  (main sheets <> None <->
   (0 < list_sum (map (fun s => len (snd s)) sheets))%nat).
Proof.
  assert (Z : list_sum (map (fun s : string * DataFrame => len (snd s)) sheets)
              = O <-> forall s, In s sheets -> rows (snd s) = []).
  { induction sheets as [|s l IH].
    - simpl. split; [intros _ s [] | reflexivity].
    - unfold list_sum in *. cbn [map fold_right]. split.
      + intros H s' [E|Hs'].
        * subst s'. unfold len in H. destruct (rows (snd s));
            [reflexivity | simpl in H; lia].
        * apply IH; [lia | exact Hs'].
      + intros H. rewrite (proj2 IH) by (intros s' Hs'; apply H; right; auto).
        unfold len. rewrite (H s (or_introl eq_refl)). reflexivity. }
  assert (M : main sheets = None <->
              list_sum (map (fun s : string * DataFrame => len (snd s)) sheets)
              = O).
  { unfold main. destruct (analyze_pump_data_entries sheets) as [E1 [E2 _]].
    destruct (analyze_pump_data sheets) as [pd tp]. cbn [fst snd] in *.
    rewrite <- E2. destruct pd as [|e pd'].
    - split; [|reflexivity]. intros _.
      destruct sheets; [rewrite E2; reflexivity | discriminate].
    - destruct tp; simpl; split; try reflexivity; try discriminate. }
  split.
  - rewrite M. exact Z.
  - rewrite M. lia.
Qed.

(** ** PDF report *)

Lemma prefix_empty (s : string) : String.prefix "" s = true.
Proof. destruct s; reflexivity. Qed.

Lemma contains_char_cons (sep c : ascii) (s : string) :
  Str.contains (String sep "") (String c s) = false ->
  c <> sep /\ Str.contains (String sep "") s = false.
Proof.
  cbn [Str.contains String.prefix]. intros H.
  apply orb_false_iff in H. destruct H as [H1 H2]. split; [|exact H2].
  intros E. subst c. destruct (ascii_dec sep sep) as [_|N]; [|contradiction].
  rewrite prefix_empty in H1. discriminate.
Qed.

Lemma split_line (sep : ascii) (l : string) :
  Str.contains (String sep "") l = false -> Pdf.split sep l = [l].
Proof.
  induction l as [|c l IH]; intros H; [reflexivity|].
  apply contains_char_cons in H. destruct H as [Hc Hl].
  cbn [Pdf.split]. apply Ascii.eqb_neq in Hc. rewrite Hc, (IH Hl). reflexivity.
Qed.

Lemma split_line_sep (sep : ascii) (l rest : string) :
  Str.contains (String sep "") l = false ->
  Pdf.split sep (l ++ String sep rest) = l :: Pdf.split sep rest.
Proof.
  induction l as [|c l IH]; intros H.
  - cbn [append Pdf.split]. rewrite Ascii.eqb_refl. reflexivity.
  - apply contains_char_cons in H. destruct H as [Hc Hl].
    cbn [append Pdf.split]. apply Ascii.eqb_neq in Hc.
    rewrite Hc, (IH Hl). reflexivity.
Qed.

(** X19. Splitting the joined text gives the lines back: for a non-empty
    list of lines none of which holds a newline, the lines that
    [create_pdf_report] obtains by splitting the text at the newlines are
    the lines that [generate_report_content] joined, in order. *)
Theorem split_join_lines (lines : list string) :
  lines <> [] ->
  (forall l, In l lines -> Str.contains (String "010" "") l = false) ->
  Pdf.split "010" (Str.join (String "010" "") lines) = lines.
Proof.
  intros Hne H. induction lines as [|l ls IH]; [contradiction|].
  destruct ls as [|l2 ls].
  - cbn [Str.join]. apply split_line. apply H. left. reflexivity.
  - change (Str.join (String "010" "") (l :: l2 :: ls))
      with (l ++ String "010" (Str.join (String "010" "") (l2 :: ls)))%string.
    rewrite split_line_sep by (apply H; left; reflexivity).
    rewrite IH; [reflexivity | discriminate |].
    intros l' Hl'. apply H. right. exact Hl'.
Qed.

Lemma split_join_lines_witness :
  Pdf.split "010"
    (Str.join (String "010" "")
       ["AMPERAGE ANALYSIS:"; "------------------"; "0 Bar Conditions:";
        "  No data available"; ""]) =
  ["AMPERAGE ANALYSIS:"; "------------------"; "0 Bar Conditions:";
   "  No data available"; ""].
Proof.
  apply split_join_lines; [discriminate|].
  intros l H. repeat (destruct H as [H|H]; [subst l; reflexivity|]).
  destruct H.
Defined.

Lemma printed_app (a b : list Pdf.op) (cur : option Pdf.font) :
  Pdf.printed (a ++ b) cur =
  (fst (Pdf.printed a cur) ++ fst (Pdf.printed b (snd (Pdf.printed a cur))),
   snd (Pdf.printed b (snd (Pdf.printed a cur)))).
Proof.
  revert cur. induction a as [|o a IH]; intros cur.
  - simpl. destruct (Pdf.printed b cur); reflexivity.
  - destruct o; cbn [app Pdf.printed]; try apply IH.
    rewrite IH. destruct (Pdf.printed a cur). reflexivity.
Qed.

Lemma printed_line (line : string) :
  Pdf.printed (Pdf.line_ops line) (Some ("Arial", "", 10%nat)) =
  (Pdf.line_text line, Some ("Arial", "", 10%nat)).
Proof.
  unfold Pdf.line_ops, Pdf.line_text.
  destruct (String.prefix "PUMP PERFORMANCE TEST REPORT" line); [reflexivity|].
  destruct (String.prefix "=" line); [reflexivity|].
  destruct (Pdf.endswith ":" line && negb (String.prefix " " line));
    [reflexivity|].
  destruct (String.prefix "-" line); reflexivity.
Qed.

Lemma printed_lines (lines : list string) :
  Pdf.printed (flat_map Pdf.line_ops lines) (Some ("Arial", "", 10%nat)) =
  (flat_map Pdf.line_text lines, Some ("Arial", "", 10%nat)).
Proof.
  induction lines as [|l ls IH]; [reflexivity|].
  cbn [flat_map]. rewrite printed_app, printed_line. cbn [fst snd].
  rewrite IH. reflexivity.
Qed.

Lemma fold_line_ops (lines : list string) (pdf : list Pdf.op) :
  fold_left (fun pdf line => pdf ++ Pdf.line_ops line) lines pdf =
  pdf ++ flat_map Pdf.line_ops lines.
Proof.
  revert pdf. induction lines as [|l ls IH]; intros pdf.
  - simpl. rewrite app_nil_r. reflexivity.
  - cbn [fold_left flat_map]. rewrite IH, app_assoc. reflexivity.
Qed.

(** X20. The PDF prints, in order: the company name in Arial bold 16, the
    customer and the order number in Arial 12, and then what each line of the
    report gives: a line that starts with the report title in Arial bold 14,
    a line that ends with a colon and does not start with a space in Arial
    bold 11, nothing for the other lines that start with "=" or "-", and
    every other line in Arial 10. The font is Arial 10 again after every
    line, so a title or a heading never makes the lines after it bold. *)
Theorem pdf_printed_texts (logo_exists : bool)
    (report_content customer_name order_no : string) :
  Pdf.printed
    (Pdf.create_pdf_report logo_exists report_content customer_name order_no)
    None =
  ([(Some ("Arial", "B", 16%nat), "VBC HYDRAULICS");
    (Some ("Arial", "", 12%nat), ("Customer: " ++ customer_name)%string);
    (Some ("Arial", "", 12%nat), ("Order No.: " ++ order_no)%string)] ++
   flat_map Pdf.line_text (Pdf.split "010" report_content),
   Some ("Arial", "", 10%nat)).
Proof.
  unfold Pdf.create_pdf_report. rewrite fold_line_ops, printed_app.
  assert (H : forall ops,
            ops = (if logo_exists
                   then [Pdf.add_page] ++ [Pdf.image "assets/logo.png" 10 8 33]
                   else [Pdf.add_page]) ->
            Pdf.printed
              (((ops ++
                 [Pdf.set_font "Arial" "B" 16;
                  Pdf.cell 200 10 "VBC HYDRAULICS" true "C"; Pdf.ln 5]) ++
                [Pdf.set_font "Arial" "" 12;
                 Pdf.cell 200 10 ("Customer: " ++ customer_name) true "";
                 Pdf.cell 200 10 ("Order No.: " ++ order_no) true "";
                 Pdf.ln 10]) ++ [Pdf.set_font "Arial" "" 10]) None =
            ([(Some ("Arial", "B", 16%nat), "VBC HYDRAULICS");
              (Some ("Arial", "", 12%nat), ("Customer: " ++ customer_name)%string);
              (Some ("Arial", "", 12%nat), ("Order No.: " ++ order_no)%string)],
             Some ("Arial", "", 10%nat))).
  { intros ops E. subst ops. destruct logo_exists; reflexivity. }
  rewrite (H _ eq_refl). cbn [fst snd]. rewrite printed_lines. reflexivity.
Qed.

Lemma append_assoc (a b c : string) :
  ((a ++ b) ++ c = a ++ (b ++ c))%string.
Proof.
  induction a as [|x a IH]; cbn [append]; [reflexivity|].
  rewrite IH. reflexivity.
Qed.

Lemma append_nil_r (a : string) : (a ++ "")%string = a.
Proof.
  induction a as [|x a IH]; cbn [append]; [reflexivity|].
  rewrite IH. reflexivity.
Qed.

Lemma rev_app (a b : string) :
  Pdf.rev (a ++ b) = (Pdf.rev b ++ Pdf.rev a)%string.
Proof.
  induction a as [|c a IH]; cbn [append Pdf.rev].
  - rewrite append_nil_r. reflexivity.
  - rewrite IH, append_assoc. reflexivity.
Qed.

(** A configuration line does not end with a colon. *)
Lemma config_line_no_colon (entry : string * SheetData) :
  Pdf.endswith ":" (ReportSpec.config_line entry) = false.
Proof.
  unfold Pdf.endswith, ReportSpec.config_line.
  destruct (type (snd entry));
    rewrite <- !append_assoc, rev_app; reflexivity.
Qed.

(** X21. The configuration line of a sheet whose name starts with "=" or
    with "-" is not printed in the PDF: the loop of [create_pdf_report]
    takes it for a decorative line and only moves down, although the line is
    part of the report text. *)
Theorem config_line_lost_in_pdf (name : string) (sd : SheetData) :
  String.prefix "=" name = true \/ String.prefix "-" name = true ->
  Pdf.line_text (ReportSpec.config_line (name, sd)) = [] /\
  exists h, Pdf.line_ops (ReportSpec.config_line (name, sd)) = [Pdf.ln h].
Proof.
  intros H.
  pose proof (config_line_no_colon (name, sd)) as Hc.
  unfold Pdf.line_text, Pdf.line_ops. rewrite Hc. cbn [andb].
  unfold ReportSpec.config_line in *. cbn [fst snd] in *.
  destruct H as [H|H]; destruct (prefix_split _ _ H) as [post Hp]; subst name;
    destruct (type sd); cbn; rewrite ?prefix_empty;
    (split; [reflexivity | eexists; reflexivity]).
Qed.

Lemma config_line_lost_in_pdf_witness :
  Pdf.line_text
    (ReportSpec.config_line ("-old", mkSheet (mkDF ["Eff%P1"] []) Single 0))
  = [].
Proof.
  refine (proj1 (config_line_lost_in_pdf "-old" _ _)).
  right. reflexivity.
Defined.

(** ** The loops of the test scripts against the application *)

Lemma test_fixed_get_sheet (a : TestFixed.Analysis) (entry : string * SheetData)
    (c : condition) :
  TestFixed.get (TestFixed.sheet a entry) c =
  match type (snd entry) with
  | Single => TestFixed.single (data (snd entry)) c (TestFixed.get a c)
  | Tandem => TestFixed.tandem (data (snd entry)) c (TestFixed.get a c)
  end.
Proof.
  unfold TestFixed.sheet. destruct (type (snd entry)); destruct c; reflexivity.
Qed.

Lemma test_fixed_single (df : DataFrame) (c : condition) (st : Amp.Stat) :
  TestFixed.single df c
    (TestFixed.mkStat (Amp.min st) (Amp.max st) (Amp.unit_count st)) =
  TestFixed.mkStat (Amp.min (Amp.single df c st)) (Amp.max (Amp.single df c st))
                   (Amp.unit_count (Amp.single df c st)).
Proof.
  unfold TestFixed.single, Amp.single.
  destruct (has_column df (amp_col c P1)); [|reflexivity].
  destruct (non_zero_values df (amp_col c P1)); reflexivity.
Qed.

Lemma test_fixed_tandem_rows (df : DataFrame) (c : condition)
    (irs : list (nat * Row)) (st : Amp.Stat) :
  fold_left (TestFixed.tandem_row c) irs
    (TestFixed.mkStat (Amp.min st) (Amp.max st) (Amp.unit_count st)) =
  let st' := fold_left (Amp.tandem_row df c) irs st in
  TestFixed.mkStat (Amp.min st') (Amp.max st') (Amp.unit_count st').
Proof.
  cbv zeta. revert st. induction irs as [|[idx row] irs IH]; intros st.
  - reflexivity.
  - cbn [fold_left]. rewrite <- IH. f_equal.
    unfold TestFixed.tandem_row, Amp.tandem_row.
    destruct (positive (at_col row (amp_col c P1)));
      [destruct (positive (at_col row (amp_col c P2)))|]; reflexivity.
Qed.

Lemma test_fixed_tandem (df : DataFrame) (c : condition) (st : Amp.Stat) :
  TestFixed.tandem df c
    (TestFixed.mkStat (Amp.min st) (Amp.max st) (Amp.unit_count st)) =
  TestFixed.mkStat (Amp.min (Amp.tandem df c st)) (Amp.max (Amp.tandem df c st))
                   (Amp.unit_count (Amp.tandem df c st)).
Proof.
  unfold TestFixed.tandem, Amp.tandem.
  destruct (has_column df (amp_col c P1) && has_column df (amp_col c P2));
    [|reflexivity].
  rewrite (test_fixed_tandem_rows df). reflexivity.
Qed.

Lemma test_fixed_fold (c : condition) (pump_data : PumpData)
    (t : TestFixed.Analysis) (a : Amp.Analysis) :
  TestFixed.get t c =
    TestFixed.mkStat (Amp.min (Amp.get a c)) (Amp.max (Amp.get a c))
                     (Amp.unit_count (Amp.get a c)) ->
  TestFixed.get (fold_left TestFixed.sheet pump_data t) c =
  let st := Amp.get (fold_left Amp.sheet pump_data a) c in
  TestFixed.mkStat (Amp.min st) (Amp.max st) (Amp.unit_count st).
Proof.
  cbv zeta. revert t a. induction pump_data as [|entry pd IH]; intros t a H.
  - exact H.
  - cbn [fold_left]. apply IH.
    rewrite test_fixed_get_sheet, amp_get_sheet, H.
    destruct (type (snd entry)).
    + apply test_fixed_single.
    + apply test_fixed_tandem.
Qed.

(** X22. The amperage loop of [test_fixed_analysis.py] computes, for every
    input and each condition, the minimum, the maximum and the unit count
    that [analyze_amperage] of the application computes; it only leaves the
    tandem entries out. *)
Theorem test_fixed_agrees_with_app (pump_data : PumpData) (c : condition) :
  let t := TestFixed.get (TestFixed.analyze pump_data) c in
  let a := Amp.get (analyze_amperage pump_data) c in
  TestFixed.min t = Amp.min a /\
  TestFixed.max t = Amp.max a /\
  TestFixed.unit_count t = Amp.unit_count a.
Proof.
  cbv zeta. rewrite amp_get_analyze.
  assert (E : TestFixed.get (TestFixed.analyze pump_data) c =
              TestFixed.no_reading_to_zero
                (TestFixed.get (fold_left TestFixed.sheet pump_data
                                  TestFixed.init) c))
    by (unfold TestFixed.analyze; destruct c; reflexivity).
  rewrite E.
  rewrite (test_fixed_fold c pump_data TestFixed.init Amp.init)
    by (destruct c; reflexivity).
  cbv zeta. fold (Amp.folded pump_data).
  unfold TestFixed.no_reading_to_zero, Amp.no_reading_to_zero.
  cbn [TestFixed.min TestFixed.max TestFixed.unit_count].
  destruct (Amp.min (Amp.get (Amp.folded pump_data) c)) eqn:Em;
    cbn; rewrite ?Em; auto.
Qed.

Lemma test_smart_sheet (df : DataFrame) :
  TestSmart.sheet_efficiencies df =
  (if has_column df "Eff%P1" then non_zero_values df "Eff%P1" else []) ++
  (if has_column df "Eff%P2" then non_zero_values df "Eff%P2" else []).
Proof.
  unfold TestSmart.sheet_efficiencies. cbn [fold_left].
  destruct (has_column df "Eff%P1"); destruct (has_column df "Eff%P2");
    cbn [app]; rewrite ?app_nil_r; reflexivity.
Qed.

Lemma test_smart_all (pump_data : PumpData) :
  TestSmart.all_efficiencies pump_data =
  flat_map (fun entry => TestSmart.sheet_efficiencies (data (snd entry)))
           pump_data.
Proof.
  unfold TestSmart.all_efficiencies.
  change (flat_map (fun entry => TestSmart.sheet_efficiencies (data (snd entry)))
            pump_data)
    with ([] ++ flat_map (fun entry : string * SheetData =>
                            TestSmart.sheet_efficiencies (data (snd entry)))
                   pump_data).
  generalize (@nil Q).
  induction pump_data as [|entry pd IH]; intros acc.
  - simpl. rewrite app_nil_r. reflexivity.
  - cbn [fold_left flat_map]. rewrite IH, app_assoc. reflexivity.
Qed.

Lemma filter_flat_map_length {A : Type} (f : Q -> bool) (g : A -> list Q)
    (l : list A) :
  List.length (filter f (flat_map g l)) =
  list_sum (map (fun x => List.length (filter f (g x))) l).
Proof.
  induction l as [|x l IH]; [reflexivity|].
  cbn [flat_map map]. rewrite filter_app, length_app, IH. reflexivity.
Qed.

Lemma list_sum_le {A : Type} (g h : A -> nat) (l : list A) :
  (forall x, In x l -> g x <= h x)%nat ->
  (list_sum (map g l) <= list_sum (map h l))%nat.
Proof.
  induction l as [|x l IH]; intros H; [simpl; lia|].
  unfold list_sum in *. cbn [map fold_right].
  pose proof (H x (or_introl eq_refl)) as Hx.
  assert (Hl : forall y, In y l -> (g y <= h y)%nat)
    by (intros y Hy; apply H; right; exact Hy).
  specialize (IH Hl). lia.
Qed.

Lemma list_sum_add {A : Type} (g h : A -> nat) (l : list A) :
  list_sum (map (fun x => g x + h x)%nat l) =
  (list_sum (map g l) + list_sum (map h l))%nat.
Proof.
  induction l as [|x l IH]; [reflexivity|].
  unfold list_sum in *. cbn [map fold_right]. rewrite IH. lia.
Qed.

Lemma list_sum_zero {A : Type} (l : list A) :
  list_sum (map (fun _ : A => O) l) = O.
Proof. induction l as [|x l IH]; [reflexivity | exact IH]. Qed.

Lemma column_count (f : Q -> bool) (df : DataFrame) (col : string) :
  List.length
    (filter f (if has_column df col then non_zero_values df col else [])) =
  list_sum (map (TestSmart.row_count f df col) (rows df)).
Proof.
  unfold TestSmart.row_count. destruct (has_column df col).
  - rewrite non_zero_values_rows, filter_flat_map_length. reflexivity.
  - rewrite list_sum_zero. reflexivity.
Qed.

Lemma unit_readings_le (f : Q -> bool) (t : PumpType) (df : DataFrame)
    (row : Row) :
  (List.length (filter f (EffSpec.unit_readings t df row)) <=
   TestSmart.row_count f df "Eff%P1" row +
   TestSmart.row_count f df "Eff%P2" row)%nat.
Proof.
  unfold EffSpec.unit_readings, TestSmart.row_count, row_get. destruct t.
  - destruct (has_column df "Eff%P1"); [lia | simpl; lia].
  - assert (Z : positive (Num 0) = None) by reflexivity.
    destruct (has_column df "Eff%P1"); destruct (has_column df "Eff%P2");
      rewrite ?Z;
      try (destruct (positive (at_col row "Eff%P1")) as [p1|]);
      try (destruct (positive (at_col row "Eff%P2")) as [p2|]);
      cbn [filter List.length]; try lia.
    destruct (f p1); destruct (f p2); cbn [List.length]; lia.
Qed.

(** Row by row, what the application counts for a sheet is among what the
    script collects for it. *)
Lemma sheet_readings_le (f : Q -> bool) (sd : SheetData) :
  (List.length (filter f (EffSpec.sheet_readings sd)) <=
   List.length (filter f (TestSmart.sheet_efficiencies (data sd))))%nat.
Proof.
  rewrite test_smart_sheet, filter_app, length_app, !column_count.
  unfold EffSpec.sheet_readings.
  rewrite filter_flat_map_length, <- list_sum_add.
  apply list_sum_le. intros row _. apply unit_readings_le.
Qed.

Lemma counted_readings_le (f : Q -> bool) (pump_data : PumpData) :
  (List.length (filter f (EffSpec.counted_readings pump_data)) <=
   List.length (filter f (TestSmart.all_efficiencies pump_data)))%nat.
Proof.
  rewrite test_smart_all. unfold EffSpec.counted_readings.
  rewrite !filter_flat_map_length. apply list_sum_le.
  intros entry _. apply sheet_readings_le.
Qed.

Lemma filter_all {A : Type} (l : list A) : filter (fun _ => true) l = l.
Proof. induction l as [|x l IH]; simpl; [|rewrite IH]; reflexivity. Qed.

(** X23. The efficiency analysis of the application never counts more than
    the loop of [test_smart_analysis.py], which takes every positive value
    of the columns 'Eff%P1' and 'Eff%P2' whatever the type of the sheet: the
    total of readings and each of the three band counts of the application
    are at most those of the script. *)
Theorem app_counts_at_most_test_smart (pump_data : PumpData) :
  let r := analyze_efficiency_distribution pump_data in
  let old := TestSmart.analyze pump_data in
  (Eff.total_individual_pumps r <= snd old)%nat /\
  (Eff.r90_to_92 (Eff.efficiency_ranges r) <= Eff.r90_to_92 (fst old))%nat /\
  (Eff.r92_to_94 (Eff.efficiency_ranges r) <= Eff.r92_to_94 (fst old))%nat /\
  (Eff.r94_plus (Eff.efficiency_ranges r) <= Eff.r94_plus (fst old))%nat.
Proof.
  cbv zeta. destruct (eff_analyze_spec pump_data) as [R T].
  rewrite R, T. unfold TestSmart.analyze. cbn [fst snd].
  rewrite fold_categorize_bands. cbn.
  unfold EffUnits.in_band, EffUnits.at_least.
  repeat split; try apply counted_readings_le.
  pose proof (counted_readings_le (fun _ => true) pump_data) as H.
  rewrite !filter_all in H. exact H.
Qed.
